(** * The INE crime-rate extract job ([get-ine-data/__init__.py])

    A shallow embedding of the timer-triggered job that asks the INE
    indicator API for the last available year, fetches every year from 2011
    on, stores the merged answer as JSON, flattens it into a table and stores
    the table as CSV; followed by the properties of its four stages.

    Conventions of the embedding.
    - A Python [str] is a [string]; its characters are the code points
      below 256.
    - A Python [int] is a [Z]; interpreter resource limits (memory, the cap
      on the digits of a parsed integer) are not part of the model.
    - A Python [dict] with [str] keys is an association list in insertion
      order whose keys are distinct.
    - A call either returns, raises, or leaves the modelled fragment of
      pandas / [dict.update]; the last case is the explicit outcome
      [Unmodelled], about which no theorem says anything.
    - The stages are functions on values.  Where the question is which
      objects a stage changes, the stage is given a second time over a store
      of objects with references, and that run is shown to produce the
      table of the run on values. *)

From Stdlib Require Import List String Ascii ZArith Lia Bool Arith.
From Stdlib Require Import DecimalString DecimalPos.
Import ListNotations.

Set Warnings "-register-all".

Local Open Scope string_scope.
Local Open Scope Z_scope.
Local Open Scope list_scope.

Notation "a +++ b" := (String.append a b) (at level 60, right associativity).

(* ------------------------------------------------------------------ *)
(** ** Python values that travel through the job *)

(** A Python [float]: [FFinite m e] is [m * 2^e]. *)
Inductive pyfloat : Type :=
| FFinite (m e : Z)
| FInf (negative : bool)
| FNaN.

(** What [response.json()] can build. *)
Inductive json : Type :=
| JNull
| JBool (b : bool)
| JInt (z : Z)
| JFloat (f : pyfloat)
| JStr (s : string)
| JArr (items : list json)
| JObj (members : list (string * json)).

Inductive exn : Type :=
| HTTPError (msg : string)          (* requests.exceptions.HTTPError *)
| RequestError (msg : string)       (* any other failure of requests.get *)
| JSONDecodeError                   (* response.json() on a non-JSON body *)
| IndexError
| KeyError (key : json)
| TypeError
| ValueError
| OverflowError
| UnboundLocalError (name : string)
| LabelsNotFound (labels : list string)  (* KeyError of DataFrame.drop *)
| NoObjectsToConcatenate                 (* ValueError of pd.concat([]) *)
| UploadError (msg : string).            (* failure of upload_blob *)

(** [except HTTPError] takes exactly the first class; every other
    exception above is an [Exception] and reaches [except Exception]. *)
Definition is_HTTPError (e : exn) : bool :=
  match e with HTTPError _ => true | _ => false end.

Inductive Outcome (A : Type) : Type :=
| Return (a : A)
| Raise (e : exn)
| Unmodelled.
Arguments Return {A} a.
Arguments Raise {A} e.
Arguments Unmodelled {A}.

Definition bind {A B : Type} (c : Outcome A) (k : A -> Outcome B) : Outcome B :=
  match c with
  | Return a => k a
  | Raise e => Raise e
  | Unmodelled => Unmodelled
  end.

Notation "x <- c ;; k" := (bind c (fun x => k))
  (at level 61, c at next level, right associativity).

(** [logging.info] calls, in order.  A message that formats an exception
    keeps the exception itself instead of its text. *)
Inductive LogEntry : Type :=
| Info (msg : string)
| InfoExn (prefix : string) (e : exn).

(* ------------------------------------------------------------------ *)
(** ** Builtins: [dict], subscripts, [int], [str], [range], slices *)

Section Dict.
Context {V : Type}.

Fixpoint dict_get (k : string) (d : list (string * V)) : option V :=
  match d with
  | [] => None
  | (k', v) :: d' => if String.eqb k k' then Some v else dict_get k d'
  end.

(** [d[k] = v]: an existing key keeps its place, a new one goes last. *)
Fixpoint dict_set (k : string) (v : V) (d : list (string * V))
  : list (string * V) :=
  match d with
  | [] => [(k, v)]
  | (k', v') :: d' =>
      if String.eqb k k' then (k', v) :: d' else (k', v') :: dict_set k v d'
  end.

(** [d.update(other)] for a mapping [other]. *)
Definition dict_update (d other : list (string * V)) : list (string * V) :=
  fold_left (fun acc kv => dict_set (fst kv) (snd kv) acc) other d.

Definition keys (d : list (string * V)) : list string := map fst d.
End Dict.

(** [j[i]] for an index that is a non-negative [int] literal. *)
Definition getitem_index (j : json) (i : nat) : Outcome json :=
  match j with
  | JArr items =>
      match nth_error items i with
      | Some x => Return x
      | None => Raise IndexError
      end
  | JStr s =>
      match String.get i s with
      | Some c => Return (JStr (String c EmptyString))
      | None => Raise IndexError
      end
  | JObj _ => Raise (KeyError (JInt (Z.of_nat i)))
  | _ => Raise TypeError
  end.

(** [j[k]] for a [str] key. *)
Definition getitem_key (j : json) (k : string) : Outcome json :=
  match j with
  | JObj members =>
      match dict_get k members with
      | Some x => Return x
      | None => Raise (KeyError (JStr k))
      end
  | _ => Raise TypeError
  end.

(** White space as [int] sees it: tab to carriage return, space, and the
    two Latin-1 spaces U+0085 and U+00A0. *)
Definition is_space (c : ascii) : bool :=
  let n := nat_of_ascii c in
  (((9 <=? n) && (n <=? 13)) || (n =? 32) || (n =? 133) || (n =? 160))%nat.

Definition digit_of (c : ascii) : option Z :=
  let n := nat_of_ascii c in
  if ((48 <=? n) && (n <=? 57))%nat then Some (Z.of_nat (n - 48)) else None.

Fixpoint skip_spaces (s : string) : string :=
  match s with
  | String c s' => if is_space c then skip_spaces s' else s
  | EmptyString => s
  end.

Inductive scan_state : Type := AtStart | AfterDigit | AfterUnderscore.

(** The digits of a base-10 literal, single underscores allowed between
    digits; returns the value and the unread rest. *)
Fixpoint scan_digits (s : string) (acc : Z) (st : scan_state)
  : option (Z * string) :=
  match s with
  | EmptyString =>
      match st with AfterDigit => Some (acc, s) | _ => None end
  | String c s' =>
      match digit_of c with
      | Some d => scan_digits s' (10 * acc + d) AfterDigit
      | None =>
          if Ascii.eqb c "_"%char then
            match st with
            | AfterDigit => scan_digits s' acc AfterUnderscore
            | _ => None
            end
          else
            match st with AfterDigit => Some (acc, s) | _ => None end
      end
  end.

Definition int_of_str (s : string) : option Z :=
  let s1 := skip_spaces s in
  let '(sign, s2) :=
    match s1 with
    | String "+"%char r => (1, r)
    | String "-"%char r => (-1, r)
    | _ => (1, s1)
    end in
  match scan_digits s2 0 AtStart with
  | Some (n, rest) =>
      match skip_spaces rest with
      | EmptyString => Some (sign * n)
      | _ => None
      end
  | None => None
  end.

(** [int(j)]. *)
Definition py_int (j : json) : Outcome Z :=
  match j with
  | JStr s =>
      match int_of_str s with Some z => Return z | None => Raise ValueError end
  | JInt z => Return z
  | JBool b => Return (if b then 1 else 0)
  | JFloat (FFinite m e) =>
      Return (if 0 <=? e then m * 2 ^ e else Z.quot m (2 ^ (- e)))
  | JFloat (FInf _) => Raise OverflowError
  | JFloat FNaN => Raise ValueError
  | JNull | JArr _ | JObj _ => Raise TypeError
  end.

(** [str(z)] for an [int]. *)
Definition py_str (z : Z) : string := NilZero.string_of_int (Z.to_int z).

(** [list(range(lo, hi))]. *)
Definition py_range (lo hi : Z) : list Z :=
  map (fun i => lo + Z.of_nat i) (seq 0 (Z.to_nat (hi - lo))).

(** [s[-4:]]. *)
Definition last4 (s : string) : string :=
  substring (String.length s - 4) 4 s.

(* ------------------------------------------------------------------ *)
(** ** The HTTP API *)

Record Response : Type := {
  status_code : Z;
  body : option json   (* [None]: [response.json()] raises *)
}.

Inductive HttpResult : Type :=
| Responded (r : Response)
| Failed (e : exn).

Definition response_json (r : Response) : Outcome json :=
  match body r with
  | Some j => Return j
  | None => Raise JSONDecodeError
  end.

(** [int(response.json()[0]['UltimoPref'])]. *)
Definition last_year_field (response : Response) : Outcome Z :=
  j <- response_json response ;;
  j0 <- getitem_index j 0 ;;
  u <- getitem_key j0 "UltimoPref" ;;
  py_int u.

(** [response.json()[0]['Dados']]. *)
Definition dados (response : Response) : Outcome json :=
  j <- response_json response ;;
  j0 <- getitem_index j 0 ;;
  getitem_key j0 "Dados".

(** The module constants. *)
Definition indicator : string := "0008074".
Definition reqUrl : string :=
  "https://www.ine.pt/ine/json_indicador/pindica.jsp?varcd=" +++ indicator
    +++ "&lang=EN&op=2&Dim1=".

(* ------------------------------------------------------------------ *)
(** ** Stage 1: [get_parameters_range] *)

(** ['S7A' + str(item)], and the year a token of that form spells. *)
Definition year_token (y : Z) : string := "S7A" +++ py_str y.

Definition token_year (token : string) : option Z :=
  match token with
  | String "S" (String "7" (String "A" digits)) => int_of_str digits
  | _ => None
  end.

Section Api.
(** [requests.get], as a function of the URL for the length of a run. *)
Variable requests_get : string -> HttpResult.

(** The [try] suite: the log it wrote, and either the exception that left
    it or the binding of [parameters_list] at its end ([None]: unbound). *)
Definition range_try (url : string)
  : list LogEntry * Outcome (option (list string)) :=
  let first_year_parameter := "S7A2011" in
  match requests_get (url +++ first_year_parameter) with
  | Failed e => ([], Raise e)
  | Responded response =>
      if status_code response =? 200 then
        let log1 := [Info "Acessing the API to get the data range"] in
        let first_year := 2011 in
        match last_year_field response with
        | Return last_year =>
            let data_range := py_range first_year (last_year + 1) in
            (log1 ++
             [Info ("Last year of data is " +++ py_str last_year);
              Info ("Data from " +++ py_str first_year +++ " until "
                      +++ py_str last_year
                      +++ " will be requested to the API")],
             Return (Some (map year_token data_range)))
        | Raise e => (log1, Raise e)
        | Unmodelled => (log1, Unmodelled)
        end
      else ([], Return None)
  end.

Definition get_parameters_range (url : string)
  : list LogEntry * Outcome (list string) :=
  let '(log, r) := range_try url in
  match r with
  | Raise e =>
      (log ++ [InfoExn (if is_HTTPError e then "HTTP error occurred: "
                        else "Other error occurred: ") e],
       Raise (UnboundLocalError "parameters_list"))
  | Return bound =>
      (log ++ [Info "Parameters extracted with success!"],
       match bound with
       | Some parameters_list => Return parameters_list
       | None => Raise (UnboundLocalError "parameters_list")
       end)
  | Unmodelled => (log, Unmodelled)
  end.

(* ---------------------------------------------------------------- *)
(** ** Stage 2: [get_raw_data] *)

(** One element of the sequence handed to [dict.update]: it must unpack
    into a key and a value.  A [str] of two characters unpacks into its
    characters, a [dict] of two keys into those keys.  A key that is
    hashable but not a [str] leaves the modelled dictionaries. *)
Definition update_pair (elem : json) : Outcome (string * json) :=
  match elem with
  | JArr [k; v] =>
      match k with
      | JStr key => Return (key, v)
      | JArr _ | JObj _ => Raise TypeError
      | _ => Unmodelled
      end
  | JArr _ => Raise ValueError
  | JStr (String c1 (String c2 EmptyString)) =>
      Return (String c1 EmptyString, JStr (String c2 EmptyString))
  | JStr _ => Raise ValueError
  | JObj [(k1, _); (k2, _)] => Return (k1, JStr k2)
  | JObj _ => Raise ValueError
  | _ => Raise TypeError
  end.

(** Elements are stored one at a time, so the entries before a bad
    element stay in the dictionary when the call raises. *)
Fixpoint update_seq (d : list (string * json)) (elems : list json)
  : list (string * json) * Outcome unit :=
  match elems with
  | [] => (d, Return tt)
  | elem :: rest =>
      match update_pair elem with
      | Return (k, v) => update_seq (dict_set k v d) rest
      | Raise e => (d, Raise e)
      | Unmodelled => (d, Unmodelled)
      end
  end.

(** [d.update(result)] for whatever the response held under ['Dados']:
    the dictionary afterwards, and how the call ended. *)
Definition update_from (d : list (string * json)) (result : json)
  : list (string * json) * Outcome unit :=
  match result with
  | JObj members => (dict_update d members, Return tt)
  | JArr elems => update_seq d elems
  | JStr EmptyString => (d, Return tt)
  | JStr _ => (d, Raise ValueError)
  | _ => (d, Raise TypeError)
  end.

(** The locals of [get_raw_data] that outlive an iteration. *)
Record FetchState : Type := {
  data : list (string * json);
  year : option string;          (* [None]: not yet bound *)
  fetch_log : list LogEntry
}.

Definition logged (s : FetchState) (entry : LogEntry) : FetchState :=
  {| data := data s; year := year s; fetch_log := fetch_log s ++ [entry] |}.

(** The two [except] clauses. *)
Definition fetch_except (e : exn) (s : FetchState) : FetchState * Outcome unit :=
  (logged s (InfoExn (if is_HTTPError e then "HTTP error occurred: "
                      else "Other error occurred: ") e),
   Return tt).

(** The [else] clause: it formats [year], bound or not. *)
Definition fetch_else (s : FetchState) : FetchState * Outcome unit :=
  match year s with
  | Some y =>
      (logged s (Info ("Data for year " +++ y +++ " extracted with success!")),
       Return tt)
  | None => (s, Raise (UnboundLocalError "year"))
  end.

(** One iteration of the [for] loop. *)
Definition fetch_step (url : string) (s : FetchState) (item : string)
  : FetchState * Outcome unit :=
  match requests_get (url +++ item) with
  | Failed e => fetch_except e s
  | Responded response =>
      if status_code response =? 200 then
        let y := last4 item in
        let s1 :=
          {| data := data s; year := Some y;
             fetch_log := fetch_log s ++
               [Info ("Acessing the API to get the data for year " +++ y +++ " ")] |} in
        match dados response with
        | Return result =>
            let '(d, r) := update_from (data s1) result in
            let s2 := {| data := d; year := year s1; fetch_log := fetch_log s1 |} in
            match r with
            | Return _ => fetch_else s2
            | Raise e => fetch_except e s2
            | Unmodelled => (s2, Unmodelled)
            end
        | Raise e => fetch_except e s1
        | Unmodelled => (s1, Unmodelled)
        end
      else fetch_else s
  end.

Fixpoint fetch_loop (url : string) (items : list string) (s : FetchState)
  : FetchState * Outcome unit :=
  match items with
  | [] => (s, Return tt)
  | item :: rest =>
      let '(s', r) := fetch_step url s item in
      match r with
      | Return _ => fetch_loop url rest s'
      | _ => (s', r)
      end
  end.

Definition get_raw_data (url : string) (parameters_list : list string)
  : list LogEntry * Outcome (list (string * json)) :=
  let '(s, r) :=
    fetch_loop url parameters_list {| data := []; year := None; fetch_log := [] |} in
  (fetch_log s, _ <- r ;; Return (data s)).
End Api.

(* ------------------------------------------------------------------ *)
(** ** The fragment of pandas the job uses

    A [DataFrame] is kept by columns: the length of its index and, per
    column in order, the label and the cells.  The modelled cells are the
    ones the API's leaf records give: a [str], or the missing value. *)

Inductive Cell : Type :=
| CStr (s : string)
| NaN.

Record DataFrame : Type := {
  index_len : nat;
  columns : list (string * list Cell)
}.

Definition labels (df : DataFrame) : list string := map fst (columns df).

Definition mem (x : string) (l : list string) : bool := existsb (String.eqb x) l.

(** The distinct elements of [l], each at its first occurrence. *)
Fixpoint unique (l : list string) : list string :=
  match l with
  | [] => []
  | x :: l' => x :: filter (fun y => negb (String.eqb y x)) (unique l')
  end.

Fixpoint distinct (l : list string) : bool :=
  match l with
  | [] => true
  | x :: l' => negb (mem x l') && distinct l'
  end.

Definition cell_of (v : option string) : Cell :=
  match v with Some s => CStr s | None => NaN end.

(** A leaf observation: a flat object whose values are all [str]. *)
Fixpoint str_members (members : list (string * json))
  : option (list (string * string)) :=
  match members with
  | [] => Some []
  | (k, JStr v) :: rest => option_map (cons (k, v)) (str_members rest)
  | _ => None
  end.

Definition leaf_record (r : json) : option (list (string * string)) :=
  match r with JObj members => str_members members | _ => None end.

Fixpoint leaf_records (recs : list json) : option (list (list (string * string))) :=
  match recs with
  | [] => Some []
  | r :: rest =>
      match leaf_record r, leaf_records rest with
      | Some x, Some xs => Some (x :: xs)
      | _, _ => None
      end
  end.

(** [DataFrame(records)] for a list of flat [dict]s: the columns are the
    keys in order of first appearance, a key a record lacks gives [NaN]. *)
Definition frame_of_records (recs : list (list (string * string))) : DataFrame :=
  {| index_len := List.length recs;
     columns :=
       map (fun k => (k, map (fun r => cell_of (dict_get k r)) recs))
           (unique (flat_map keys recs)) |}.

(** [_pull_records(raw_data, col)]: the value under [col] must be a list;
    a null value counts as no records. *)
Definition pull_records (raw : list (string * json)) (col : string)
  : Outcome (list json) :=
  match dict_get col raw with
  | None => Raise (KeyError (JStr col))
  | Some (JArr recs) => Return recs
  | Some JNull | Some (JFloat FNaN) => Return []
  | Some _ => Raise TypeError
  end.

(** [pd.json_normalize(raw, record_path=col)].  Records that are not leaf
    observations (nested objects, non-[str] values, non-objects) are
    outside the modelled frames. *)
Definition json_normalize (raw : list (string * json)) (col : string)
  : Outcome DataFrame :=
  recs <- pull_records raw col ;;
  match leaf_records recs with
  | Some rs => Return (frame_of_records rs)
  | None => Unmodelled
  end.

(** [df[label] = v] for a scalar [v]. *)
Definition df_setitem (df : DataFrame) (label : string) (v : Cell) : DataFrame :=
  let col := repeat v (index_len df) in
  {| index_len := index_len df;
     columns :=
       if mem label (labels df)
       then map (fun c => if String.eqb (fst c) label then (fst c, col) else c)
                (columns df)
       else columns df ++ [(label, col)] |}.

Definition column_or_nan (label : string) (df : DataFrame) : list Cell :=
  match dict_get label (columns df) with
  | Some cells => cells
  | None => repeat NaN (index_len df)
  end.

(** [pd.concat(frames, ignore_index=True)] for frames whose labels are
    distinct: the union of the labels in order of first appearance, every
    frame's rows below the previous frame's. *)
Definition pd_concat (frames : list DataFrame) : Outcome DataFrame :=
  match frames with
  | [] => Raise NoObjectsToConcatenate
  | _ =>
      if forallb (fun f => distinct (labels f)) frames then
        Return
          {| index_len := list_sum (map index_len frames);
             columns :=
               map (fun l => (l, flat_map (column_or_nan l) frames))
                   (unique (flat_map labels frames)) |}
      else Unmodelled
  end.

(** [df.drop(columns=names, inplace=True)]. *)
Definition df_drop (df : DataFrame) (names : list string) : Outcome DataFrame :=
  match filter (fun l => negb (mem l (labels df))) names with
  | [] =>
      Return {| index_len := index_len df;
                columns := filter (fun c => negb (mem (fst c) names)) (columns df) |}
  | missing => Raise (LabelsNotFound missing)
  end.

(** [df.rename(columns=mapping, inplace=True)]: a label the mapping has
    as key takes its new name, the others stay. *)
Definition relabel (mapping : list (string * string)) (label : string) : string :=
  match dict_get label mapping with
  | Some new => new
  | None => label
  end.

Definition df_rename (df : DataFrame) (mapping : list (string * string)) : DataFrame :=
  {| index_len := index_len df;
     columns := map (fun c => (relabel mapping (fst c), snd c)) (columns df) |}.

(** What [to_csv(index=False)] writes: the header fields and, per row, the
    field texts, the missing value as the empty text. *)
Record CsvDoc : Type := {
  csv_header : list string;
  csv_rows : list (list string)
}.

Definition csv_field (c : Cell) : string :=
  match c with CStr s => s | NaN => "" end.

Definition to_csv (df : DataFrame) : CsvDoc :=
  {| csv_header := labels df;
     csv_rows :=
       map (fun i => map (fun c => csv_field (nth i (snd c) NaN)) (columns df))
           (seq 0 (index_len df)) |}.

(* ------------------------------------------------------------------ *)
(** ** Stage 4a: [transform_raw_data] *)

(** The objects the function works on: its argument, the list it collects
    the per-year frames in, and the log. *)
Record Locals : Type := {
  raw_data : list (string * json);
  clean_data : list DataFrame;
  transform_log : list LogEntry
}.

(** The [for] loop over [raw_data.items()]. *)
Fixpoint transform_loop (items : list (string * json)) (s : Locals)
  : Locals * Outcome unit :=
  match items with
  | [] => (s, Return tt)
  | item :: rest =>
      let col := fst item in
      let s1 :=
        {| raw_data := raw_data s; clean_data := clean_data s;
           transform_log := transform_log s ++
             [Info ("Transforming data for year: " +++ col)] |} in
      match json_normalize (raw_data s1) col with
      | Return df_flatenned =>
          let df_flatenned := df_setitem df_flatenned "Year" (CStr col) in
          transform_loop rest
            {| raw_data := raw_data s1;
               clean_data := clean_data s1 ++ [df_flatenned];
               transform_log := transform_log s1 |}
      | Raise e => (s1, Raise e)
      | Unmodelled => (s1, Unmodelled)
      end
  end.

Definition flag_columns : list string := ["sinal_conv"; "sinal_conv_desc"].

Definition renamed_columns : list (string * string) :=
  [("geocod", "Geo Code"); ("geodsg", "Geo"); ("dim_3", "Crime Code");
   ("dim_3_t", "Crime"); ("valor", "Value")].

(** The statements after the loop, on the concatenated frame. *)
Definition finish_table (frames : list DataFrame) : Outcome DataFrame :=
  df <- pd_concat frames ;;
  let df := df_setitem df "Indicator Code" (CStr indicator) in
  let df := df_setitem df "Formule" (CStr "(Number of crimes/ Resident population)*1000") in
  let df := df_setitem df "Measure Of Unit" (CStr "Permillage") in
  df <- df_drop df flag_columns ;;
  Return (df_rename df renamed_columns).

(** A run of [transform_raw_data]: the objects at its end and its result. *)
Definition transform_run (raw : list (string * json)) : Locals * Outcome DataFrame :=
  let '(s, r) :=
    transform_loop raw {| raw_data := raw; clean_data := []; transform_log := [] |} in
  (s, _ <- r ;; finish_table (clean_data s)).

Definition transform_raw_data (raw : list (string * json)) : Outcome DataFrame :=
  snd (transform_run raw).

(* ------------------------------------------------------------------ *)
(** ** Stage 4a on the objects themselves

    [transform_raw_data] works in place: it assigns a column of a frame,
    appends to a list, drops and renames with [inplace=True].  To tell
    which objects these statements change, the values are laid out in a
    store: every [list], [dict] and frame is an object of its own at a
    reference, a [list] holds the references of its items and a [dict] the
    references of its values, and a name is bound to a reference.  An
    assignment in place rewrites the object at the reference; every other
    name bound to that reference sees the change.

    The cells of a frame are [str]s or missing; a [str] cannot be changed,
    so a frame keeps its cells by value. *)

Inductive PyObject : Type :=
| PNone
| PBool (b : bool)
| PInt (z : Z)
| PFloat (f : pyfloat)
| PStr (s : string)
| PList (items : list nat)
| PDict (members : list (string * nat))
| PFrame (df : DataFrame).

Record Store : Type := {
  objects : list PyObject;
  store_log : list LogEntry
}.

Fixpoint all_some {A : Type} (l : list (option A)) : option (list A) :=
  match l with
  | [] => Some []
  | Some a :: l' => option_map (cons a) (all_some l')
  | None :: _ => None
  end.

(** The JSON value that hangs from a reference, read down to [fuel]
    levels; a frame is no JSON value, nor is a reference to nothing. *)
Fixpoint read_json (fuel : nat) (h : list PyObject) (ref : nat) : option json :=
  match fuel with
  | O => None
  | S fuel' =>
      match nth_error h ref with
      | Some PNone => Some JNull
      | Some (PBool b) => Some (JBool b)
      | Some (PInt z) => Some (JInt z)
      | Some (PFloat f) => Some (JFloat f)
      | Some (PStr s) => Some (JStr s)
      | Some (PList items) =>
          option_map JArr (all_some (map (read_json fuel' h) items))
      | Some (PDict members) =>
          option_map JObj
            (all_some (map (fun m => option_map (pair (fst m))
                                       (read_json fuel' h (snd m)))
                           members))
      | Some (PFrame _) | None => None
      end
  end.

(** A value built without cycles is no deeper than the store is long. *)
Definition read_value (h : list PyObject) (ref : nat) : option json :=
  read_json (List.length h) h ref.

(** The [dict] with [str] keys at a reference, as a value. *)
Definition read_mapping (h : list PyObject) (ref : nat)
  : option (list (string * json)) :=
  match read_value h ref with
  | Some (JObj members) => Some members
  | _ => None
  end.

(** [o] put where [ref] points; a reference to nothing changes nothing. *)
Fixpoint replace_at (h : list PyObject) (ref : nat) (o : PyObject)
  : list PyObject :=
  match h, ref with
  | [], _ => []
  | _ :: h', O => o :: h'
  | x :: h', S ref' => x :: replace_at h' ref' o
  end.

(** Statements over the store: they return, raise, or leave the model,
    and the store goes on from where they stopped. *)
Definition Py (A : Type) : Type := Store -> Store * Outcome A.

Definition py_bind {A B : Type} (c : Py A) (k : A -> Py B) : Py B :=
  fun s =>
    let '(s1, r) := c s in
    match r with
    | Return a => k a s1
    | Raise e => (s1, Raise e)
    | Unmodelled => (s1, Unmodelled)
    end.

Notation "x <-- c ;; k" := (py_bind c (fun x => k))
  (at level 61, c at next level, right associativity).

Definition py_return {A : Type} (a : A) : Py A := fun s => (s, Return a).

(** A computation on values: it touches no object. *)
Definition py_value {A : Type} (r : Outcome A) : Py A := fun s => (s, r).

Definition py_info (msg : string) : Py unit :=
  fun s =>
    ({| objects := objects s; store_log := store_log s ++ [Info msg] |}, Return tt).

(** A new object: it takes the next free reference. *)
Definition new_object (o : PyObject) : Py nat :=
  fun s =>
    ({| objects := objects s ++ [o]; store_log := store_log s |},
     Return (List.length (objects s))).

Definition deref (ref : nat) : Py PyObject :=
  fun s =>
    match nth_error (objects s) ref with
    | Some o => (s, Return o)
    | None => (s, Unmodelled)
    end.

Definition assign (ref : nat) (o : PyObject) : Py unit :=
  fun s =>
    ({| objects := replace_at (objects s) ref o; store_log := store_log s |},
     Return tt).

Definition read_frame (ref : nat) : Py DataFrame :=
  o <-- deref ref ;;
  match o with
  | PFrame df => py_return df
  | _ => py_value Unmodelled
  end.

Fixpoint read_frames (refs : list nat) : Py (list DataFrame) :=
  match refs with
  | [] => py_return []
  | ref :: rest =>
      df <-- read_frame ref ;;
      dfs <-- read_frames rest ;;
      py_return (df :: dfs)
  end.

(** [frame[label] = v], on the frame at [frame]. *)
Definition setitem_at (frame : nat) (label : string) (v : Cell) : Py unit :=
  df <-- read_frame frame ;;
  assign frame (PFrame (df_setitem df label v)).

(** [frame.drop(columns=names, inplace=True)]. *)
Definition drop_at (frame : nat) (names : list string) : Py unit :=
  df <-- read_frame frame ;;
  df <-- py_value (df_drop df names) ;;
  assign frame (PFrame df).

(** [frame.rename(columns=mapping, inplace=True)]. *)
Definition rename_at (frame : nat) (mapping : list (string * string)) : Py unit :=
  df <-- read_frame frame ;;
  assign frame (PFrame (df_rename df mapping)).

(** [lst.append(x)]: the list object takes one more reference. *)
Definition append_at (lst : nat) (x : nat) : Py unit :=
  o <-- deref lst ;;
  match o with
  | PList items => assign lst (PList (items ++ [x]))
  | _ => py_value Unmodelled
  end.

(** [pd.json_normalize(raw_data, record_path=col)] on the [dict] at
    [raw_data].  It reads the value under [col]; the records it flattens
    are copies ([nested_to_record] works on a [copy.deepcopy]), and the
    frame it returns is a new object. *)
Definition json_normalize_at (raw_data : nat) (col : string) : Py nat :=
  o <-- deref raw_data ;;
  match o with
  | PDict members =>
      match dict_get col members with
      | None => py_value (Raise (KeyError (JStr col)))
      | Some ref =>
          fun s =>
            match read_value (objects s) ref with
            | Some j =>
                (df <-- py_value (json_normalize [(col, j)] col) ;;
                 new_object (PFrame df)) s
            | None => (s, Unmodelled)
            end
      end
  | _ => py_value Unmodelled
  end.

(** [pd.concat(frames, ignore_index=True)] on the list at [frames]: the
    result is a new frame, the frames of the list stay as they are. *)
Definition concat_at (frames : nat) : Py nat :=
  o <-- deref frames ;;
  match o with
  | PList refs =>
      dfs <-- read_frames refs ;;
      df <-- py_value (pd_concat dfs) ;;
      new_object (PFrame df)
  | _ => py_value Unmodelled
  end.

(** The [for] loop, over the keys [raw_data.items()] gives. *)
Fixpoint transform_loop_at (raw_data clean_data : nat) (cols : list string)
  : Py unit :=
  match cols with
  | [] => py_return tt
  | col :: rest =>
      _ <-- py_info ("Transforming data for year: " +++ col) ;;
      df_flatenned <-- json_normalize_at raw_data col ;;
      _ <-- setitem_at df_flatenned "Year" (CStr col) ;;
      _ <-- append_at clean_data df_flatenned ;;
      transform_loop_at raw_data clean_data rest
  end.

(** The statements after the loop: the concatenated frame is a new
    object, and the columns are added, dropped and renamed on it. *)
Definition finish_table_at (clean_data : nat) : Py nat :=
  df <-- concat_at clean_data ;;
  _ <-- setitem_at df "Indicator Code" (CStr indicator) ;;
  _ <-- setitem_at df "Formule"
          (CStr "(Number of crimes/ Resident population)*1000") ;;
  _ <-- setitem_at df "Measure Of Unit" (CStr "Permillage") ;;
  _ <-- drop_at df flag_columns ;;
  _ <-- rename_at df renamed_columns ;;
  py_return df.

(** [transform_raw_data], handed the reference of its argument and
    returning the reference of the table. *)
Definition transform_raw_data_at (raw_data : nat) : Py nat :=
  clean_data <-- new_object (PList []) ;;
  o <-- deref raw_data ;;
  match o with
  | PDict members =>
      _ <-- transform_loop_at raw_data clean_data (map fst members) ;;
      finish_table_at clean_data
  | _ => py_value Unmodelled
  end.

(** How [json.loads] lays a value out: the parts first, then the object
    that holds their references. *)
Definition alloc_each {A : Type}
    (alloc1 : A -> list PyObject -> list PyObject * nat)
  : list A -> list PyObject -> list PyObject * list nat :=
  fix each (l : list A) (h : list PyObject) : list PyObject * list nat :=
    match l with
    | [] => (h, [])
    | x :: l' =>
        let '(h1, ref) := alloc1 x h in
        let '(h2, refs) := each l' h1 in
        (h2, ref :: refs)
    end.

Fixpoint alloc_json (j : json) (h : list PyObject) : list PyObject * nat :=
  let put (o : PyObject) (h : list PyObject) := (h ++ [o], List.length h) in
  match j with
  | JNull => put PNone h
  | JBool b => put (PBool b) h
  | JInt z => put (PInt z) h
  | JFloat f => put (PFloat f) h
  | JStr s => put (PStr s) h
  | JArr items =>
      let '(h1, refs) := alloc_each alloc_json items h in
      put (PList refs) h1
  | JObj members =>
      let '(h1, refs) := alloc_each (fun m => alloc_json (snd m)) members h in
      put (PDict (combine (map fst members) refs)) h1
  end.

(* ------------------------------------------------------------------ *)
(** ** Stages 3 and 4b: the two sinks, and [main] *)

(** What is handed to [upload_blob]: the value whose serialisation is the
    blob's content. *)
Inductive Blob : Type :=
| JsonBlob (obj : list (string * json))    (* json.dumps(obj, indent=4) *)
| CsvBlob (doc : CsvDoc).                  (* DataFrame.to_csv(index=False) *)

(** The blob container, by blob name; the log is kept next to it. *)
Record JobState : Type := {
  job_log : list LogEntry;
  container_client : list (string * Blob)
}.

Definition Job (A : Type) : Type := JobState -> JobState * Outcome A.

Definition job_bind {A B : Type} (c : Job A) (k : A -> Job B) : Job B :=
  fun st =>
    let '(st1, r) := c st in
    match r with
    | Return a => k a st1
    | Raise e => (st1, Raise e)
    | Unmodelled => (st1, Unmodelled)
    end.

Notation "x <~ c ;; k" := (job_bind c (fun x => k))
  (at level 61, c at next level, right associativity).

Definition info (msg : string) : Job unit :=
  fun st =>
    ({| job_log := job_log st ++ [Info msg];
        container_client := container_client st |}, Return tt).

(** A stage that only logs and computes. *)
Definition stage {A : Type} (run : list LogEntry * Outcome A) : Job A :=
  fun st =>
    ({| job_log := job_log st ++ fst run;
        container_client := container_client st |}, snd run).

Section Job.
Variable requests_get : string -> HttpResult.
(** The storage service: the exception an upload under a name meets, if
    any. *)
Variable upload_failure : string -> option exn.
(** [int(date.today().strftime('%Y%m%d'))]. *)
Variable today : Z.

(** [container_client.upload_blob(name, data, overwrite=True)]. *)
Definition upload_blob (name : string) (content : Blob) : Job unit :=
  fun st =>
    match upload_failure name with
    | Some e => (st, Raise e)
    | None =>
        ({| job_log := job_log st;
            container_client := dict_set name content (container_client st) |},
         Return tt)
    end.

Definition load_raw_data (raw : list (string * json)) : Job unit :=
  let output_file := "extract/extract-" +++ py_str today +++ ".json" in
  _ <~ upload_blob output_file (JsonBlob raw) ;;
  info ("Extraction loaded in extract folder. The output file is " +++ output_file).

Definition load_clean_data (clean : DataFrame) : Job unit :=
  let output_file := "data/data-" +++ py_str today +++ ".csv" in
  _ <~ upload_blob output_file (CsvBlob (to_csv clean)) ;;
  info ("Clean data loaded in data folder. The output file is " +++ output_file).

Definition transform_stage (raw : list (string * json)) : Job DataFrame :=
  stage (transform_log (fst (transform_run raw)), transform_raw_data raw).

Definition main (past_due : bool) (utc_timestamp : string) : Job unit :=
  _ <~ info "Starting execution..." ;;
  parameters <~ stage (get_parameters_range requests_get reqUrl) ;;
  raw <~ stage (get_raw_data requests_get reqUrl parameters) ;;
  _ <~ load_raw_data raw ;;
  clean <~ transform_stage raw ;;
  _ <~ load_clean_data clean ;;
  _ <~ (if past_due then info "The timer is past due!"
        else fun st => (st, Return tt)) ;;
  info ("Python timer trigger function ran at " +++ utc_timestamp).
End Job.

(* ------------------------------------------------------------------ *)
(** ** Vocabulary of the statements *)

(** The pairs [data.update(result)] stores, in order: the members of an
    object, or the elements of a list that unpack before the first one that
    does not. *)
Fixpoint unpacked (elems : list json) : list (string * json) :=
  match elems with
  | [] => []
  | elem :: rest =>
      match update_pair elem with
      | Return kv => kv :: unpacked rest
      | _ => []
      end
  end.

Definition pairs_of (result : json) : list (string * json) :=
  match result with
  | JObj members => members
  | JArr elems => unpacked elems
  | _ => []
  end.

Definition update_modelled (result : json) : bool :=
  match snd (update_from [] result) with
  | Unmodelled => false
  | _ => true
  end.

(** Whether [year] is bound in the state of the fetch loop. *)
Definition year_bound (s : FetchState) : bool :=
  match year s with Some _ => true | None => false end.

(** A 200 response whose body is a one-element array holding an object. *)
Definition ok_response (members : list (string * json)) : HttpResult :=
  Responded {| status_code := 200; body := Some (JArr [JObj members]) |}.

Section Supplied.
Variable requests_get : string -> HttpResult.
Variable url : string.

Definition returned_200 (item : string) : bool :=
  match requests_get (url +++ item) with
  | Responded response => status_code response =? 200
  | Failed _ => false
  end.

(** What the request for [item] adds to the mapping: the pairs under
    ['Dados'] of a 200 response, nothing in every other case. *)
Definition supplied (item : string) : list (string * json) :=
  match requests_get (url +++ item) with
  | Responded response =>
      if status_code response =? 200 then
        match dados response with
        | Return result => pairs_of result
        | _ => []
        end
      else []
  | Failed _ => []
  end.

(** The loop of [get_raw_data] runs to its end over [items]: every
    response with another status than 200 comes after a 200 response (or
    [year] is [bound] already), and no update leaves the model. *)
Fixpoint completes (bound : bool) (items : list string) : bool :=
  match items with
  | [] => true
  | item :: rest =>
      match requests_get (url +++ item) with
      | Failed _ => completes bound rest
      | Responded response =>
          if status_code response =? 200 then
            match dados response with
            | Return result => update_modelled result && completes true rest
            | Raise _ => completes true rest
            | Unmodelled => false
            end
          else bound && completes bound rest
      end
  end.
End Supplied.

(** The entry the handlers of [get_raw_data] log for an exception. *)
Definition exception_entry (e : exn) : LogEntry :=
  InfoExn (if is_HTTPError e then "HTTP error occurred: "
           else "Other error occurred: ") e.

(** The leaf observations of a raw mapping, year by year. *)
Fixpoint typed_years (raw : list (string * json))
  : option (list (string * list (list (string * string)))) :=
  match raw with
  | [] => Some []
  | (y, JArr recs) :: rest =>
      match leaf_records recs, typed_years rest with
      | Some rs, Some ys => Some ((y, rs) :: ys)
      | _, _ => None
      end
  | _ => None
  end.

(** One entry per observation, in the order of the years and, within a
    year, of the records: the year key and the record. *)
Definition observations (years : list (string * list (list (string * string))))
  : list (string * list (string * string)) :=
  flat_map (fun yr => map (pair (fst yr)) (snd yr)) years.

(** Some record of the mapping has the key [k]. *)
Definition occurs (k : string) (years : list (string * list (list (string * string))))
  : bool :=
  existsb (fun o => mem k (keys (snd o))) (observations years).

(** The data fields of an observation, in the order the API sends them;
    a label that is no flag; the first record of a mapping; and a mapping
    whose records use only data and flag fields. *)
Definition data_fields : list string :=
  ["geocod"; "geodsg"; "dim_3"; "dim_3_t"; "valor"].

Definition not_flag (l : string) : bool := negb (mem l flag_columns).

Definition first_record (years : list (string * list (list (string * string))))
  : option (list (string * string)) :=
  match years with
  | (_, r :: _) :: _ => Some r
  | _ => None
  end.

Definition api_fields_only (years : list (string * list (list (string * string))))
  : bool :=
  forallb (fun o => forallb (fun k => mem k data_fields || mem k flag_columns)
                            (keys (snd o)))
          (observations years).

Definition derived_columns : list string :=
  ["Year"; "Indicator Code"; "Formule"; "Measure Of Unit"].

(** A frame given row by row: the columns [L], renamed by [g], the cell of
    column [l] in the row of [o] being [f l o]. *)
Definition table {O : Type} (g : string -> string) (f : string -> O -> Cell)
    (L : list string) (obs : list O) : DataFrame :=
  {| index_len := List.length obs;
     columns := map (fun l => (g l, map (f l) obs)) L |}.

Definition add_label (l : string) (L : list string) : list string :=
  if mem l L then L else L ++ [l].

Definition override {O : Type} (l : string) (v : Cell) (f : string -> O -> Cell)
  : string -> O -> Cell :=
  fun l' o => if String.eqb l' l then v else f l' o.

Definition record_cell (l : string) (r : list (string * string)) : Cell :=
  cell_of (dict_get l r).

(** The cell of an observation in the frame of its year, and in the final
    table. *)
Definition year_cell (l : string) (o : string * list (string * string)) : Cell :=
  if String.eqb l "Year" then CStr (fst o) else record_cell l (snd o).

Definition table_cell : string -> string * list (string * string) -> Cell :=
  override "Measure Of Unit" (CStr "Permillage")
    (override "Formule" (CStr "(Number of crimes/ Resident population)*1000")
       (override "Indicator Code" (CStr indicator) year_cell)).

(** The labels of a year's frame, of the concatenated frame, and of the
    final table before renaming. *)
Definition year_labels (yr : string * list (list (string * string))) : list string :=
  add_label "Year" (unique (flat_map keys (snd yr))).

Definition concat_labels (years : list (string * list (list (string * string))))
  : list string :=
  unique (flat_map year_labels years).

Definition table_labels (years : list (string * list (list (string * string))))
  : list string :=
  filter (fun l => negb (mem l flag_columns))
    (add_label "Measure Of Unit"
       (add_label "Formule" (add_label "Indicator Code" (concat_labels years)))).

(** The CSV row of an observation made of API fields: its data fields, a
    field it lacks as the empty text, then the year it came under and the
    three constants. *)
Definition csv_row (o : string * list (string * string)) : list string :=
  map (fun k => csv_field (record_cell k (snd o))) data_fields
  ++ [fst o; indicator; "(Number of crimes/ Resident population)*1000"; "Permillage"].

(** The frame the loop of [transform_raw_data] appends for a year. *)
Definition year_frame (yr : string * list (list (string * string))) : DataFrame :=
  df_setitem (frame_of_records (snd yr)) "Year" (CStr (fst yr)).

Definition expected_table (years : list (string * list (list (string * string))))
  : DataFrame :=
  table (relabel renamed_columns) table_cell (table_labels years) (observations years).

(** [h'] holds at least the objects of [h], and the objects below the
    reference [n] are in [h'] what they are in [h]. *)
Definition untouched (n : nat) (h h' : list PyObject) : Prop :=
  (List.length h <= List.length h')%nat
  /\ forall ref, (ref < n)%nat -> nth_error h' ref = nth_error h ref.

(** Run from a store that holds the references below [n], the statement
    [c] leaves the objects below [n] as they are, and what it returns
    satisfies [Q]. *)
Definition spares (n : nat) {A : Type} (c : Py A) (Q : A -> Prop) : Prop :=
  forall s,
    (n <= List.length (objects s))%nat ->
    untouched n (objects s) (objects (fst (c s)))
    /\ forall a, snd (c s) = Return a -> Q a.

(** How a result over the store matches a result over values: the same
    way out, and on return the table at the returned reference. *)
Definition table_at (s : Store) (r : Outcome nat) (pure : Outcome DataFrame) : Prop :=
  match r with
  | Return table =>
      exists df, pure = Return df /\ nth_error (objects s) table = Some (PFrame df)
  | Raise e => pure = Raise e
  | Unmodelled => pure = Unmodelled
  end.

(** An allocation that keeps what was there and from which the value
    reads back, within as many levels as it took objects. *)
Definition lays_out (j : json) (h : list PyObject) (p : list PyObject * nat) : Prop :=
  untouched (List.length h) h (fst p)
  /\ read_json (List.length (fst p) - List.length h) (fst p) (snd p) = Some j.

(* ------------------------------------------------------------------ *)
(** ** Sample runs *)

(** The names of the two dated blobs. *)
Definition extract_file (today : Z) : string :=
  "extract/extract-" +++ py_str today +++ ".json".

Definition data_file (today : Z) : string :=
  "data/data-" +++ py_str today +++ ".csv".

(** What a run of [main] does to the container and how it ends, read off
    the outcomes of the stages. *)
Definition main_effect (requests_get : string -> HttpResult)
    (upload_failure : string -> option exn) (today : Z)
    (container : list (string * Blob)) : list (string * Blob) * Outcome unit :=
  match snd (get_parameters_range requests_get reqUrl) with
  | Return parameters =>
      match snd (get_raw_data requests_get reqUrl parameters) with
      | Return raw =>
          match upload_failure (extract_file today) with
          | Some e => (container, Raise e)
          | None =>
              let stored := dict_set (extract_file today) (JsonBlob raw) container in
              match transform_raw_data raw with
              | Return clean =>
                  match upload_failure (data_file today) with
                  | Some e => (stored, Raise e)
                  | None =>
                      (dict_set (data_file today) (CsvBlob (to_csv clean)) stored,
                       Return tt)
                  end
              | Raise e => (stored, Raise e)
              | Unmodelled => (stored, Unmodelled)
              end
          end
      | Raise e => (container, Raise e)
      | Unmodelled => (container, Unmodelled)
      end
  | Raise e => (container, Raise e)
  | Unmodelled => (container, Unmodelled)
  end.

(** A leaf observation as the API sends it, without and with the two flag
    fields. *)
Definition obs_plain (geocod geodsg dim_3 dim_3_t valor : string) : json :=
  JObj [("geocod", JStr geocod); ("geodsg", JStr geodsg); ("dim_3", JStr dim_3);
        ("dim_3_t", JStr dim_3_t); ("valor", JStr valor)].

Definition obs_flagged (geocod geodsg dim_3 dim_3_t valor sinal_conv sinal_conv_desc : string)
  : json :=
  JObj [("geocod", JStr geocod); ("geodsg", JStr geodsg); ("dim_3", JStr dim_3);
        ("dim_3_t", JStr dim_3_t); ("valor", JStr valor);
        ("sinal_conv", JStr sinal_conv); ("sinal_conv_desc", JStr sinal_conv_desc)].

Definition obs_of (flagged : bool)
    (geocod geodsg dim_3 dim_3_t valor sinal_conv sinal_conv_desc : string) : json :=
  if flagged
  then obs_flagged geocod geodsg dim_3 dim_3_t valor sinal_conv sinal_conv_desc
  else obs_plain geocod geodsg dim_3 dim_3_t valor.

Definition raw_unflagged : list (string * json) :=
  [("2011", JArr [obs_plain "PT" "Portugal" "T" "Total" "30.9"])].

Definition raw_two_years : list (string * json) :=
  [("2011", JArr [obs_plain "PT" "Portugal" "T" "Total" "30.9";
                  obs_flagged "PT" "Portugal" "1" "Crimes against persons" "" "x" "Not available"]);
   ("2012", JArr [obs_plain "PT" "Portugal" "T" "Total" "29.5"])].

Definition years_two_years : list (string * list (list (string * string))) :=
  Eval vm_compute in
    match typed_years raw_two_years with Some years => years | None => [] end.

(** The end-to-end run: the API reports 2012 as last year and answers each
    of the two years with one observation. *)
Definition api_two_years (o2011 o2012 : json) (u : string) : HttpResult :=
  if String.eqb u (reqUrl +++ "S7A2011") then
    ok_response [("UltimoPref", JStr "2012"); ("Dados", JObj [("2011", JArr [o2011])])]
  else if String.eqb u (reqUrl +++ "S7A2012") then
    ok_response [("UltimoPref", JStr "2012"); ("Dados", JObj [("2012", JArr [o2012])])]
  else Failed (RequestError "unexpected request").

Definition empty_job : JobState := {| job_log := []; container_client := [] |}.

(** A storage service that refuses the raw extract and nothing else. *)
Definition refuse_extract (name : string) : option exn :=
  if String.eqb name "extract/extract-20240131.json"
  then Some (UploadError "service unavailable") else None.

Definition api_flagged : string -> HttpResult :=
  api_two_years (obs_flagged "PT" "Portugal" "T" "Total" "30.9" "" "")
                (obs_flagged "PT" "Portugal" "T" "Total" "29.5" "" "").

Definition api_plain : string -> HttpResult :=
  api_two_years (obs_plain "PT" "Portugal" "T" "Total" "30.9")
                (obs_plain "PT" "Portugal" "T" "Total" "29.5").

Definition api_mixed : string -> HttpResult :=
  api_two_years (obs_plain "PT" "Portugal" "T" "Total" "30.9")
                (obs_flagged "PT" "Portugal" "T" "Total" "" "x" "Not available").

Definition run_refused : JobState * Outcome unit :=
  main api_flagged refuse_extract 20240131 false "2024-01-31T00:00:00+00:00" empty_job.

Definition run_plain : JobState * Outcome unit :=
  main api_plain (fun _ => None) 20240131 false "2024-01-31T00:00:00+00:00" empty_job.

(** A storage service that refuses the CSV and nothing else. *)
Definition refuse_data (name : string) : option exn :=
  if String.eqb name "data/data-20240131.csv"
  then Some (UploadError "service unavailable") else None.

(** A container that holds the extract of the day before. *)
Definition job_with_old_extract : JobState :=
  {| job_log := [];
     container_client := [("extract/extract-20240130.json", JsonBlob [])] |}.

(** A run in which a year answers with data filed under another year. *)
Definition api_other_year (u : string) : HttpResult :=
  ok_response [("UltimoPref", JStr "2011"); ("Dados", JObj [("2010", JArr [])])].

(** A run with one good year, one failed request and one 404. *)
Definition api_partial (u : string) : HttpResult :=
  if String.eqb u (reqUrl +++ "S7A2011") then
    ok_response [("UltimoPref", JStr "2013");
                 ("Dados", JObj [("2011", JArr [JObj [("valor", JStr "30.9")]])])]
  else if String.eqb u (reqUrl +++ "S7A2012") then Failed (RequestError "timed out")
  else Responded {| status_code := 404; body := None |}.

(** A run in which the second answer repeats the first answer's year. *)
Definition api_overlap (u : string) : HttpResult :=
  if String.eqb u (reqUrl +++ "S7A2011") then
    ok_response [("Dados", JObj [("2011", JArr [JObj [("valor", JStr "old")]])])]
  else
    ok_response [("Dados", JObj [("2011", JArr [JObj [("valor", JStr "new")]]);
                                 ("2012", JArr [])])].

(** The two-year mapping as [json.loads] leaves it in an empty store, and
    the reference of the [dict]. *)
Definition store_two_years : Store :=
  {| objects := fst (alloc_json (JObj raw_two_years) []); store_log := [] |}.

Definition ref_two_years : nat := snd (alloc_json (JObj raw_two_years) []).

(* ================================================================== *)
(** * Properties *)

(** ** Decimal text of an integer and its reading back *)

Ltac eval_digit :=
  match goal with
  | |- context [digit_of ?c] =>
      let v := eval vm_compute in (digit_of c) in
      change (digit_of c) with v
  end.

Lemma scan_digits_acc (d : Decimal.uint) (acc : positive) :
  scan_digits (NilEmpty.string_of_uint d) (Zpos acc) AfterDigit
  = Some (Zpos (Pos.of_uint_acc d acc), "").
Proof.
  revert acc.
  induction d; intro acc; cbn [NilEmpty.string_of_uint scan_digits Pos.of_uint_acc];
    try reflexivity; eval_digit; cbv iota;
    match goal with
    | |- scan_digits _ ?a _ = Some (Zpos (Pos.of_uint_acc _ ?b), _) =>
        replace a with (Zpos b) by lia
    end; apply IHd.
Qed.

Lemma scan_digits_zero (d : Decimal.uint) :
  scan_digits (NilEmpty.string_of_uint d) 0 AfterDigit
  = Some (Z.of_N (Pos.of_uint d), "").
Proof.
  induction d; cbn [NilEmpty.string_of_uint scan_digits Pos.of_uint];
    try reflexivity; eval_digit; cbv iota;
    first [ exact IHd | apply (scan_digits_acc d) ].
Qed.

Lemma int_of_str_uint (d : Decimal.uint) :
  d <> Decimal.Nil ->
  int_of_str (NilEmpty.string_of_uint d) = Some (Z.of_N (Pos.of_uint d)).
Proof.
  intro Hd.
  assert (Hscan : scan_digits (NilEmpty.string_of_uint d) 0 AtStart
                  = scan_digits (NilEmpty.string_of_uint d) 0 AfterDigit).
  { destruct d; try congruence; cbn [NilEmpty.string_of_uint scan_digits];
      eval_digit; reflexivity. }
  assert (Hhead : exists c rest, NilEmpty.string_of_uint d = String c rest
                  /\ is_space c = false /\ c <> "+"%char /\ c <> "-"%char).
  { destruct d; try congruence; cbn [NilEmpty.string_of_uint];
      eexists; eexists; (split; [reflexivity | split; [reflexivity | split; discriminate]]). }
  destruct Hhead as (c & rest & Heq & Hsp & Hplus & Hminus).
  unfold int_of_str.
  assert (Hskip : skip_spaces (NilEmpty.string_of_uint d) = NilEmpty.string_of_uint d).
  { rewrite Heq. cbn [skip_spaces]. rewrite Hsp. reflexivity. }
  rewrite Hskip.
  assert (Hsign : (match NilEmpty.string_of_uint d with
                   | String "+"%char r => (1, r)
                   | String "-"%char r => (-1, r)
                   | _ => (1, NilEmpty.string_of_uint d)
                   end) = (1, NilEmpty.string_of_uint d)).
  { rewrite Heq.
    destruct c as [[] [] [] [] [] [] [] []]; try reflexivity; congruence. }
  rewrite Hsign, Hscan, scan_digits_zero. cbn [skip_spaces].
  f_equal. lia.
Qed.

Lemma int_of_str_py_str (z : Z) : 0 <= z -> int_of_str (py_str z) = Some z.
Proof.
  intro Hz. unfold py_str.
  destruct z as [| p | p]; [reflexivity | | lia].
  cbn [Z.to_int NilZero.string_of_int].
  pose proof (DecimalPos.Unsigned.to_uint_nonnil p) as Hnil.
  unfold NilZero.string_of_uint.
  destruct (Pos.to_uint p) eqn:E; try congruence;
    rewrite <- E; rewrite int_of_str_uint by (rewrite E; discriminate);
    rewrite DecimalPos.Unsigned.of_to; reflexivity.
Qed.

Lemma token_year_year_token (y : Z) : 0 <= y -> token_year (year_token y) = Some y.
Proof.
  intro Hy. unfold year_token, token_year. cbn [String.append].
  apply int_of_str_py_str; exact Hy.
Qed.

(** ** Stage 1 *)

Lemma length_py_range (lo hi : Z) :
  List.length (py_range lo hi) = Z.to_nat (hi - lo).
Proof. unfold py_range. rewrite length_map, length_seq. reflexivity. Qed.

Lemma nth_py_range (lo hi : Z) (i : nat) (d : Z) :
  (i < Z.to_nat (hi - lo))%nat -> nth i (py_range lo hi) d = lo + Z.of_nat i.
Proof.
  intro Hi. unfold py_range.
  rewrite (nth_indep _ d (lo + Z.of_nat 0)) by (rewrite length_map, length_seq; exact Hi).
  rewrite (map_nth (fun k => lo + Z.of_nat k)), seq_nth by exact Hi.
  reflexivity.
Qed.

Lemma py_range_first_last (lo hi : Z) :
  lo < hi -> hd 0 (py_range lo hi) = lo /\ last (py_range lo hi) 0 = hi - 1.
Proof.
  intro H. split.
  - replace (hd 0 (py_range lo hi)) with (nth 0 (py_range lo hi) 0)
      by (destruct (py_range lo hi); reflexivity).
    rewrite nth_py_range by lia. simpl. lia.
  - pose proof (length_py_range lo hi) as Hlen.
    destruct (py_range lo hi) as [| a l] eqn:E; [simpl in Hlen; lia |].
    rewrite <- E.
    assert (Happ : py_range lo hi <> []) by (rewrite E; discriminate).
    destruct (exists_last Happ) as (l' & x & Hx).
    rewrite Hx, last_last.
    assert (Hn : nth (List.length l') (py_range lo hi) 0 = x)
      by (rewrite Hx, nth_middle; reflexivity).
    rewrite <- Hn.
    assert (Hl : List.length (py_range lo hi) = S (List.length l'))
      by (rewrite Hx, length_app; simpl; lia).
    rewrite length_py_range in Hl.
    rewrite nth_py_range by lia. lia.
Qed.

Lemma last_map_nonempty {A B : Type} (f : A -> B) (l : list A) (db : B) (da : A) :
  l <> [] -> last (map f l) db = f (last l da).
Proof.
  intro Hne. destruct (exists_last Hne) as (l' & x & ->).
  rewrite map_app. simpl. rewrite !last_last. reflexivity.
Qed.

(** An exception that leaves the [try] suite is logged by one of the two
    handlers, and the [return] then meets the unbound name. *)
Lemma range_try_raise_falls_through requests_get url log e :
  range_try requests_get url = (log, Raise e) ->
  get_parameters_range requests_get url
  = (log ++ [InfoExn (if is_HTTPError e then "HTTP error occurred: "
                      else "Other error occurred: ") e],
     Raise (UnboundLocalError "parameters_list")).
Proof. intro H. unfold get_parameters_range. rewrite H. reflexivity. Qed.

(** A response with another status skips the [if]; the [else] clause then
    reports success and the [return] meets the unbound name all the same. *)
Lemma non_200_falls_through requests_get url response :
  requests_get (url +++ "S7A2011") = Responded response ->
  status_code response <> 200 ->
  get_parameters_range requests_get url
  = ([Info "Parameters extracted with success!"],
     Raise (UnboundLocalError "parameters_list")).
Proof.
  intros Hget Hst. unfold get_parameters_range, range_try. rewrite Hget.
  destruct (Z.eqb_spec (status_code response) 200) as [E | _]; [contradiction | reflexivity].
Qed.

(** C1. When the range-discovery request raises, be it an [HTTPError] or
    any other exception, [get_parameters_range] logs the exception through
    the matching handler and returns no list: control reaches
    [return parameters_list] with the name unbound, which raises
    [UnboundLocalError]; no failure value is returned. *)
Theorem get_parameters_range_request_failure :
  forall requests_get url e,
    requests_get (url +++ "S7A2011") = Failed e ->
    get_parameters_range requests_get url
    = ([InfoExn (if is_HTTPError e then "HTTP error occurred: "
                 else "Other error occurred: ") e],
       Raise (UnboundLocalError "parameters_list"))
    /\ (forall l, snd (get_parameters_range requests_get url) <> Return l).
Proof.
  intros requests_get url e Hget.
  assert (Htry : range_try requests_get url = ([], Raise e))
    by (unfold range_try; rewrite Hget; reflexivity).
  rewrite (range_try_raise_falls_through _ _ _ _ Htry).
  split; [reflexivity | intros l; discriminate].
Qed.

Lemma get_parameters_range_request_failure_witness :
  get_parameters_range (fun _ => Failed (HTTPError "503 Server Error")) reqUrl
  = ([InfoExn "HTTP error occurred: " (HTTPError "503 Server Error")],
     Raise (UnboundLocalError "parameters_list"))
  /\ (forall l, snd (get_parameters_range
                       (fun _ => Failed (HTTPError "503 Server Error")) reqUrl)
                <> Return l).
Proof.
  apply (get_parameters_range_request_failure
           (fun _ => Failed (HTTPError "503 Server Error")) reqUrl
           (HTTPError "503 Server Error")).
  reflexivity.
Defined.

(** C2. When the range-discovery request answers 200 and the last-year
    field reads [Y] with [2011 <= Y], [get_parameters_range] returns the
    tokens ['S7A2011'], ..., ['S7A' + str(Y)]: there are [Y - 2011 + 1] of
    them, the token at position [i] spells the year [2011 + i] (so the years
    are contiguous and strictly increasing), the first spells 2011 and the
    last [Y]. *)
Theorem get_parameters_range_tokens :
  forall requests_get url response Y,
    requests_get (url +++ "S7A2011") = Responded response ->
    status_code response = 200 ->
    last_year_field response = Return Y ->
    2011 <= Y ->
    exists tokens,
      snd (get_parameters_range requests_get url) = Return tokens
      /\ tokens = map year_token (py_range 2011 (Y + 1))
      /\ List.length tokens = Z.to_nat (Y - 2011 + 1)
      /\ (forall i, (i < List.length tokens)%nat ->
            nth i tokens "" = "S7A" +++ py_str (2011 + Z.of_nat i)
            /\ token_year (nth i tokens "") = Some (2011 + Z.of_nat i))
      /\ (forall i j y1 y2, (i < j < List.length tokens)%nat ->
            token_year (nth i tokens "") = Some y1 ->
            token_year (nth j tokens "") = Some y2 -> y1 < y2)
      /\ hd "" tokens = "S7A2011"
      /\ last tokens "" = "S7A" +++ py_str Y.
Proof.
  intros requests_get url response Y Hget Hst Hlast HY.
  exists (map year_token (py_range 2011 (Y + 1))).
  assert (Hlen : List.length (map year_token (py_range 2011 (Y + 1)))
                 = Z.to_nat (Y - 2011 + 1)).
  { rewrite length_map, length_py_range. f_equal. lia. }
  assert (Hnth : forall i, (i < List.length (map year_token (py_range 2011 (Y + 1))))%nat ->
            nth i (map year_token (py_range 2011 (Y + 1))) ""
            = year_token (2011 + Z.of_nat i)).
  { intros i Hi. rewrite Hlen in Hi.
    rewrite (nth_indep _ "" (year_token 0)) by (rewrite Hlen; exact Hi).
    rewrite map_nth, nth_py_range by lia. reflexivity. }
  split; [| split; [reflexivity | split; [exact Hlen | split; [| split; [| split]]]]].
  - unfold get_parameters_range, range_try. rewrite Hget, Hst, Hlast. reflexivity.
  - intros i Hi. rewrite Hnth by exact Hi. split; [reflexivity |].
    apply token_year_year_token. lia.
  - intros i j y1 y2 [Hij Hj] H1 H2.
    rewrite Hnth in H1 by lia. rewrite Hnth in H2 by exact Hj.
    rewrite token_year_year_token in H1, H2 by lia.
    assert (E1 : y1 = 2011 + Z.of_nat i) by congruence.
    assert (E2 : y2 = 2011 + Z.of_nat j) by congruence.
    lia.
  - destruct (py_range_first_last 2011 (Y + 1)) as [Hhd _]; [lia |].
    destruct (py_range 2011 (Y + 1)) as [| a l]; simpl in *; [lia |].
    subst a. reflexivity.
  - destruct (py_range_first_last 2011 (Y + 1)) as [_ Hl]; [lia |].
    rewrite (last_map_nonempty year_token _ "" 0).
    + rewrite Hl. unfold year_token. replace (Y + 1 - 1) with Y by lia. reflexivity.
    + intro E. pose proof (length_py_range 2011 (Y + 1)) as HL.
      rewrite E in HL. simpl in HL. lia.
Qed.

Lemma get_parameters_range_tokens_witness :
  exists tokens,
    snd (get_parameters_range
           (fun _ => Responded
              {| status_code := 200;
                 body := Some (JArr [JObj [("UltimoPref", JStr "2013")]]) |})
           reqUrl) = Return tokens
    /\ tokens = ["S7A2011"; "S7A2012"; "S7A2013"].
Proof.
  destruct (get_parameters_range_tokens
              (fun _ => Responded
                 {| status_code := 200;
                    body := Some (JArr [JObj [("UltimoPref", JStr "2013")]]) |})
              reqUrl
              {| status_code := 200;
                 body := Some (JArr [JObj [("UltimoPref", JStr "2013")]]) |}
              2013 eq_refl eq_refl eq_refl ltac:(lia))
    as (tokens & Hret & Htok & _).
  exists tokens. split; [exact Hret | rewrite Htok; reflexivity].
Defined.

(** ** Dictionaries *)

Section DictFacts.
Context {V : Type}.
Implicit Types (d m : list (string * V)) (k : string).

Lemma dict_get_set k k' (v : V) d :
  dict_get k (dict_set k' v d) = if String.eqb k k' then Some v else dict_get k d.
Proof.
  induction d as [| [k0 v0] d IH]; simpl.
  - reflexivity.
  - destruct (String.eqb_spec k' k0) as [-> | Hne]; simpl.
    + destruct (String.eqb k k0); reflexivity.
    + rewrite IH.
      destruct (String.eqb_spec k k0) as [-> | Hne'].
      * destruct (String.eqb_spec k0 k') as [E | _]; [congruence | reflexivity].
      * reflexivity.
Qed.

Lemma dict_get_app k d m :
  dict_get k (d ++ m)
  = match dict_get k d with Some v => Some v | None => dict_get k m end.
Proof.
  induction d as [| [k0 v0] d IH]; simpl; [reflexivity |].
  destruct (String.eqb k k0); [reflexivity | exact IH].
Qed.

Lemma dict_update_app d m1 m2 :
  dict_update d (m1 ++ m2) = dict_update (dict_update d m1) m2.
Proof. unfold dict_update. apply fold_left_app. Qed.

(** Reading a key after an update: the last pair of the update with that
    key, else what the dictionary held. *)
Lemma dict_get_update k d m :
  dict_get k (dict_update d m)
  = match dict_get k (rev m) with Some v => Some v | None => dict_get k d end.
Proof.
  revert d. induction m as [| [k0 v0] m IH]; intro d; simpl.
  - reflexivity.
  - change (dict_get k (dict_update (dict_set k0 v0 d) m)
            = match dict_get k (rev m ++ [(k0, v0)]) with
              | Some v => Some v
              | None => dict_get k d
              end).
    rewrite IH, dict_get_app, dict_get_set. simpl.
    destruct (dict_get k (rev m)); [reflexivity |].
    destruct (String.eqb k k0); reflexivity.
Qed.

Lemma dict_get_None k d : dict_get k d = None <-> ~ In k (keys d).
Proof.
  induction d as [| [k0 v0] d IH]; simpl.
  - tauto.
  - destruct (String.eqb_spec k k0) as [-> | Hne].
    + split; [discriminate | intro H; exfalso; apply H; left; reflexivity].
    + rewrite IH. split; [intros H [E | Hin]; [congruence | contradiction] | tauto].
Qed.

Lemma dict_get_In k (v : V) d : dict_get k d = Some v -> In (k, v) d.
Proof.
  induction d as [| [k0 v0] d IH]; simpl; [discriminate |].
  destruct (String.eqb_spec k k0) as [-> | Hne].
  - intro H. injection H as ->. left. reflexivity.
  - intro H. right. apply IH. exact H.
Qed.

Lemma dict_get_NoDup k (v : V) d :
  NoDup (keys d) -> In (k, v) d -> dict_get k d = Some v.
Proof.
  induction d as [| [k0 v0] d IH]; simpl; [tauto |].
  intros Hnd [E | Hin].
  - injection E as -> ->. rewrite String.eqb_refl. reflexivity.
  - inversion Hnd as [| ? ? Hnotin Hnd']; subst.
    destruct (String.eqb_spec k k0) as [-> | Hne].
    + exfalso. apply Hnotin. change (In (fst (k0, v)) (map fst d)).
      apply in_map. exact Hin.
    + apply IH; assumption.
Qed.

Lemma keys_dict_set k k' (v : V) d :
  In k (keys (dict_set k' v d)) <-> k = k' \/ In k (keys d).
Proof.
  induction d as [| [k0 v0] d IH]; simpl.
  - intuition congruence.
  - destruct (String.eqb_spec k' k0) as [-> | Hne]; simpl.
    + intuition congruence.
    + rewrite IH. intuition congruence.
Qed.

Lemma keys_dict_update k d m :
  In k (keys (dict_update d m)) <-> In k (keys d) \/ In k (keys m).
Proof.
  revert d. induction m as [| [k0 v0] m IH]; intro d; simpl.
  - tauto.
  - change (In k (keys (dict_update (dict_set k0 v0 d) m))
            <-> In k (keys d) \/ k0 = k \/ In k (keys m)).
    rewrite IH, keys_dict_set. intuition congruence.
Qed.

Lemma NoDup_dict_set k (v : V) d : NoDup (keys d) -> NoDup (keys (dict_set k v d)).
Proof.
  induction d as [| [k0 v0] d IH]; simpl; intro Hnd.
  - constructor; [simpl; tauto | constructor].
  - inversion Hnd as [| ? ? Hnotin Hnd']; subst.
    destruct (String.eqb_spec k k0) as [-> | Hne]; simpl.
    + constructor; assumption.
    + constructor; [| apply IH; exact Hnd'].
      intro Hin. apply keys_dict_set in Hin. destruct Hin as [E | Hin];
        [congruence | contradiction].
Qed.

Lemma NoDup_dict_update d m : NoDup (keys d) -> NoDup (keys (dict_update d m)).
Proof.
  revert d. induction m as [| [k0 v0] m IH]; intros d Hnd; simpl; [exact Hnd |].
  apply IH. apply NoDup_dict_set. exact Hnd.
Qed.
End DictFacts.

(** ** Stage 2 *)

Lemma update_seq_pairs (d : list (string * json)) (elems : list json) :
  fst (update_seq d elems) = dict_update d (unpacked elems).
Proof.
  revert d. induction elems as [| elem rest IH]; intro d; simpl; [reflexivity |].
  destruct (update_pair elem) as [[k v] | e |]; simpl; [apply IH | reflexivity ..].
Qed.

Lemma update_seq_outcome (d d' : list (string * json)) (elems : list json) :
  snd (update_seq d elems) = snd (update_seq d' elems).
Proof.
  revert d d'. induction elems as [| elem rest IH]; intros d d'; simpl; [reflexivity |].
  destruct (update_pair elem) as [[k v] | e |]; simpl; [apply IH | reflexivity ..].
Qed.

(** Whatever the response held, the update stores exactly [pairs_of] it. *)
Lemma update_from_pairs (d : list (string * json)) (result : json) :
  fst (update_from d result) = dict_update d (pairs_of result).
Proof.
  destruct result as [| b | z | f | s | elems | members]; simpl;
    try reflexivity.
  - destruct s; reflexivity.
  - apply update_seq_pairs.
Qed.

Lemma update_from_outcome (d : list (string * json)) (result : json) :
  snd (update_from d result) = snd (update_from [] result).
Proof.
  destruct result as [| b | z | f | s | elems | members]; simpl;
    try reflexivity.
  - destruct s; reflexivity.
  - apply update_seq_outcome.
Qed.

Section FetchFacts.
Variable requests_get : string -> HttpResult.
Variable url : string.

Lemma fetch_step_completes (s : FetchState) (item : string) (rest : list string) :
  completes requests_get url (year_bound s) (item :: rest) = true ->
  exists s',
    fetch_step requests_get url s item = (s', Return tt)
    /\ data s' = dict_update (data s) (supplied requests_get url item)
    /\ completes requests_get url (year_bound s') rest = true.
Proof.
  unfold fetch_step, supplied. simpl.
  destruct (requests_get (url +++ item)) as [response | e].
  - destruct (status_code response =? 200).
    + destruct (dados response) as [result | e |]; simpl.
      * intro H. apply andb_prop in H. destruct H as [Hmod Hrest].
        pose proof (update_from_pairs (data s) result) as Hfst.
        pose proof (update_from_outcome (data s) result) as Hsnd.
        unfold update_modelled in Hmod.
        destruct (update_from (data s) result) as [d r]. simpl in Hfst, Hsnd.
        subst d. rewrite <- Hsnd in Hmod.
        destruct r as [[] | e |]; [| | discriminate]; simpl;
          eexists; (split; [reflexivity | split; [reflexivity | exact Hrest]]).
      * intro H. eexists. split; [reflexivity | split; [reflexivity | exact H]].
      * discriminate.
    + intro H. apply andb_prop in H. destruct H as [Hb Hrest].
      unfold fetch_else. unfold year_bound in *.
      destruct (year s) as [y |] eqn:Ey; [| discriminate].
      eexists. split; [reflexivity |]. simpl. rewrite Ey.
      split; [reflexivity | exact Hrest].
  - intro H. eexists. split; [reflexivity | split; [reflexivity | exact H]].
Qed.

Lemma fetch_loop_completes (items : list string) (s : FetchState) :
  completes requests_get url (year_bound s) items = true ->
  exists s',
    fetch_loop requests_get url items s = (s', Return tt)
    /\ data s' = dict_update (data s) (flat_map (supplied requests_get url) items).
Proof.
  revert s. induction items as [| item rest IH]; intros s Hc.
  - exists s. split; reflexivity.
  - destruct (fetch_step_completes s item rest Hc) as (s1 & Hstep & Hdata & Hrest).
    destruct (IH s1 Hrest) as (s' & Hloop & Hdata').
    exists s'. cbn [fetch_loop]. rewrite Hstep, Hloop.
    split; [reflexivity |].
    rewrite Hdata', Hdata. cbn [flat_map]. rewrite dict_update_app. reflexivity.
Qed.

(** When the loop runs to its end, the mapping returned is the empty
    dictionary updated with every pair the requests supplied, in order. *)
Lemma get_raw_data_completes (parameters_list : list string) :
  completes requests_get url false parameters_list = true ->
  snd (get_raw_data requests_get url parameters_list)
  = Return (dict_update [] (flat_map (supplied requests_get url) parameters_list)).
Proof.
  intro Hc. unfold get_raw_data.
  destruct (fetch_loop_completes parameters_list
              {| data := []; year := None; fetch_log := [] |} Hc)
    as (s' & Hloop & Hdata).
  rewrite Hloop. simpl. rewrite Hdata. reflexivity.
Qed.

(** A first response with another status than 200 reaches the [else]
    clause with [year] unbound. *)
Lemma get_raw_data_first_non_200 (item : string) (rest : list string) response :
  requests_get (url +++ item) = Responded response ->
  status_code response <> 200 ->
  get_raw_data requests_get url (item :: rest)
  = ([], Raise (UnboundLocalError "year")).
Proof.
  intros Hget Hst. unfold get_raw_data. cbn [fetch_loop]. unfold fetch_step.
  rewrite Hget.
  destruct (Z.eqb_spec (status_code response) 200) as [E | _]; [contradiction |].
  reflexivity.
Qed.
End FetchFacts.

(** C4. With the parameter list [['S7A2011']] and a 404 answer,
    [get_raw_data] does not return the empty mapping: the [else] clause of
    the first iteration formats [year] before any 200 answer has bound it,
    and the [UnboundLocalError] leaves the function. *)
Theorem get_raw_data_non_200_unbound_year :
  get_raw_data (fun _ => Responded {| status_code := 404; body := None |})
               reqUrl ["S7A2011"]
  = ([], Raise (UnboundLocalError "year")).
Proof.
  apply (get_raw_data_first_non_200 _ reqUrl "S7A2011" []
           {| status_code := 404; body := None |}).
  - reflexivity.
  - discriminate.
Qed.

(** The transformer does fail on the empty mapping: [pd.concat] is handed
    an empty list. *)
Lemma transform_raw_data_empty :
  transform_raw_data [] = Raise NoObjectsToConcatenate.
Proof. reflexivity. Qed.

(** The empty mapping is what [get_raw_data] returns when every request
    raises. *)
Lemma get_raw_data_all_failed requests_get url parameters_list :
  (forall item, In item parameters_list ->
     exists e, requests_get (url +++ item) = Failed e) ->
  snd (get_raw_data requests_get url parameters_list) = Return [].
Proof.
  intro H.
  assert (Hc : completes requests_get url false parameters_list = true).
  { induction parameters_list as [| item rest IH]; [reflexivity |].
    simpl. destruct (H item (or_introl eq_refl)) as [e ->].
    apply IH. intros it Hin. apply H. right. exact Hin. }
  rewrite (get_raw_data_completes _ _ _ Hc).
  assert (Hs : flat_map (supplied requests_get url) parameters_list = []).
  { clear Hc. induction parameters_list as [| item rest IH]; [reflexivity |].
    simpl. unfold supplied at 1. destruct (H item (or_introl eq_refl)) as [e ->].
    apply IH. intros it Hin. apply H. right. exact Hin. }
  rewrite Hs. reflexivity.
Qed.

Lemma keys_flat_map_supplied requests_get url (items : list string) (k : string) :
  In k (keys (flat_map (supplied requests_get url) items))
  <-> exists item, In item items /\ In k (keys (supplied requests_get url item)).
Proof.
  unfold keys. rewrite in_map_iff. split.
  - intros ([k' v] & Hk & Hin). simpl in Hk. subst k'.
    apply in_flat_map in Hin. destruct Hin as (item & Hitem & Hkv).
    exists item. split; [exact Hitem |].
    change k with (fst (k, v)). apply in_map. exact Hkv.
  - intros (item & Hitem & Hin). apply in_map_iff in Hin.
    destruct Hin as (kv & Hk & Hkv). exists kv. split; [exact Hk |].
    apply in_flat_map. exists item. split; assumption.
Qed.

(** The claim of C7 fails when an answer files its data under another
    year: asked for 2011 and answered 200, the run returns a mapping whose
    only key is ["2010"]. *)
Lemma get_raw_data_keys_counterexample :
  snd (get_raw_data api_other_year reqUrl ["S7A2011"]) = Return [("2010", JArr [])]
  /\ returned_200 api_other_year reqUrl "S7A2011" = true
  /\ last4 "S7A2011" = "2011".
Proof. repeat split. Qed.

(** C7, amended. When the loop of [get_raw_data] runs to its end, the key
    set of the returned mapping is the union of the keys that the requests
    supplied under ['Dados']; a request that raised or answered another
    status than 200 supplies none.  When every 200 answer supplies exactly
    its own year label, the key set is the requested years restricted to
    the 200 answers. *)
Theorem get_raw_data_keys :
  forall requests_get url parameters_list,
    completes requests_get url false parameters_list = true ->
    exists d,
      snd (get_raw_data requests_get url parameters_list) = Return d
      /\ NoDup (keys d)
      /\ (forall k, In k (keys d) <->
            exists item, In item parameters_list
                         /\ In k (keys (supplied requests_get url item)))
      /\ (forall item, returned_200 requests_get url item = false ->
            supplied requests_get url item = [])
      /\ ((forall item, In item parameters_list ->
             returned_200 requests_get url item = true ->
             keys (supplied requests_get url item) = [last4 item]) ->
          forall k, In k (keys d) <->
            exists item, In item parameters_list
                         /\ returned_200 requests_get url item = true
                         /\ k = last4 item).
Proof.
  intros requests_get url parameters_list Hc.
  exists (dict_update [] (flat_map (supplied requests_get url) parameters_list)).
  assert (Hkeys : forall k,
            In k (keys (dict_update [] (flat_map (supplied requests_get url) parameters_list)))
            <-> exists item, In item parameters_list
                             /\ In k (keys (supplied requests_get url item))).
  { intro k. rewrite keys_dict_update, <- keys_flat_map_supplied. simpl. tauto. }
  assert (Hnone : forall item, returned_200 requests_get url item = false ->
                    supplied requests_get url item = []).
  { intros item. unfold returned_200, supplied.
    destruct (requests_get (url +++ item)) as [response | e]; [| reflexivity].
    intros ->. reflexivity. }
  split; [apply get_raw_data_completes; exact Hc |].
  split; [apply NoDup_dict_update; constructor |].
  split; [exact Hkeys |].
  split; [exact Hnone |].
  intros Hown k. rewrite Hkeys. split.
  - intros (item & Hitem & Hin).
    destruct (returned_200 requests_get url item) eqn:E.
    + exists item. rewrite (Hown item Hitem E) in Hin. simpl in Hin.
      destruct Hin as [<- | []]. repeat split; assumption.
    + rewrite (Hnone item E) in Hin. destruct Hin.
  - intros (item & Hitem & E & ->). exists item. split; [exact Hitem |].
    rewrite (Hown item Hitem E). left. reflexivity.
Qed.

Lemma get_raw_data_keys_witness :
  exists d,
    snd (get_raw_data api_partial reqUrl ["S7A2011"; "S7A2012"; "S7A2013"]) = Return d
    /\ (forall k, In k (keys d) <->
          exists item, In item ["S7A2011"; "S7A2012"; "S7A2013"]
                       /\ returned_200 api_partial reqUrl item = true
                       /\ k = last4 item).
Proof.
  destruct (get_raw_data_keys api_partial reqUrl ["S7A2011"; "S7A2012"; "S7A2013"] eq_refl)
    as (d & Hret & _ & _ & _ & Hown).
  exists d. split; [exact Hret |]. apply Hown.
  intros item [<- | [<- | [<- | []]]]; vm_compute; congruence.
Defined.

(** C10. The merge is by the keys the answers supply and the last writer
    wins: the mapping returned is the empty dictionary updated, in processing
    order, with every supplied pair, so a key reads as the last pair supplied
    for it; in particular the value a parameter's answer supplies for a key,
    whichever year that key names, is the one returned unless a parameter
    processed later supplies the key again. *)
Theorem get_raw_data_last_writer_wins :
  forall requests_get url before item after,
    completes requests_get url false (before ++ item :: after) = true ->
    exists d,
      snd (get_raw_data requests_get url (before ++ item :: after)) = Return d
      /\ (forall k,
            dict_get k d
            = dict_get k (rev (flat_map (supplied requests_get url)
                                        (before ++ item :: after))))
      /\ (forall k v,
            dict_get k (rev (supplied requests_get url item)) = Some v ->
            (forall later, In later after ->
               dict_get k (supplied requests_get url later) = None) ->
            dict_get k d = Some v).
Proof.
  intros requests_get url before item after Hc.
  eexists. split; [apply get_raw_data_completes; exact Hc |].
  assert (Hread : forall k,
            dict_get k (dict_update [] (flat_map (supplied requests_get url)
                                                 (before ++ item :: after)))
            = dict_get k (rev (flat_map (supplied requests_get url)
                                        (before ++ item :: after)))).
  { intro k. rewrite dict_get_update.
    destruct (dict_get k (rev _)); reflexivity. }
  split; [exact Hread |].
  intros k v Hv Hlater. rewrite Hread.
  rewrite flat_map_app. cbn [flat_map]. rewrite !rev_app_distr, <- app_assoc.
  rewrite !dict_get_app.
  assert (Hafter : dict_get k (rev (flat_map (supplied requests_get url) after)) = None).
  { apply dict_get_None. intro Hin. unfold keys in Hin. rewrite map_rev in Hin.
    apply in_rev in Hin. apply keys_flat_map_supplied in Hin.
    destruct Hin as (later & Hl & Hk).
    apply (proj1 (dict_get_None k _) (Hlater later Hl)). exact Hk. }
  rewrite Hafter, Hv. reflexivity.
Qed.

Lemma get_raw_data_last_writer_wins_witness :
  exists d,
    snd (get_raw_data api_overlap reqUrl ["S7A2011"; "S7A2012"]) = Return d
    /\ dict_get "2011" d = Some (JArr [JObj [("valor", JStr "new")]]).
Proof.
  destruct (get_raw_data_last_writer_wins api_overlap reqUrl ["S7A2011"] "S7A2012" []
              eq_refl) as (d & Hret & _ & Hlast).
  exists d. split; [exact Hret |].
  apply Hlast; [reflexivity | intros later []].
Defined.

(** ** Labels *)

Lemma mem_In (x : string) (l : list string) : mem x l = true <-> In x l.
Proof.
  unfold mem. rewrite existsb_exists. split.
  - intros (y & Hin & E). apply String.eqb_eq in E. subst y. exact Hin.
  - intro Hin. exists x. split; [exact Hin | apply String.eqb_refl].
Qed.

Lemma mem_false (x : string) (l : list string) : mem x l = false <-> ~ In x l.
Proof.
  rewrite <- mem_In. destruct (mem x l); split; congruence.
Qed.

Lemma In_unique (x : string) (l : list string) : In x (unique l) <-> In x l.
Proof.
  induction l as [| y l IH]; simpl; [tauto |].
  rewrite filter_In, IH.
  destruct (String.eqb_spec x y) as [-> | Hne]; simpl.
  - split; [intros _; left; reflexivity | intros _; left; reflexivity].
  - split.
    + intros [E | [Hin _]]; [congruence | right; exact Hin].
    + intros [E | Hin]; [congruence | right; split; [exact Hin | reflexivity]].
Qed.

Lemma NoDup_filter (f : string -> bool) (l : list string) :
  NoDup l -> NoDup (filter f l).
Proof.
  induction 1 as [| x l Hnotin Hnd IH]; simpl; [constructor |].
  destruct (f x); [| exact IH].
  constructor; [| exact IH].
  intro Hin. apply filter_In in Hin. tauto.
Qed.

Lemma NoDup_unique (l : list string) : NoDup (unique l).
Proof.
  induction l as [| y l IH]; simpl; constructor.
  - intro Hin. apply filter_In in Hin. destruct Hin as [_ H].
    rewrite String.eqb_refl in H. discriminate.
  - apply NoDup_filter. exact IH.
Qed.

Lemma distinct_NoDup (l : list string) : distinct l = true <-> NoDup l.
Proof.
  induction l as [| x l IH]; simpl.
  - split; [constructor | reflexivity].
  - rewrite andb_true_iff, negb_true_iff, mem_false, IH. split.
    + intros [H1 H2]. constructor; assumption.
    + intro H. inversion H; subst. split; assumption.
Qed.

Lemma NoDup_add_label (l : string) (L : list string) :
  NoDup L -> NoDup (add_label l L).
Proof.
  intro H. unfold add_label. destruct (mem l L) eqn:E; [exact H |].
  apply mem_false in E.
  apply NoDup_rev in H. rewrite <- (rev_involutive (L ++ [l])).
  apply NoDup_rev. rewrite rev_app_distr. simpl.
  constructor; [rewrite <- in_rev; exact E | exact H].
Qed.

Lemma In_add_label (x l : string) (L : list string) :
  In x (add_label l L) <-> x = l \/ In x L.
Proof.
  unfold add_label. destruct (mem l L) eqn:E.
  - apply mem_In in E. split; [tauto | intros [-> | H]; assumption].
  - rewrite in_app_iff. simpl. intuition congruence.
Qed.

(** ** Frames given row by row *)

Section Tables.
Context {O : Type}.
Implicit Types (f : string -> O -> Cell) (L : list string) (obs : list O).

Lemma labels_table g f L obs : labels (table g f L obs) = map g L.
Proof. unfold labels, table. simpl. rewrite map_map. reflexivity. Qed.

Lemma labels_table_id f L obs : labels (table (fun l => l) f L obs) = L.
Proof. rewrite labels_table. apply map_id. Qed.

Lemma repeat_const (v : Cell) obs : repeat v (List.length obs) = map (fun _ => v) obs.
Proof. induction obs as [| o obs IH]; simpl; [reflexivity | rewrite IH; reflexivity]. Qed.

(** Reading a column of a table by its label, when the renaming sends no
    other label of the table onto it. *)
Lemma dict_get_table g f L obs (l : string) :
  (forall l', In l' L -> g l' = g l -> l' = l) ->
  dict_get (g l) (columns (table g f L obs))
  = if mem l L then Some (map (f l) obs) else None.
Proof.
  intro Hinj. unfold table. simpl.
  induction L as [| l0 L IH]; simpl; [reflexivity |].
  destruct (String.eqb_spec (g l) (g l0)) as [E | Hne].
  - rewrite (Hinj l0 (or_introl eq_refl) (eq_sym E)).
    rewrite String.eqb_refl. reflexivity.
  - destruct (String.eqb_spec l l0) as [-> | _]; [congruence |].
    simpl. apply IH. intros l' Hin. apply Hinj. right. exact Hin.
Qed.

Lemma df_setitem_table f L obs (l : string) (v : Cell) :
  df_setitem (table (fun l => l) f L obs) l v
  = table (fun l => l) (override l v f) (add_label l L) obs.
Proof.
  unfold df_setitem. rewrite labels_table_id.
  unfold table, add_label. cbn [index_len columns]. f_equal.
  rewrite repeat_const.
  destruct (mem l L) eqn:E.
  - rewrite map_map. apply map_ext. intro l'. cbn [fst]. unfold override.
    destruct (String.eqb l' l); reflexivity.
  - rewrite map_app. cbn [map]. unfold override at 2. rewrite String.eqb_refl.
    f_equal. apply map_ext_in. intros l' Hin. unfold override.
    destruct (String.eqb_spec l' l) as [-> | _]; [| reflexivity].
    exfalso. apply (proj1 (mem_false l L) E). exact Hin.
Qed.

Lemma df_drop_table f L obs (names : list string) :
  df_drop (table (fun l => l) f L obs) names
  = match filter (fun l => negb (mem l L)) names with
    | [] => Return (table (fun l => l) f (filter (fun l => negb (mem l names)) L) obs)
    | missing => Raise (LabelsNotFound missing)
    end.
Proof.
  unfold df_drop. rewrite labels_table_id.
  destruct (filter (fun l => negb (mem l L)) names); [| reflexivity].
  unfold table. cbn [index_len columns]. do 2 f_equal.
  induction L as [| l0 L IH]; simpl; [reflexivity |].
  destruct (mem l0 names); simpl; rewrite IH; reflexivity.
Qed.

Lemma df_rename_table f L obs (mapping : list (string * string)) :
  df_rename (table (fun l => l) f L obs) mapping = table (relabel mapping) f L obs.
Proof.
  unfold df_rename, table. cbn [index_len columns]. f_equal.
  rewrite map_map. reflexivity.
Qed.

Lemma column_or_nan_table f L obs (l : string) :
  column_or_nan l (table (fun l => l) f L obs)
  = if mem l L then map (f l) obs else map (fun _ => NaN) obs.
Proof.
  unfold column_or_nan.
  rewrite (dict_get_table (fun l => l) f L obs l) by (intros; assumption).
  destruct (mem l L); [reflexivity |]. cbn [index_len table]. apply repeat_const.
Qed.
End Tables.

(** ** Stage 4a *)

Lemma year_frame_table (yr : string * list (list (string * string))) :
  year_frame yr
  = table (fun l => l) (override "Year" (CStr (fst yr)) record_cell)
          (year_labels yr) (snd yr).
Proof.
  unfold year_frame, year_labels.
  change (frame_of_records (snd yr))
    with (table (fun l => l) record_cell (unique (flat_map keys (snd yr))) (snd yr)).
  apply df_setitem_table.
Qed.

Lemma record_cell_absent (l : string) (rs : list (list (string * string))) (r : list (string * string)) :
  ~ In l (flat_map keys rs) -> In r rs -> record_cell l r = NaN.
Proof.
  intros Hnot Hin. unfold record_cell.
  destruct (dict_get l r) as [v |] eqn:E; [| reflexivity].
  exfalso. apply Hnot. apply in_flat_map. exists r. split; [exact Hin |].
  apply dict_get_In in E. change l with (fst (l, v)). apply in_map. exact E.
Qed.

Lemma column_or_nan_year_frame (l : string) (yr : string * list (list (string * string))) :
  column_or_nan l (year_frame yr) = map (fun r => year_cell l (fst yr, r)) (snd yr).
Proof.
  rewrite year_frame_table, column_or_nan_table.
  unfold year_cell, override. cbn [fst snd].
  destruct (String.eqb_spec l "Year") as [-> | Hne].
  - assert (E : mem "Year" (year_labels yr) = true)
      by (apply mem_In, In_add_label; left; reflexivity).
    rewrite E. reflexivity.
  - destruct (mem l (year_labels yr)) eqn:E; [reflexivity |].
    apply map_ext_in. intros r Hr. symmetry.
    apply (record_cell_absent l (snd yr)); [| exact Hr].
    apply mem_false in E. intro Hin. apply E.
    apply In_add_label. right. apply In_unique. exact Hin.
Qed.

Lemma labels_year_frame (yr : string * list (list (string * string))) :
  labels (year_frame yr) = year_labels yr.
Proof. rewrite year_frame_table. apply labels_table_id. Qed.

Lemma index_len_year_frame (yr : string * list (list (string * string))) :
  index_len (year_frame yr) = List.length (snd yr).
Proof. reflexivity. Qed.

Lemma pd_concat_nonempty (frames : list DataFrame) :
  frames <> [] ->
  forallb (fun f => distinct (labels f)) frames = true ->
  pd_concat frames
  = Return {| index_len := list_sum (map index_len frames);
              columns := map (fun l => (l, flat_map (column_or_nan l) frames))
                             (unique (flat_map labels frames)) |}.
Proof.
  intros Hne Hd. unfold pd_concat. destruct frames as [| f fs]; [congruence |].
  rewrite Hd. reflexivity.
Qed.

Section Concat.
Variable years : list (string * list (list (string * string))).

Lemma concat_cells (l : string) :
  flat_map (column_or_nan l) (map year_frame years)
  = map (year_cell l) (observations years).
Proof.
  unfold observations.
  induction years as [| yr ys IH]; cbn [map flat_map]; [reflexivity |].
  rewrite map_app, IH, column_or_nan_year_frame, map_map. reflexivity.
Qed.

Lemma concat_index_len :
  list_sum (map index_len (map year_frame years)) = List.length (observations years).
Proof.
  unfold observations.
  induction years as [| yr ys IH]; cbn [map flat_map]; [reflexivity |].
  change (list_sum (index_len (year_frame yr) :: map index_len (map year_frame ys)))
    with (index_len (year_frame yr) + list_sum (map index_len (map year_frame ys)))%nat.
  rewrite length_app, length_map, IH, index_len_year_frame. reflexivity.
Qed.

Lemma concat_all_labels :
  flat_map labels (map year_frame years) = flat_map year_labels years.
Proof.
  induction years as [| yr ys IH]; cbn [map flat_map]; [reflexivity |].
  rewrite IH, labels_year_frame. reflexivity.
Qed.

Lemma concat_distinct :
  forallb (fun f => distinct (labels f)) (map year_frame years) = true.
Proof.
  apply forallb_forall. intros f Hin. apply in_map_iff in Hin.
  destruct Hin as (yr & <- & _). rewrite labels_year_frame.
  apply distinct_NoDup, NoDup_add_label, NoDup_unique.
Qed.

Lemma pd_concat_year_frames :
  years <> [] ->
  pd_concat (map year_frame years)
  = Return (table (fun l => l) year_cell (concat_labels years) (observations years)).
Proof.
  intro Hne.
  rewrite pd_concat_nonempty;
    [| destruct years; [congruence | discriminate] | apply concat_distinct].
  unfold table. rewrite concat_index_len, concat_all_labels.
  do 2 f_equal. apply map_ext. intro l. rewrite concat_cells. reflexivity.
Qed.

(** The statements after the loop, on the frames of [years]. *)
Lemma finish_table_year_frames :
  years <> [] ->
  finish_table (map year_frame years)
  = match filter (fun l => negb (mem l (add_label "Measure Of Unit"
                                 (add_label "Formule"
                                    (add_label "Indicator Code" (concat_labels years))))))
                 flag_columns with
    | [] => Return (expected_table years)
    | missing => Raise (LabelsNotFound missing)
    end.
Proof.
  intro Hne. unfold finish_table. rewrite (pd_concat_year_frames Hne).
  cbn [bind]. rewrite !df_setitem_table, df_drop_table.
  destruct (filter _ flag_columns); [| reflexivity].
  cbn [bind]. rewrite df_rename_table. reflexivity.
Qed.
End Concat.

Lemma typed_years_nonempty raw years :
  typed_years raw = Some years -> raw <> [] -> years <> [].
Proof.
  destruct raw as [| [y j] rest]; [congruence |].
  simpl. destruct j; try discriminate.
  destruct (leaf_records items); [| discriminate].
  destruct (typed_years rest); [| discriminate].
  intros H _. injection H as <-. discriminate.
Qed.

(** The loop over a mapping of leaf observations appends the frame of each
    year and leaves the mapping as it found it. *)
Lemma transform_loop_typed (items : list (string * json)) :
  forall years s,
    typed_years items = Some years ->
    (forall item, In item items -> dict_get (fst item) (raw_data s) = Some (snd item)) ->
    transform_loop items s
    = ({| raw_data := raw_data s;
          clean_data := clean_data s ++ map year_frame years;
          transform_log := transform_log s ++
            map (fun item => Info ("Transforming data for year: " +++ fst item)) items |},
       Return tt).
Proof.
  induction items as [| [y j] rest IH]; intros years s Hty Hget.
  - injection Hty as <-. destruct s. simpl. rewrite !app_nil_r. reflexivity.
  - simpl in Hty. destruct j as [| | | | | recs |]; try discriminate.
    destruct (leaf_records recs) as [rs |] eqn:Hrs; [| discriminate].
    destruct (typed_years rest) as [ys |] eqn:Hys; [| discriminate].
    injection Hty as <-.
    cbn [transform_loop fst raw_data]. unfold json_normalize, pull_records.
    pose proof (Hget (y, JArr recs) (or_introl eq_refl)) as Hy.
    cbn [fst snd] in Hy. rewrite Hy. cbn [bind].
    rewrite Hrs.
    rewrite (IH ys _ eq_refl) by (intros item Hin; apply Hget; right; exact Hin).
    cbn [raw_data clean_data transform_log map fst].
    rewrite <- !app_assoc. reflexivity.
Qed.

Lemma occurs_iff (k : string) years :
  occurs k years = true
  <-> exists yr r, In yr years /\ In r (snd yr) /\ In k (keys r).
Proof.
  unfold occurs, observations. rewrite existsb_exists. split.
  - intros ([y r] & Hin & Hk). apply in_flat_map in Hin.
    destruct Hin as (yr & Hyr & Ho). apply in_map_iff in Ho.
    destruct Ho as (r' & E & Hr). injection E as _ <-.
    exists yr, r'. repeat split; [exact Hyr | exact Hr | apply mem_In; exact Hk].
  - intros (yr & r & Hyr & Hr & Hk). exists (fst yr, r). split.
    + apply in_flat_map. exists yr. split; [exact Hyr | apply in_map; exact Hr].
    + apply mem_In. exact Hk.
Qed.

Lemma In_concat_labels (k : string) years :
  In k (concat_labels years)
  <-> (k = "Year" /\ years <> []) \/ occurs k years = true.
Proof.
  unfold concat_labels. rewrite In_unique, in_flat_map, occurs_iff. split.
  - intros (yr & Hyr & Hk). apply In_add_label in Hk. destruct Hk as [-> | Hk].
    + left. split; [reflexivity | intros ->; destruct Hyr].
    + right. apply In_unique, in_flat_map in Hk. destruct Hk as (r & Hr & Hk).
      exists yr, r. repeat split; assumption.
  - intros [[-> Hne] | (yr & r & Hyr & Hr & Hk)].
    + destruct years as [| yr ys]; [congruence |].
      exists yr. split; [left; reflexivity | apply In_add_label; left; reflexivity].
    + exists yr. split; [exact Hyr |]. apply In_add_label. right.
      apply In_unique, in_flat_map. exists r. split; assumption.
Qed.

Lemma transform_raw_data_typed raw years :
  NoDup (keys raw) ->
  typed_years raw = Some years ->
  raw <> [] ->
  transform_raw_data raw
  = match filter (fun l => negb (mem l (add_label "Measure Of Unit"
                                 (add_label "Formule"
                                    (add_label "Indicator Code" (concat_labels years))))))
                 flag_columns with
    | [] => Return (expected_table years)
    | missing => Raise (LabelsNotFound missing)
    end.
Proof.
  intros Hnd Hty Hne. unfold transform_raw_data, transform_run.
  rewrite (transform_loop_typed raw years _ Hty).
  - cbn [snd bind clean_data app].
    apply finish_table_year_frames. apply (typed_years_nonempty raw); assumption.
  - intros [k v] Hin. cbn [fst snd raw_data]. apply dict_get_NoDup; assumption.
Qed.

Lemma mem_source_label (k : string) years :
  mem k derived_columns = false ->
  mem k (add_label "Measure Of Unit"
           (add_label "Formule" (add_label "Indicator Code" (concat_labels years))))
  = occurs k years.
Proof.
  intro Hk.
  assert (Hd : ~ In k derived_columns) by (apply mem_false; exact Hk).
  simpl in Hd.
  destruct (occurs k years) eqn:E.
  - apply mem_In. rewrite !In_add_label, In_concat_labels. tauto.
  - apply mem_false. rewrite !In_add_label, In_concat_labels.
    intros [-> | [-> | [-> | [[-> _] | H]]]]; try tauto. congruence.
Qed.

(** With both flag columns present, the transformer returns the table
    [expected_table] row for row; with one absent, [drop] raises. *)
Lemma transform_raw_data_expected raw years :
  NoDup (keys raw) ->
  typed_years raw = Some years ->
  raw <> [] ->
  occurs "sinal_conv" years = true ->
  occurs "sinal_conv_desc" years = true ->
  transform_raw_data raw = Return (expected_table years).
Proof.
  intros Hnd Hty Hne H1 H2.
  rewrite (transform_raw_data_typed raw years Hnd Hty Hne).
  unfold flag_columns. cbn [filter].
  rewrite !mem_source_label by reflexivity. rewrite H1, H2. reflexivity.
Qed.

Lemma transform_raw_data_flag_missing raw years :
  NoDup (keys raw) ->
  typed_years raw = Some years ->
  raw <> [] ->
  occurs "sinal_conv" years = false \/ occurs "sinal_conv_desc" years = false ->
  exists missing, transform_raw_data raw = Raise (LabelsNotFound missing).
Proof.
  intros Hnd Hty Hne H.
  rewrite (transform_raw_data_typed raw years Hnd Hty Hne).
  unfold flag_columns. cbn [filter].
  rewrite !mem_source_label by reflexivity.
  destruct (occurs "sinal_conv" years), (occurs "sinal_conv_desc" years);
    cbn [negb]; try (eexists; reflexivity).
  destruct H; discriminate.
Qed.

Lemma relabel_renamed (l t : string) :
  relabel renamed_columns l = t ->
  ~ In t (map snd renamed_columns) ->
  l = t.
Proof.
  unfold relabel, renamed_columns. cbn [dict_get map snd].
  repeat (destruct (String.eqb l _);
          [intros <- Hnot; exfalso; apply Hnot; simpl; tauto |]).
  intros <- _. reflexivity.
Qed.

Lemma table_labels_In (k : string) years :
  In k (table_labels years)
  <-> ~ In k flag_columns
      /\ (In k derived_columns /\ (k = "Year" -> years <> [])
          \/ occurs k years = true).
Proof.
  unfold table_labels. rewrite filter_In, negb_true_iff, mem_false.
  rewrite !In_add_label, In_concat_labels. simpl.
  split.
  - intros [H Hflag]. split; [exact Hflag |].
    destruct H as [-> | [-> | [-> | [[-> Hne] | H]]]];
      [left | left | left | left | right; exact H];
      (split; [tauto | first [intros _; exact Hne | discriminate]]).
  - intros [Hflag [[H Hne] | H]]; (split; [| exact Hflag]); [| tauto].
    destruct H as [<- | [<- | [<- | [<- | []]]]]; tauto.
Qed.

Lemma observations_length years :
  List.length (observations years)
  = list_sum (map (fun yr => List.length (snd yr)) years).
Proof.
  unfold observations. induction years as [| yr ys IH]; [reflexivity |].
  cbn [flat_map map]. rewrite length_app, length_map, IH. reflexivity.
Qed.

(** Reading a derived column of the final table. *)
Lemma expected_table_derived (k : string) years :
  In k derived_columns ->
  years <> [] ->
  dict_get k (columns (expected_table years))
  = Some (map (table_cell k) (observations years)).
Proof.
  intros Hk Hne.
  assert (Hfix : relabel renamed_columns k = k)
    by (simpl in Hk; destruct Hk as [<- | [<- | [<- | [<- | []]]]]; reflexivity).
  assert (Hnot : ~ In k (map snd renamed_columns))
    by (simpl in Hk; destruct Hk as [<- | [<- | [<- | [<- | []]]]];
        simpl; intuition discriminate).
  unfold expected_table. rewrite <- Hfix at 1.
  rewrite dict_get_table.
  - assert (E : mem k (table_labels years) = true).
    { apply mem_In, table_labels_In. split.
      - simpl in Hk. destruct Hk as [<- | [<- | [<- | [<- | []]]]];
          simpl; intuition discriminate.
      - left. split; [exact Hk | intros _; exact Hne]. }
    rewrite E. reflexivity.
  - intros l' _ E. rewrite Hfix in E. apply relabel_renamed; assumption.
Qed.

(** *** The store *)

Lemma untouched_refl n h : untouched n h h.
Proof. split; [apply Nat.le_refl | reflexivity]. Qed.

Lemma untouched_trans n h1 h2 h3 :
  untouched n h1 h2 -> untouched n h2 h3 -> untouched n h1 h3.
Proof.
  intros [L1 H1] [L2 H2]. split; [exact (Nat.le_trans _ _ _ L1 L2) |].
  intros ref Hr. rewrite H2, H1 by exact Hr. reflexivity.
Qed.

Lemma length_replace_at h ref o :
  List.length (replace_at h ref o) = List.length h.
Proof.
  revert ref. induction h as [| x h IH]; intros [| ref]; simpl;
    try reflexivity. rewrite IH. reflexivity.
Qed.

Lemma nth_error_replace_at_other h ref o ref' :
  ref' <> ref -> nth_error (replace_at h ref o) ref' = nth_error h ref'.
Proof.
  revert ref ref'. induction h as [| x h IH]; intros [| ref] [| ref'] Hne;
    simpl; try reflexivity; [contradiction |].
  apply IH. intro E. apply Hne. rewrite E. reflexivity.
Qed.

Lemma nth_error_replace_at_same h ref o :
  (ref < List.length h)%nat -> nth_error (replace_at h ref o) ref = Some o.
Proof.
  revert ref. induction h as [| x h IH]; intros [| ref] Hlt; simpl in *;
    try (exfalso; apply (Nat.nlt_0_r _ Hlt)); [reflexivity |].
  apply IH. apply Nat.succ_lt_mono. exact Hlt.
Qed.

Lemma untouched_replace_at n h ref o :
  (n <= ref)%nat -> untouched n h (replace_at h ref o).
Proof.
  intro Hn. split; [rewrite length_replace_at; apply Nat.le_refl |].
  intros ref' Hr. apply nth_error_replace_at_other.
  intro E. rewrite E in Hr. exact (Nat.lt_irrefl _ (Nat.lt_le_trans _ _ _ Hr Hn)).
Qed.

Lemma untouched_new n h o :
  (n <= List.length h)%nat -> untouched n h (h ++ [o]).
Proof.
  intro Hn. split.
  - rewrite length_app. apply Nat.le_add_r.
  - intros ref Hr. apply nth_error_app1. exact (Nat.lt_le_trans _ _ _ Hr Hn).
Qed.

(** *** Statements that spare the objects they were not given *)

Lemma spares_weaken n {A} (c : Py A) (Q Q' : A -> Prop) :
  spares n c Q -> (forall a, Q a -> Q' a) -> spares n c Q'.
Proof.
  intros H HQ s Hs. destruct (H s Hs) as [Hu Hr]. split; [exact Hu |].
  intros a E. apply HQ, Hr, E.
Qed.

Lemma spares_bind n {A B} (c : Py A) (k : A -> Py B) (Q : A -> Prop) (R : B -> Prop) :
  spares n c Q -> (forall a, Q a -> spares n (k a) R) -> spares n (c <-- c ;; k c) R.
Proof.
  intros Hc Hk s Hs. unfold py_bind.
  destruct (Hc s Hs) as [Hu Hr]. destruct (c s) as [s1 [a | e |]]; cbn [fst snd] in *.
  - assert (Hs1 : (n <= List.length (objects s1))%nat)
      by (exact (Nat.le_trans _ _ _ Hs (proj1 Hu))).
    destruct (Hk a (Hr a eq_refl) s1 Hs1) as [Hu1 Hr1].
    split; [exact (untouched_trans _ _ _ _ Hu Hu1) | exact Hr1].
  - split; [exact Hu | discriminate].
  - split; [exact Hu | discriminate].
Qed.

Lemma spares_return n {A} (a : A) (Q : A -> Prop) : Q a -> spares n (py_return a) Q.
Proof.
  intros HQ s _. split; [apply untouched_refl |].
  intros a' E. injection E as <-. exact HQ.
Qed.

Lemma spares_value n {A} (r : Outcome A) (Q : A -> Prop) :
  (forall a, r = Return a -> Q a) -> spares n (py_value r) Q.
Proof. intros HQ s _. split; [apply untouched_refl | exact HQ]. Qed.

Lemma spares_info n msg : spares n (py_info msg) (fun _ => True).
Proof. intros s _. split; [apply untouched_refl | trivial]. Qed.

Lemma spares_deref n ref : spares n (deref ref) (fun _ => True).
Proof.
  intros s _. unfold deref. destruct (nth_error (objects s) ref);
    (split; [apply untouched_refl | trivial]).
Qed.

Lemma spares_new_object n o : spares n (new_object o) (fun ref => (n <= ref)%nat).
Proof.
  intros s Hs. split; [apply untouched_new; exact Hs |].
  intros a E. injection E as <-. exact Hs.
Qed.

Lemma spares_assign n ref o :
  (n <= ref)%nat -> spares n (assign ref o) (fun _ => True).
Proof. intros Hn s _. split; [apply untouched_replace_at; exact Hn | trivial]. Qed.

Lemma spares_read_frame n ref : spares n (read_frame ref) (fun _ => True).
Proof.
  unfold read_frame. apply (spares_bind n _ _ _ _ (spares_deref n ref)).
  intros o _. destruct o; try (apply spares_value; discriminate). apply spares_return. exact I.
Qed.

Lemma spares_read_frames n refs : spares n (read_frames refs) (fun _ => True).
Proof.
  induction refs as [| ref rest IH]; cbn [read_frames].
  - apply spares_return. exact I.
  - apply (spares_bind n _ _ _ _ (spares_read_frame n ref)). intros df _.
    apply (spares_bind n _ _ _ _ IH). intros dfs _. apply spares_return. exact I.
Qed.

Lemma spares_setitem_at n frame label v :
  (n <= frame)%nat -> spares n (setitem_at frame label v) (fun _ => True).
Proof.
  intro Hn. unfold setitem_at.
  apply (spares_bind n _ _ _ _ (spares_read_frame n frame)). intros df _.
  apply spares_assign. exact Hn.
Qed.

Lemma spares_drop_at n frame names :
  (n <= frame)%nat -> spares n (drop_at frame names) (fun _ => True).
Proof.
  intro Hn. unfold drop_at.
  apply (spares_bind n _ _ _ _ (spares_read_frame n frame)). intros df _.
  apply (spares_bind n _ _ (fun _ => True)); [apply spares_value; trivial |]. intros df' _.
  apply spares_assign. exact Hn.
Qed.

Lemma spares_rename_at n frame mapping :
  (n <= frame)%nat -> spares n (rename_at frame mapping) (fun _ => True).
Proof.
  intro Hn. unfold rename_at.
  apply (spares_bind n _ _ _ _ (spares_read_frame n frame)). intros df _.
  apply spares_assign. exact Hn.
Qed.

Lemma spares_append_at n lst x :
  (n <= lst)%nat -> spares n (append_at lst x) (fun _ => True).
Proof.
  intro Hn. unfold append_at.
  apply (spares_bind n _ _ _ _ (spares_deref n lst)). intros o _.
  destruct o; try (apply spares_value; discriminate). apply spares_assign. exact Hn.
Qed.

Lemma spares_json_normalize_at n raw_data col :
  spares n (json_normalize_at raw_data col) (fun ref => (n <= ref)%nat).
Proof.
  unfold json_normalize_at.
  apply (spares_bind n _ _ _ _ (spares_deref n raw_data)). intros o _.
  destruct o; try (apply spares_value; discriminate).
  destruct (dict_get col members) as [ref |]; [| apply spares_value; discriminate].
  intros s Hs. destruct (read_value (objects s) ref) as [j |].
  - revert s Hs.
    apply (spares_bind n _ _ (fun _ => True)); [apply spares_value; trivial |].
    intros df _. apply spares_new_object.
  - split; [apply untouched_refl | discriminate].
Qed.

Lemma spares_concat_at n frames :
  spares n (concat_at frames) (fun ref => (n <= ref)%nat).
Proof.
  unfold concat_at.
  apply (spares_bind n _ _ _ _ (spares_deref n frames)). intros o _.
  destruct o; try (apply spares_value; discriminate).
  apply (spares_bind n _ _ _ _ (spares_read_frames n items)). intros dfs _.
  apply (spares_bind n _ _ (fun _ => True)); [apply spares_value; trivial |].
  intros df _. apply spares_new_object.
Qed.

Lemma spares_transform_loop_at n raw_data clean_data cols :
  (n <= clean_data)%nat ->
  spares n (transform_loop_at raw_data clean_data cols) (fun _ => True).
Proof.
  intro Hn. induction cols as [| col rest IH]; cbn [transform_loop_at].
  - apply spares_return. exact I.
  - apply (spares_bind n _ _ _ _ (spares_info n _)). intros _ _.
    apply (spares_bind n _ _ _ _ (spares_json_normalize_at n raw_data col)).
    intros df_flatenned Hdf.
    apply (spares_bind n _ _ _ _ (spares_setitem_at n _ _ _ Hdf)). intros _ _.
    apply (spares_bind n _ _ _ _ (spares_append_at n _ _ Hn)). intros _ _.
    exact IH.
Qed.

Lemma spares_finish_table_at n clean_data :
  spares n (finish_table_at clean_data) (fun ref => (n <= ref)%nat).
Proof.
  unfold finish_table_at.
  apply (spares_bind n _ _ _ _ (spares_concat_at n clean_data)). intros df Hdf.
  apply (spares_bind n _ _ _ _ (spares_setitem_at n _ _ _ Hdf)). intros _ _.
  apply (spares_bind n _ _ _ _ (spares_setitem_at n _ _ _ Hdf)). intros _ _.
  apply (spares_bind n _ _ _ _ (spares_setitem_at n _ _ _ Hdf)). intros _ _.
  apply (spares_bind n _ _ _ _ (spares_drop_at n _ _ Hdf)). intros _ _.
  apply (spares_bind n _ _ _ _ (spares_rename_at n _ _ Hdf)). intros _ _.
  apply spares_return. exact Hdf.
Qed.

(** Whatever the store holds below [n] when [transform_raw_data] is
    called, the call leaves it alone, and the table it returns is not among
    it. *)
Lemma spares_transform_raw_data_at n raw_data :
  spares n (transform_raw_data_at raw_data) (fun ref => (n <= ref)%nat).
Proof.
  unfold transform_raw_data_at.
  apply (spares_bind n _ _ _ _ (spares_new_object n _)). intros clean_data Hc.
  apply (spares_bind n _ _ _ _ (spares_deref n raw_data)). intros o _.
  destruct o; try (apply spares_value; discriminate).
  apply (spares_bind n _ _ _ _ (spares_transform_loop_at n _ _ _ Hc)). intros _ _.
  apply spares_finish_table_at.
Qed.

(** *** Reading values from the store *)

Lemma all_some_map_impl {A B : Type} (f g : A -> option B) l ys :
  (forall x y, f x = Some y -> g x = Some y) ->
  all_some (map f l) = Some ys -> all_some (map g l) = Some ys.
Proof.
  intro Hfg. revert ys. induction l as [| x l IH]; intros ys H; [exact H |].
  cbn [map all_some] in *. destruct (f x) as [y |] eqn:Hx; [| discriminate].
  rewrite (Hfg _ _ Hx).
  destruct (all_some (map f l)) as [ys' |]; [| discriminate].
  rewrite (IH _ eq_refl). exact H.
Qed.

(** A value that reads from a reference still reads from it, and reads
    the same, in every store that kept the objects and with every larger
    depth. *)
Lemma read_json_stable fuel :
  forall fuel' h h' ref j,
    (fuel <= fuel')%nat ->
    untouched (List.length h) h h' ->
    read_json fuel h ref = Some j ->
    read_json fuel' h' ref = Some j.
Proof.
  induction fuel as [| fuel IH]; intros fuel' h h' ref j Hle Hu H;
    [discriminate |].
  destruct fuel' as [| fuel']; [exfalso; exact (Nat.nle_succ_0 _ Hle) |].
  apply le_S_n in Hle. cbn [read_json] in *.
  destruct (nth_error h ref) as [o |] eqn:Ho; [| discriminate].
  assert (Hlt : (ref < List.length h)%nat)
    by (apply nth_error_Some; rewrite Ho; discriminate).
  rewrite (proj2 Hu _ Hlt), Ho.
  destruct o; try exact H.
  - destruct (all_some (map (read_json fuel h) items)) as [l |] eqn:Hl;
      [| discriminate].
    rewrite (all_some_map_impl _ (read_json fuel' h') _ _
               (fun x y => IH fuel' h h' x y Hle Hu) Hl).
    exact H.
  - destruct (all_some (map (fun m => option_map (pair (fst m))
                                        (read_json fuel h (snd m))) members))
      as [l |] eqn:Hl; [| discriminate].
    assert (Hm : forall (m : string * nat) y,
               option_map (pair (fst m)) (read_json fuel h (snd m)) = Some y ->
               option_map (pair (fst m)) (read_json fuel' h' (snd m)) = Some y).
    { intros m y Hy. destruct (read_json fuel h (snd m)) as [j' |] eqn:E;
        [| discriminate].
      rewrite (IH fuel' h h' (snd m) j' Hle Hu E). exact Hy. }
    rewrite (all_some_map_impl _ _ _ _ Hm Hl).
    exact H.
Qed.

Lemma read_value_stable h h' ref j :
  untouched (List.length h) h h' ->
  read_value h ref = Some j -> read_value h' ref = Some j.
Proof.
  intros Hu H. exact (read_json_stable _ _ _ _ _ _ (proj1 Hu) Hu H).
Qed.

Lemma read_mapping_stable h h' ref raw :
  untouched (List.length h) h h' ->
  read_mapping h ref = Some raw -> read_mapping h' ref = Some raw.
Proof.
  unfold read_mapping. intros Hu H.
  destruct (read_value h ref) as [j |] eqn:E; [| discriminate].
  rewrite (read_value_stable _ _ _ _ Hu E). exact H.
Qed.

(** The members of a [dict] object and the members of its value go
    together, key by key. *)
Lemma read_members h fuel col members (raw : list (string * json)) :
  all_some (map (fun m : string * nat =>
                   option_map (pair (fst m)) (read_json fuel h (snd m)))
                members) = Some raw ->
  map fst members = map fst raw
  /\ match dict_get col members with
     | Some ref => exists j, dict_get col raw = Some j
                             /\ read_json fuel h ref = Some j
     | None => dict_get col raw = None
     end.
Proof.
  revert raw. induction members as [| [k ref] members IH]; intros raw H.
  - injection H as <-. split; reflexivity.
  - cbn [map all_some fst snd] in H.
    destruct (read_json fuel h ref) as [j |] eqn:Hj; [| discriminate].
    cbn [option_map] in H.
    destruct (all_some _) as [raw' |] eqn:Hr; [| discriminate].
    injection H as <-. destruct (IH raw' eq_refl) as [Hk Hget].
    split; [cbn [map fst]; rewrite Hk; reflexivity |].
    cbn [dict_get]. destruct (String.eqb col k); [| exact Hget].
    exists j. split; [reflexivity | exact Hj].
Qed.

Lemma read_mapping_members h ref raw :
  read_mapping h ref = Some raw ->
  exists members,
    nth_error h ref = Some (PDict members)
    /\ map fst members = map fst raw
    /\ forall col,
         match dict_get col members with
         | Some r => exists j, dict_get col raw = Some j /\ read_value h r = Some j
         | None => dict_get col raw = None
         end.
Proof.
  unfold read_mapping, read_value. intro H.
  destruct (List.length h) as [| fuel] eqn:Hlen; [discriminate |].
  cbn [read_json] in H.
  destruct (nth_error h ref) as [o |]; [| discriminate].
  destruct o; try discriminate.
  - destruct (all_some _); discriminate.
  - destruct (all_some _) as [l |] eqn:Hl; [| discriminate].
    injection H as ->. exists members. split; [reflexivity |].
    split; [exact (proj1 (read_members h fuel "" members raw Hl)) |].
    intro col. pose proof (proj2 (read_members h fuel col members raw Hl)) as Hc.
    destruct (dict_get col members) as [r |]; [| exact Hc].
    destruct Hc as (j & Hg & Hj). exists j. split; [exact Hg |].
    rewrite <- Hlen.
    refine (read_json_stable _ _ _ _ _ _ _ (untouched_refl _ _) Hj).
    rewrite Hlen. apply Nat.le_succ_diag_r.
Qed.

Lemma json_normalize_under raw col j :
  dict_get col raw = Some j ->
  json_normalize raw col = json_normalize [(col, j)] col.
Proof.
  intro H. unfold json_normalize, pull_records. cbn [dict_get].
  rewrite H, String.eqb_refl. reflexivity.
Qed.

(** *** The statements in place, run *)

Lemma nth_error_last (h : list PyObject) x :
  nth_error (h ++ [x]) (List.length h) = Some x.
Proof.
  rewrite nth_error_app2 by apply Nat.le_refl. rewrite Nat.sub_diag. reflexivity.
Qed.

Lemma replace_at_last h x o :
  replace_at (h ++ [x]) (List.length h) o = h ++ [o].
Proof. induction h as [| y h IH]; simpl; [| rewrite IH]; reflexivity. Qed.

Lemma read_frame_run s ref df :
  nth_error (objects s) ref = Some (PFrame df) ->
  read_frame ref s = (s, Return df).
Proof. intro H. unfold read_frame, py_bind, deref. rewrite H. reflexivity. Qed.

Lemma read_frames_run s refs dfs :
  Forall2 (fun ref df => nth_error (objects s) ref = Some (PFrame df)) refs dfs ->
  read_frames refs s = (s, Return dfs).
Proof.
  induction 1 as [| ref df refs dfs H _ IH]; [reflexivity |].
  cbn [read_frames]. unfold py_bind at 1. rewrite (read_frame_run _ _ _ H).
  unfold py_bind. rewrite IH. reflexivity.
Qed.

(** An assignment in place does change the object: whoever holds the
    reference of the frame finds the new column there. *)
Lemma setitem_at_seen s frame df label v :
  nth_error (objects s) frame = Some (PFrame df) ->
  nth_error (objects (fst (setitem_at frame label v s))) frame
  = Some (PFrame (df_setitem df label v)).
Proof.
  intro H. unfold setitem_at, py_bind. rewrite (read_frame_run _ _ _ H).
  cbn [assign fst objects]. apply nth_error_replace_at_same.
  apply nth_error_Some. rewrite H. discriminate.
Qed.

Lemma setitem_at_last h log df label v :
  setitem_at (List.length h) label v
    {| objects := h ++ [PFrame df]; store_log := log |}
  = ({| objects := h ++ [PFrame (df_setitem df label v)]; store_log := log |},
     Return tt).
Proof.
  unfold setitem_at, py_bind.
  rewrite (read_frame_run _ _ df) by apply nth_error_last.
  unfold assign. cbn [objects store_log]. rewrite replace_at_last. reflexivity.
Qed.

Lemma rename_at_last h log df mapping :
  rename_at (List.length h) mapping
    {| objects := h ++ [PFrame df]; store_log := log |}
  = ({| objects := h ++ [PFrame (df_rename df mapping)]; store_log := log |},
     Return tt).
Proof.
  unfold rename_at, py_bind.
  rewrite (read_frame_run _ _ df) by apply nth_error_last.
  unfold assign. cbn [objects store_log]. rewrite replace_at_last. reflexivity.
Qed.

Lemma drop_at_last h log df names :
  drop_at (List.length h) names
    {| objects := h ++ [PFrame df]; store_log := log |}
  = match df_drop df names with
    | Return df' =>
        ({| objects := h ++ [PFrame df']; store_log := log |}, Return tt)
    | Raise e => ({| objects := h ++ [PFrame df]; store_log := log |}, Raise e)
    | Unmodelled => ({| objects := h ++ [PFrame df]; store_log := log |}, Unmodelled)
    end.
Proof.
  unfold drop_at, py_bind.
  rewrite (read_frame_run _ _ df) by apply nth_error_last.
  unfold py_value. destruct (df_drop df names) as [df' | e |]; try reflexivity.
  unfold assign. cbn [objects store_log]. rewrite replace_at_last. reflexivity.
Qed.

Lemma finish_table_at_run s clean_data refs dfs :
  nth_error (objects s) clean_data = Some (PList refs) ->
  Forall2 (fun ref df => nth_error (objects s) ref = Some (PFrame df)) refs dfs ->
  store_log (fst (finish_table_at clean_data s)) = store_log s
  /\ table_at (fst (finish_table_at clean_data s))
              (snd (finish_table_at clean_data s)) (finish_table dfs).
Proof.
  intros Hc Hf.
  assert (E : finish_table_at clean_data s
              = match pd_concat dfs with
                | Return df =>
                    (_ <-- setitem_at (List.length (objects s)) "Indicator Code"
                             (CStr indicator) ;;
                     _ <-- setitem_at (List.length (objects s)) "Formule"
                             (CStr "(Number of crimes/ Resident population)*1000") ;;
                     _ <-- setitem_at (List.length (objects s)) "Measure Of Unit"
                             (CStr "Permillage") ;;
                     _ <-- drop_at (List.length (objects s)) flag_columns ;;
                     _ <-- rename_at (List.length (objects s)) renamed_columns ;;
                     py_return (List.length (objects s)))
                      {| objects := objects s ++ [PFrame df];
                         store_log := store_log s |}
                | Raise e => (s, Raise e)
                | Unmodelled => (s, Unmodelled)
                end).
  { unfold finish_table_at, concat_at. unfold py_bind at 1. unfold py_bind at 1.
    unfold deref. rewrite Hc. unfold py_bind at 1.
    rewrite (read_frames_run _ _ _ Hf). unfold py_bind at 1. unfold py_value.
    destruct (pd_concat dfs); reflexivity. }
  remember (finish_table_at clean_data s) as run eqn:Hrun. clear Hrun.
  unfold finish_table.
  destruct (pd_concat dfs) as [df | e |]; cbn [bind];
    [| subst run; split; reflexivity | subst run; split; reflexivity].
  unfold py_bind at 1 in E. rewrite setitem_at_last in E.
  unfold py_bind at 1 in E. rewrite setitem_at_last in E.
  unfold py_bind at 1 in E. rewrite setitem_at_last in E.
  unfold py_bind at 1 in E. rewrite drop_at_last in E.
  destruct (df_drop _ flag_columns) as [df' | e |]; cbn [bind];
    [| subst run; split; reflexivity | subst run; split; reflexivity].
  unfold py_bind in E. rewrite rename_at_last in E. unfold py_return in E.
  subst run. cbn [fst snd table_at store_log objects].
  split; [reflexivity |]. eexists. split; [reflexivity |].
  apply nth_error_last.
Qed.

(** *** The run over the store against the run over values *)

Section OnStore.
Variable h0 : list PyObject.
Variable raw_ref clean_ref : nat.
Variable raw : list (string * json).
Variable members : list (string * nat).
Hypothesis raw_object : nth_error h0 raw_ref = Some (PDict members).
Hypothesis raw_members :
  forall col,
    match dict_get col members with
    | Some r => exists j, dict_get col raw = Some j /\ read_value h0 r = Some j
    | None => dict_get col raw = None
    end.
Hypothesis clean_new : (List.length h0 <= clean_ref)%nat.

Lemma json_normalize_at_run s col :
  untouched (List.length h0) h0 (objects s) ->
  json_normalize_at raw_ref col s
  = match json_normalize raw col with
    | Return df =>
        ({| objects := objects s ++ [PFrame df]; store_log := store_log s |},
         Return (List.length (objects s)))
    | Raise e => (s, Raise e)
    | Unmodelled => (s, Unmodelled)
    end.
Proof.
  intro Hu. unfold json_normalize_at, py_bind, deref.
  assert (Hlt : (raw_ref < List.length h0)%nat)
    by (apply nth_error_Some; rewrite raw_object; discriminate).
  rewrite (proj2 Hu _ Hlt), raw_object.
  pose proof (raw_members col) as Hc.
  destruct (dict_get col members) as [r |].
  - destruct Hc as (j & Hg & Hj).
    rewrite (read_value_stable _ _ _ _ Hu Hj).
    rewrite <- (json_normalize_under _ _ _ Hg). unfold py_value.
    destruct (json_normalize raw col); reflexivity.
  - unfold json_normalize, pull_records, py_value. rewrite Hc. reflexivity.
Qed.

Lemma transform_loop_at_step s col rest refs :
  untouched (List.length h0) h0 (objects s) ->
  nth_error (objects s) clean_ref = Some (PList refs) ->
  transform_loop_at raw_ref clean_ref (col :: rest) s
  = match json_normalize raw col with
    | Return df =>
        transform_loop_at raw_ref clean_ref rest
          {| objects :=
               replace_at
                 (objects s ++ [PFrame (df_setitem df "Year" (CStr col))])
                 clean_ref (PList (refs ++ [List.length (objects s)]));
             store_log :=
               store_log s ++ [Info ("Transforming data for year: " +++ col)] |}
    | Raise e =>
        ({| objects := objects s;
            store_log :=
              store_log s ++ [Info ("Transforming data for year: " +++ col)] |},
         Raise e)
    | Unmodelled =>
        ({| objects := objects s;
            store_log :=
              store_log s ++ [Info ("Transforming data for year: " +++ col)] |},
         Unmodelled)
    end.
Proof.
  intros Hu Hc. cbn [transform_loop_at].
  unfold py_bind at 1. unfold py_info. unfold py_bind at 1.
  rewrite json_normalize_at_run by exact Hu. cbn [objects store_log].
  destruct (json_normalize raw col) as [df | e |]; try reflexivity.
  unfold py_bind at 1. rewrite setitem_at_last. unfold py_bind at 1.
  assert (Hcl : (clean_ref < List.length (objects s))%nat)
    by (apply nth_error_Some; rewrite Hc; discriminate).
  unfold append_at, py_bind at 1, deref. cbn [objects store_log].
  rewrite nth_error_app1 by exact Hcl. rewrite Hc. reflexivity.
Qed.

Lemma transform_loop_at_run items :
  forall s (L : Locals) refs log0,
    untouched (List.length h0) h0 (objects s) ->
    nth_error (objects s) clean_ref = Some (PList refs) ->
    Forall2 (fun ref df => nth_error (objects s) ref = Some (PFrame df))
            refs (clean_data L) ->
    raw_data L = raw ->
    store_log s = log0 ++ transform_log L ->
    snd (transform_loop_at raw_ref clean_ref (map fst items) s)
    = snd (transform_loop items L)
    /\ store_log (fst (transform_loop_at raw_ref clean_ref (map fst items) s))
       = log0 ++ transform_log (fst (transform_loop items L))
    /\ (snd (transform_loop items L) = Return tt ->
        exists refs',
          nth_error (objects (fst (transform_loop_at raw_ref clean_ref
                                     (map fst items) s))) clean_ref
          = Some (PList refs')
          /\ Forall2 (fun ref df =>
                        nth_error (objects (fst (transform_loop_at raw_ref clean_ref
                                                   (map fst items) s))) ref
                        = Some (PFrame df))
                     refs' (clean_data (fst (transform_loop items L)))).
Proof.
  induction items as [| item rest IH]; intros s L refs log0 Hu Hc Hf Hraw Hlog.
  - cbn [map transform_loop_at transform_loop py_return fst snd].
    split; [reflexivity |]. split; [exact Hlog |].
    intros _. exists refs. split; assumption.
  - cbn [map]. rewrite (transform_loop_at_step _ _ _ _ Hu Hc).
    cbn [transform_loop raw_data clean_data transform_log]. rewrite Hraw.
    assert (Hcl : (clean_ref < List.length (objects s))%nat)
      by (apply nth_error_Some; rewrite Hc; discriminate).
    destruct (json_normalize raw (fst item)) as [df | e |].
    + apply IH with (refs := refs ++ [List.length (objects s)]).
      * cbn [objects].
        apply (untouched_trans _ _ (objects s) _ Hu).
        apply (untouched_trans _ _
                 (objects s ++ [PFrame (df_setitem df "Year" (CStr (fst item)))])).
        { apply untouched_new. exact (proj1 Hu). }
        { apply untouched_replace_at. exact clean_new. }
      * cbn [objects]. apply nth_error_replace_at_same.
        rewrite length_app. apply Nat.lt_lt_add_r. exact Hcl.
      * cbn [objects clean_data]. apply Forall2_app.
        { refine (Forall2_impl _ _ Hf). intros ref df' H.
          rewrite nth_error_replace_at_other
            by (intro E; rewrite E, Hc in H; discriminate).
          rewrite nth_error_app1
            by (apply nth_error_Some; rewrite H; discriminate).
          exact H. }
        { constructor; [| constructor].
          rewrite nth_error_replace_at_other
            by (intro E; rewrite <- E in Hcl; exact (Nat.lt_irrefl _ Hcl)).
          apply nth_error_last. }
      * reflexivity.
      * cbn [store_log transform_log]. rewrite Hlog, app_assoc. reflexivity.
    + cbn [fst snd store_log transform_log]. split; [reflexivity |].
      split; [rewrite Hlog, app_assoc; reflexivity | discriminate].
    + cbn [fst snd store_log transform_log]. split; [reflexivity |].
      split; [rewrite Hlog, app_assoc; reflexivity | discriminate].
Qed.
End OnStore.

(** The run over the store is the run over values: called on the
    reference of a [dict] that reads as [raw], it logs what
    [transform_raw_data raw] logs and ends as it ends, the returned
    reference holding the returned table. *)
Lemma transform_raw_data_at_run s raw_ref raw :
  read_mapping (objects s) raw_ref = Some raw ->
  store_log (fst (transform_raw_data_at raw_ref s))
  = store_log s ++ transform_log (fst (transform_run raw))
  /\ table_at (fst (transform_raw_data_at raw_ref s))
              (snd (transform_raw_data_at raw_ref s))
              (transform_raw_data raw).
Proof.
  intro Hread.
  destruct (read_mapping_members _ _ _ Hread) as (members & Hobj & Hkeys & Hmem).
  assert (Hlt : (raw_ref < List.length (objects s))%nat)
    by (apply nth_error_Some; rewrite Hobj; discriminate).
  remember (transform_raw_data_at raw_ref s) as run eqn:E.
  unfold transform_raw_data_at, py_bind at 1, new_object in E.
  unfold py_bind at 1, deref in E. cbn [objects] in E.
  rewrite nth_error_app1, Hobj, Hkeys in E by exact Hlt.
  unfold py_bind in E.
  pose proof (transform_loop_at_run (objects s) raw_ref (List.length (objects s))
                raw members Hobj Hmem (Nat.le_refl _) raw
                {| objects := objects s ++ [PList []]; store_log := store_log s |}
                {| raw_data := raw; clean_data := []; transform_log := [] |}
                [] (store_log s)) as Hloop.
  cbn [objects store_log clean_data raw_data transform_log] in Hloop.
  specialize (Hloop (untouched_new _ _ _ (Nat.le_refl _)) (nth_error_last _ _)
                    (Forall2_nil _) eq_refl (eq_sym (app_nil_r _))).
  unfold transform_raw_data, transform_run.
  destruct (transform_loop raw _) as [L r'].
  destruct (transform_loop_at _ _ _ _) as [s2 r].
  cbn [fst snd] in Hloop |- *. destruct Hloop as (Hr & Hlog & Hframes).
  subst r. destruct r' as [[] | e |].
  - destruct (Hframes eq_refl) as (refs & Hc & Hf).
    destruct (finish_table_at_run s2 _ _ _ Hc Hf) as [Hl Ht].
    subst run. cbn [bind]. rewrite Hl. split; assumption.
  - subst run. split; [exact Hlog | reflexivity].
  - subst run. split; [exact Hlog | reflexivity].
Qed.

(** *** Values laid out in the store *)

(** Induction on a value, with the hypothesis for every item of a list and
    every member of an object. *)
Lemma json_nested_ind (P : json -> Prop) :
  P JNull -> (forall b, P (JBool b)) -> (forall z, P (JInt z)) ->
  (forall f, P (JFloat f)) -> (forall s, P (JStr s)) ->
  (forall items, Forall P items -> P (JArr items)) ->
  (forall members, Forall (fun m => P (snd m)) members -> P (JObj members)) ->
  forall j, P j.
Proof.
  intros HN HB HI HF HS HA HO. fix IH 1. intros [| b | z | f | s | items | members].
  - exact HN.
  - apply HB.
  - apply HI.
  - apply HF.
  - apply HS.
  - apply HA. induction items as [| x items IHl]; constructor;
      [apply IH | exact IHl].
  - apply HO. induction members as [| m members IHl]; constructor;
      [apply IH | exact IHl].
Qed.

Lemma all_some_read {A B C : Type} (f : A -> option B) (g : C -> B) refs l :
  Forall2 (fun r x => f r = Some (g x)) refs l ->
  all_some (map f refs) = Some (map g l).
Proof.
  induction 1 as [| r x refs l H _ IH]; [reflexivity |].
  cbn [map all_some]. rewrite H, IH. reflexivity.
Qed.

Lemma alloc_each_lays_out {A : Type} (val : A -> json)
      (alloc1 : A -> list PyObject -> list PyObject * nat) (l : list A) :
  Forall (fun x => forall h, lays_out (val x) h (alloc1 x h)) l ->
  forall h,
    untouched (List.length h) h (fst (alloc_each alloc1 l h))
    /\ Forall2 (fun r x =>
                  read_json (List.length (fst (alloc_each alloc1 l h))
                             - List.length h)
                            (fst (alloc_each alloc1 l h)) r
                  = Some (val x))
               (snd (alloc_each alloc1 l h)) l.
Proof.
  induction 1 as [| x l Hx _ IH]; intro h.
  - cbn [alloc_each fst snd]. split; [apply untouched_refl | constructor].
  - cbn [alloc_each]. destruct (Hx h) as [Hu1 Hr1].
    destruct (alloc1 x h) as [h1 ref]. cbn [fst snd] in Hu1, Hr1.
    destruct (IH h1) as (Hu2 & Hr2).
    destruct (alloc_each alloc1 l h1) as [h2 refs]. cbn [fst snd] in *.
    pose proof (proj1 Hu1) as L1. pose proof (proj1 Hu2) as L2.
    split.
    + split; [lia |]. intros r Hr. rewrite (proj2 Hu2), (proj2 Hu1) by lia.
      reflexivity.
    + constructor.
      * refine (read_json_stable _ _ _ _ _ _ _ Hu2 Hr1). lia.
      * refine (Forall2_impl _ _ Hr2). intros r y E.
        refine (read_json_stable _ _ _ _ _ _ _ (untouched_refl _ _) E). lia.
Qed.

Lemma alloc_json_lays_out j : forall h, lays_out j h (alloc_json j h).
Proof.
  induction j as [| b | z | f | s | items IH | members IH] using json_nested_ind;
    intro h; unfold lays_out; cbn [alloc_json];
    try (cbn [fst snd]; split; [apply untouched_new, Nat.le_refl |];
         rewrite length_app; cbn [List.length];
         replace (List.length h + 1 - List.length h)%nat with 1%nat by lia;
         cbn [read_json]; rewrite nth_error_last; reflexivity).
  - destruct (alloc_each_lays_out (fun x => x) alloc_json items IH h) as [Hu Hr].
    destruct (alloc_each alloc_json items h) as [h1 refs]. cbn [fst snd] in *.
    pose proof (proj1 Hu) as L.
    split.
    + apply (untouched_trans _ _ h1 _ Hu). apply untouched_new. exact L.
    + rewrite length_app. cbn [List.length].
      replace (List.length h1 + 1 - List.length h)%nat
        with (S (List.length h1 - List.length h)) by lia.
      cbn [read_json]. rewrite nth_error_last.
      rewrite (all_some_read _ (fun x => x) refs items), map_id; [reflexivity |].
      refine (Forall2_impl _ _ Hr). intros r x E.
      refine (read_json_stable _ _ _ _ _ _ (Nat.le_refl _) _ E).
      apply untouched_new, Nat.le_refl.
  - destruct (alloc_each_lays_out snd (fun m => alloc_json (snd m)) members IH h)
      as [Hu Hr].
    destruct (alloc_each _ members h) as [h1 refs]. cbn [fst snd] in *.
    pose proof (proj1 Hu) as L.
    split.
    + apply (untouched_trans _ _ h1 _ Hu). apply untouched_new. exact L.
    + rewrite length_app. cbn [List.length].
      replace (List.length h1 + 1 - List.length h)%nat
        with (S (List.length h1 - List.length h)) by lia.
      cbn [read_json]. rewrite nth_error_last.
      rewrite (all_some_read _ (fun m : string * json => m)
                 (combine (map fst members) refs) members), map_id;
        [reflexivity |].
      pose proof (untouched_new _ h1 (PDict (combine (map fst members) refs))
                    (Nat.le_refl _)) as Hn.
      set (h' := h1 ++ [PDict (combine (map fst members) refs)]) in *.
      clearbody h'. clear - Hr Hn. revert refs Hr.
      induction members as [| [k x] members IHm]; intros refs Hr;
        inversion Hr as [| r x' refs' l' E Hr' E1 E2]; subst; cbn [map combine fst];
        constructor.
      * cbn [fst snd] in *.
        rewrite (read_json_stable _ _ _ _ _ _ (Nat.le_refl _) Hn E).
        reflexivity.
      * apply IHm. exact Hr'.
Qed.

(** Every mapping has a place in every store: laid out the way
    [json.loads] builds it, it reads back from its reference as itself. *)
Lemma read_mapping_alloc_json raw h :
  read_mapping (fst (alloc_json (JObj raw) h)) (snd (alloc_json (JObj raw) h))
  = Some raw.
Proof.
  destruct (alloc_json_lays_out (JObj raw) h) as [Hu Hr].
  unfold read_mapping, read_value.
  rewrite (read_json_stable _ _ _ _ _ _ (Nat.le_sub_l _ _) (untouched_refl _ _) Hr).
  reflexivity.
Qed.

(** C9. [transform_raw_data] leaves its argument as it found it.  With
    the mapping, its lists, its records and every other value as objects of
    a store, and the statements of the function writing in place to the
    objects their names are bound to: after every run, returning or
    raising, each object the store held before the call is what it was, so
    the mapping read from the argument's reference has the keys and the
    nested values it had; the table that is returned is an object made
    during the call, and it holds the table of [transform_raw_data].  The
    columns are added, dropped and renamed on objects that did not exist
    before the call. *)
Theorem transform_raw_data_at_leaves_input :
  forall s raw_data,
    (forall ref,
       (ref < List.length (objects s))%nat ->
       nth_error (objects (fst (transform_raw_data_at raw_data s))) ref
       = nth_error (objects s) ref)
    /\ (forall table,
          snd (transform_raw_data_at raw_data s) = Return table ->
          (List.length (objects s) <= table)%nat)
    /\ (forall raw,
          read_mapping (objects s) raw_data = Some raw ->
          read_mapping (objects (fst (transform_raw_data_at raw_data s))) raw_data
          = Some raw
          /\ table_at (fst (transform_raw_data_at raw_data s))
                      (snd (transform_raw_data_at raw_data s))
                      (transform_raw_data raw)).
Proof.
  intros s raw_data.
  destruct (spares_transform_raw_data_at (List.length (objects s)) raw_data s
              (Nat.le_refl _)) as [Hu Hnew].
  split; [exact (proj2 Hu) |]. split; [exact Hnew |].
  intros raw Hread. split.
  - exact (read_mapping_stable _ _ _ _ Hu Hread).
  - exact (proj2 (transform_raw_data_at_run _ _ _ Hread)).
Qed.

Lemma transform_raw_data_at_leaves_input_witness :
  (ref_two_years < List.length (objects store_two_years))%nat
  /\ read_mapping (objects store_two_years) ref_two_years = Some raw_two_years
  /\ nth_error (objects (fst (transform_raw_data_at ref_two_years store_two_years)))
               ref_two_years
     = nth_error (objects store_two_years) ref_two_years
  /\ read_mapping (objects (fst (transform_raw_data_at ref_two_years store_two_years)))
                  ref_two_years
     = Some raw_two_years
  /\ table_at (fst (transform_raw_data_at ref_two_years store_two_years))
              (snd (transform_raw_data_at ref_two_years store_two_years))
              (transform_raw_data raw_two_years).
Proof.
  assert (Hlt : (ref_two_years < List.length (objects store_two_years))%nat)
    by (apply Nat.ltb_lt; vm_compute; reflexivity).
  assert (Hread : read_mapping (objects store_two_years) ref_two_years
                  = Some raw_two_years)
    by (vm_compute; reflexivity).
  destruct (transform_raw_data_at_leaves_input store_two_years ref_two_years)
    as (Hkept & _ & Hrun).
  split; [exact Hlt |]. split; [exact Hread |].
  split; [exact (Hkept _ Hlt) | exact (Hrun _ Hread)].
Defined.

(** The claim of C3 fails on a mapping of leaf observations none of which
    carries the flag fields ([drop] raises), and on the empty mapping
    ([pd.concat] raises): no table is produced. *)
Lemma transform_raw_data_rows_counterexample :
  typed_years raw_unflagged
  = Some [("2011", [[("geocod", "PT"); ("geodsg", "Portugal"); ("dim_3", "T");
                     ("dim_3_t", "Total"); ("valor", "30.9")]])]
  /\ transform_raw_data raw_unflagged
     = Raise (LabelsNotFound ["sinal_conv"; "sinal_conv_desc"])
  /\ typed_years [] = Some []
  /\ transform_raw_data [] = Raise NoObjectsToConcatenate.
Proof. repeat split. Qed.

(** C3, amended. For every non-empty raw mapping (a [dict]: its keys are
    distinct) whose year keys each map to a list of leaf observations, and
    in which each of the two flag fields
    occurs in some observation, [transform_raw_data] returns a table with
    one row per observation over all years; the ['Year'] column holds, row by
    row, the year key the observation came under; and the rows follow the
    order of the year keys and, within a year, of the records: the column of
    every other field holds the observations' values in that order. *)
Theorem transform_raw_data_rows :
  forall raw years,
    distinct (keys raw) = true ->
    typed_years raw = Some years ->
    raw <> [] ->
    occurs "sinal_conv" years = true ->
    occurs "sinal_conv_desc" years = true ->
    exists df,
      transform_raw_data raw = Return df
      /\ index_len df = List.length (observations years)
      /\ List.length (observations years)
         = list_sum (map (fun yr => List.length (snd yr)) years)
      /\ (forall label cells, In (label, cells) (columns df) ->
            List.length cells = index_len df)
      /\ dict_get "Year" (columns df)
         = Some (map (fun o => CStr (fst o)) (observations years))
      /\ (forall k, occurs k years = true ->
            ~ In k flag_columns -> ~ In k derived_columns ->
            In (relabel renamed_columns k,
                map (fun o => record_cell k (snd o)) (observations years))
               (columns df)).
Proof.
  intros raw years Hd Hty Hne H1 H2.
  apply distinct_NoDup in Hd.
  exists (expected_table years).
  split; [apply transform_raw_data_expected; assumption |].
  split; [reflexivity |].
  split; [apply observations_length |].
  split; [| split].
  - intros label cells Hin. unfold expected_table, table in Hin.
    cbn [columns] in Hin. apply in_map_iff in Hin.
    destruct Hin as (l & E & _). injection E as _ <-.
    rewrite length_map. reflexivity.
  - rewrite expected_table_derived;
      [reflexivity | left; reflexivity | apply (typed_years_nonempty raw); assumption].
  - intros k Hk Hflag Hder. unfold expected_table, table. cbn [columns].
    apply in_map_iff. exists k. split.
    + f_equal. apply map_ext. intro o.
      unfold table_cell, override, year_cell. simpl in Hder.
      repeat match goal with
             | |- context [String.eqb k ?s] =>
                 destruct (String.eqb_spec k s) as [E | _];
                 [exfalso; apply Hder; rewrite E; tauto |]
             end.
      reflexivity.
    + apply table_labels_In. split; [exact Hflag | right; exact Hk].
Qed.

Lemma transform_raw_data_rows_witness :
  exists df,
    transform_raw_data raw_two_years = Return df
    /\ index_len df = 3%nat
    /\ dict_get "Year" (columns df) = Some [CStr "2011"; CStr "2011"; CStr "2012"].
Proof.
  destruct (transform_raw_data_rows raw_two_years years_two_years
              eq_refl eq_refl ltac:(discriminate) eq_refl eq_refl)
    as (df & Hret & Hlen & _ & _ & Hyear & _).
  exists df. split; [exact Hret | split; [exact Hlen | exact Hyear]].
Defined.

(** The claim of C6 fails for ['Year']: over two years the column holds
    two values; and, as for C3, without the flag fields no table is
    produced at all. *)
Lemma transform_raw_data_columns_counterexample :
  (exists df,
     transform_raw_data raw_two_years = Return df
     /\ dict_get "Year" (columns df) = Some [CStr "2011"; CStr "2011"; CStr "2012"])
  /\ transform_raw_data raw_unflagged
     = Raise (LabelsNotFound ["sinal_conv"; "sinal_conv_desc"]).
Proof.
  split; [| reflexivity].
  eexists. split; [vm_compute; reflexivity | reflexivity].
Qed.

(** C6, amended. For every non-empty raw mapping of leaf observations in
    which each of the two flag fields occurs in some observation, the table
    [transform_raw_data] returns has neither flag column and has the four
    columns ['Year'], ['Indicator Code'], ['Formule'], ['Measure Of Unit'];
    the last three hold one value on every row (the indicator code, the
    formula text, the unit label), and ['Year'] holds on every row the year
    key of that row's observation. *)
Theorem transform_raw_data_columns :
  forall raw years,
    distinct (keys raw) = true ->
    typed_years raw = Some years ->
    raw <> [] ->
    occurs "sinal_conv" years = true ->
    occurs "sinal_conv_desc" years = true ->
    exists df,
      transform_raw_data raw = Return df
      /\ (forall flag, In flag flag_columns -> ~ In flag (labels df))
      /\ (forall l, In l derived_columns -> In l (labels df))
      /\ dict_get "Indicator Code" (columns df)
         = Some (repeat (CStr indicator) (index_len df))
      /\ dict_get "Formule" (columns df)
         = Some (repeat (CStr "(Number of crimes/ Resident population)*1000")
                        (index_len df))
      /\ dict_get "Measure Of Unit" (columns df)
         = Some (repeat (CStr "Permillage") (index_len df))
      /\ dict_get "Year" (columns df)
         = Some (map (fun o => CStr (fst o)) (observations years)).
Proof.
  intros raw years Hd Hty Hne H1 H2.
  apply distinct_NoDup in Hd.
  assert (Hyears : years <> []) by (apply (typed_years_nonempty raw); assumption).
  exists (expected_table years).
  split; [apply transform_raw_data_expected; assumption |].
  split; [| split].
  - intros flag Hflag Hin. unfold expected_table in Hin.
    rewrite labels_table in Hin. apply in_map_iff in Hin.
    destruct Hin as (l & E & Hl).
    assert (l = flag).
    { apply relabel_renamed; [exact E |].
      simpl in Hflag. destruct Hflag as [<- | [<- | []]]; simpl; intuition discriminate. }
    subst l. apply table_labels_In in Hl. tauto.
  - intros l Hl. unfold expected_table. rewrite labels_table.
    apply in_map_iff. exists l. split.
    + simpl in Hl. destruct Hl as [<- | [<- | [<- | [<- | []]]]]; reflexivity.
    + apply table_labels_In. split.
      * simpl in Hl. destruct Hl as [<- | [<- | [<- | [<- | []]]]];
          simpl; intuition discriminate.
      * left. split; [exact Hl | intros _; exact Hyears].
  - rewrite !expected_table_derived by (simpl; tauto).
    cbn [expected_table table index_len]. rewrite !repeat_const.
    repeat split.
Qed.

Lemma transform_raw_data_columns_witness :
  exists df,
    transform_raw_data raw_two_years = Return df
    /\ ~ In "sinal_conv" (labels df)
    /\ In "Year" (labels df)
    /\ dict_get "Measure Of Unit" (columns df)
       = Some (repeat (CStr "Permillage") (index_len df)).
Proof.
  destruct (transform_raw_data_columns raw_two_years years_two_years
              eq_refl eq_refl ltac:(discriminate) eq_refl eq_refl)
    as (df & Hret & Hflags & Hder & _ & _ & Hunit & _).
  exists df. split; [exact Hret |].
  split; [apply Hflags; left; reflexivity |].
  split; [apply Hder; left; reflexivity | exact Hunit].
Defined.

(** ** Stages 3 and 4b, and [main] *)

Section MainFacts.
Variable requests_get : string -> HttpResult.
Variable upload_failure : string -> option exn.
Variable today : Z.

(** Once stages 1 and 2 have returned, [main] goes on with the raw sink. *)
Lemma main_after_fetch past_due utc_timestamp st parameters raw :
  snd (get_parameters_range requests_get reqUrl) = Return parameters ->
  snd (get_raw_data requests_get reqUrl parameters) = Return raw ->
  main requests_get upload_failure today past_due utc_timestamp st
  = (_ <~ load_raw_data upload_failure today raw ;;
     clean <~ transform_stage raw ;;
     _ <~ load_clean_data upload_failure today clean ;;
     _ <~ (if past_due then info "The timer is past due!"
           else fun st => (st, Return tt)) ;;
     info ("Python timer trigger function ran at " +++ utc_timestamp))
      {| job_log := ((job_log st ++ [Info "Starting execution..."])
                       ++ fst (get_parameters_range requests_get reqUrl))
                      ++ fst (get_raw_data requests_get reqUrl parameters);
         container_client := container_client st |}.
Proof.
  intros H1 H2. unfold main, job_bind at 1 2 3, info at 1, stage.
  cbn [job_log container_client]. rewrite H1. cbn [job_log container_client].
  rewrite H2. reflexivity.
Qed.

Lemma main_raw_sink_failure past_due utc_timestamp st parameters raw e :
  snd (get_parameters_range requests_get reqUrl) = Return parameters ->
  snd (get_raw_data requests_get reqUrl parameters) = Return raw ->
  upload_failure (extract_file today) = Some e ->
  main requests_get upload_failure today past_due utc_timestamp st
  = ({| job_log := ((job_log st ++ [Info "Starting execution..."])
                      ++ fst (get_parameters_range requests_get reqUrl))
                     ++ fst (get_raw_data requests_get reqUrl parameters);
        container_client := container_client st |},
     Raise e).
Proof.
  intros H1 H2 Hup. rewrite (main_after_fetch _ _ _ _ _ H1 H2).
  unfold job_bind at 1, load_raw_data, job_bind at 1, upload_blob.
  fold (extract_file today). rewrite Hup. reflexivity.
Qed.

Lemma main_success past_due utc_timestamp st parameters raw clean :
  snd (get_parameters_range requests_get reqUrl) = Return parameters ->
  snd (get_raw_data requests_get reqUrl parameters) = Return raw ->
  upload_failure (extract_file today) = None ->
  transform_raw_data raw = Return clean ->
  upload_failure (data_file today) = None ->
  snd (main requests_get upload_failure today past_due utc_timestamp st) = Return tt
  /\ container_client
       (fst (main requests_get upload_failure today past_due utc_timestamp st))
     = dict_set (data_file today) (CsvBlob (to_csv clean))
         (dict_set (extract_file today) (JsonBlob raw) (container_client st)).
Proof.
  intros H1 H2 Hup1 Htr Hup2. rewrite (main_after_fetch _ _ _ _ _ H1 H2).
  unfold job_bind, load_raw_data, load_clean_data, job_bind, upload_blob,
    transform_stage, stage, info.
  fold (extract_file today). fold (data_file today). rewrite Hup1.
  cbn [fst snd job_log container_client]. rewrite Htr, Hup2.
  destruct past_due; split; reflexivity.
Qed.

Lemma main_transform_failure past_due utc_timestamp st parameters raw e :
  snd (get_parameters_range requests_get reqUrl) = Return parameters ->
  snd (get_raw_data requests_get reqUrl parameters) = Return raw ->
  upload_failure (extract_file today) = None ->
  transform_raw_data raw = Raise e ->
  snd (main requests_get upload_failure today past_due utc_timestamp st) = Raise e
  /\ container_client
       (fst (main requests_get upload_failure today past_due utc_timestamp st))
     = dict_set (extract_file today) (JsonBlob raw) (container_client st).
Proof.
  intros H1 H2 Hup1 Htr. rewrite (main_after_fetch _ _ _ _ _ H1 H2).
  unfold job_bind, load_raw_data, load_clean_data, job_bind, upload_blob,
    transform_stage, stage, info.
  fold (extract_file today). rewrite Hup1.
  cbn [fst snd job_log container_client]. rewrite Htr.
  split; reflexivity.
Qed.
End MainFacts.

(** The claim of C5 fails when the storage service refuses the raw
    extract: the exception leaves [main], nothing is stored, although the
    transformer returns a table on the fetched mapping and the service would
    have taken the CSV. *)
Lemma main_raw_sink_counterexample :
  snd run_refused = Raise (UploadError "service unavailable")
  /\ container_client (fst run_refused) = []
  /\ (exists raw clean,
        snd (get_raw_data api_flagged reqUrl ["S7A2011"; "S7A2012"]) = Return raw
        /\ transform_raw_data raw = Return clean)
  /\ refuse_extract (data_file 20240131) = None.
Proof.
  split; [reflexivity | split; [reflexivity | split; [| reflexivity]]].
  eexists. eexists. split; vm_compute; reflexivity.
Qed.

(** C5, amended. Stage 4 takes stage 2's output and nothing from stage 3,
    but it runs only once the raw sink has returned.  With [raw] the mapping
    stage 2 returned: if the raw upload raises, the exception leaves [main]
    with nothing stored and the transformer not run; if it is accepted, the
    transformer runs on [raw], and its table, when it returns one, is what
    the clean sink uploads. *)
Theorem main_stage4_after_raw_sink :
  forall requests_get upload_failure today past_due utc_timestamp st parameters raw,
    snd (get_parameters_range requests_get reqUrl) = Return parameters ->
    snd (get_raw_data requests_get reqUrl parameters) = Return raw ->
    (forall e,
       upload_failure (extract_file today) = Some e ->
       main requests_get upload_failure today past_due utc_timestamp st
       = ({| job_log := ((job_log st ++ [Info "Starting execution..."])
                           ++ fst (get_parameters_range requests_get reqUrl))
                          ++ fst (get_raw_data requests_get reqUrl parameters);
             container_client := container_client st |},
          Raise e))
    /\ (upload_failure (extract_file today) = None ->
        (forall clean,
           transform_raw_data raw = Return clean ->
           upload_failure (data_file today) = None ->
           snd (main requests_get upload_failure today past_due utc_timestamp st)
           = Return tt
           /\ container_client
                (fst (main requests_get upload_failure today past_due utc_timestamp st))
              = dict_set (data_file today) (CsvBlob (to_csv clean))
                  (dict_set (extract_file today) (JsonBlob raw) (container_client st)))
        /\ (forall e,
              transform_raw_data raw = Raise e ->
              snd (main requests_get upload_failure today past_due utc_timestamp st)
              = Raise e
              /\ container_client
                   (fst (main requests_get upload_failure today past_due utc_timestamp st))
                 = dict_set (extract_file today) (JsonBlob raw) (container_client st))).
Proof.
  intros requests_get upload_failure today past_due utc_timestamp st parameters raw H1 H2.
  split; [| intro Hup; split].
  - intros e Hup. apply (main_raw_sink_failure _ _ _ _ _ _ parameters raw); assumption.
  - intros clean Htr Hup2. apply (main_success _ _ _ _ _ _ parameters); assumption.
  - intros e Htr. apply (main_transform_failure _ _ _ _ _ _ parameters); assumption.
Qed.

Lemma main_stage4_after_raw_sink_witness :
  snd (main api_flagged refuse_extract 20240131 true "2024-01-31T00:00:00+00:00" empty_job)
  = Raise (UploadError "service unavailable").
Proof.
  destruct (main_stage4_after_raw_sink api_flagged refuse_extract 20240131 true "2024-01-31T00:00:00+00:00" empty_job
              ["S7A2011"; "S7A2012"]
              [("2011", JArr [obs_flagged "PT" "Portugal" "T" "Total" "30.9" "" ""]);
               ("2012", JArr [obs_flagged "PT" "Portugal" "T" "Total" "29.5" "" ""])]
              eq_refl eq_refl) as [Hfail _].
  rewrite (Hfail (UploadError "service unavailable") eq_refl). reflexivity.
Defined.

(** The two stages of the end-to-end run. *)
Lemma two_years_parameters requests_get r1 :
  requests_get (reqUrl +++ "S7A2011") = Responded r1 ->
  status_code r1 = 200 ->
  last_year_field r1 = Return 2012 ->
  snd (get_parameters_range requests_get reqUrl) = Return ["S7A2011"; "S7A2012"].
Proof.
  intros Hget Hst Hlast. unfold get_parameters_range, range_try.
  rewrite Hget, Hst, Hlast. reflexivity.
Qed.

Lemma two_years_raw requests_get r1 r2 (o1 o2 : json) :
  requests_get (reqUrl +++ "S7A2011") = Responded r1 ->
  status_code r1 = 200 ->
  dados r1 = Return (JObj [("2011", JArr [o1])]) ->
  requests_get (reqUrl +++ "S7A2012") = Responded r2 ->
  status_code r2 = 200 ->
  dados r2 = Return (JObj [("2012", JArr [o2])]) ->
  snd (get_raw_data requests_get reqUrl ["S7A2011"; "S7A2012"])
  = Return [("2011", JArr [o1]); ("2012", JArr [o2])].
Proof.
  intros Hget1 Hst1 Hd1 Hget2 Hst2 Hd2.
  rewrite get_raw_data_completes.
  - cbn [flat_map]. unfold supplied. rewrite Hget1, Hst1, Hd1, Hget2, Hst2, Hd2.
    reflexivity.
  - cbn [completes]. rewrite Hget1, Hst1, Hd1, Hget2, Hst2, Hd2. reflexivity.
Qed.

Lemma two_years_table (b1 b2 : bool) (g1 n1 c1 t1 v1 s1 d1 g2 n2 c2 t2 v2 s2 d2 : string) :
  b1 || b2 = true ->
  exists clean,
    transform_raw_data [("2011", JArr [obs_of b1 g1 n1 c1 t1 v1 s1 d1]);
                        ("2012", JArr [obs_of b2 g2 n2 c2 t2 v2 s2 d2])]
    = Return clean
    /\ to_csv clean
       = {| csv_header := ["Geo Code"; "Geo"; "Crime Code"; "Crime"; "Value"; "Year";
                           "Indicator Code"; "Formule"; "Measure Of Unit"];
            csv_rows :=
              [[g1; n1; c1; t1; v1; "2011"; "0008074";
                "(Number of crimes/ Resident population)*1000"; "Permillage"];
               [g2; n2; c2; t2; v2; "2012"; "0008074";
                "(Number of crimes/ Resident population)*1000"; "Permillage"]] |}.
Proof.
  intro Hb. destruct b1, b2; try discriminate;
    (eexists; split; [vm_compute; reflexivity | reflexivity]).
Qed.

(** The claim of C8 fails when the two observations carry only the five
    data fields: [drop] raises, [main] ends with that exception, and no CSV
    is stored. *)
Lemma main_two_years_counterexample :
  snd (get_parameters_range api_plain reqUrl) = Return ["S7A2011"; "S7A2012"]
  /\ snd run_plain = Raise (LabelsNotFound ["sinal_conv"; "sinal_conv_desc"])
  /\ dict_get (data_file 20240131) (container_client (fst run_plain)) = None.
Proof. repeat split. Qed.

(** C8, amended. In the end-to-end run where the range answer reports
    2012 and each of the two year fetches answers with one observation that
    has the fields geocod, geodsg, dim_3, dim_3_t, valor in that order, at
    least one of the two also carrying the flag fields sinal_conv and
    sinal_conv_desc, and both uploads are accepted, [main] returns and the
    CSV it stores has the header Geo Code, Geo, Crime Code, Crime, Value,
    Year, Indicator Code, Formule, Measure Of Unit in that order and exactly
    two data rows, the first of 2011 and the second of 2012. *)
Theorem main_two_years_csv :
  forall requests_get upload_failure today past_due utc_timestamp st r1 r2
         (b1 b2 : bool) (g1 n1 c1 t1 v1 s1 d1 g2 n2 c2 t2 v2 s2 d2 : string),
    requests_get (reqUrl +++ "S7A2011") = Responded r1 ->
    status_code r1 = 200 ->
    last_year_field r1 = Return 2012 ->
    dados r1 = Return (JObj [("2011", JArr [obs_of b1 g1 n1 c1 t1 v1 s1 d1])]) ->
    requests_get (reqUrl +++ "S7A2012") = Responded r2 ->
    status_code r2 = 200 ->
    dados r2 = Return (JObj [("2012", JArr [obs_of b2 g2 n2 c2 t2 v2 s2 d2])]) ->
    b1 || b2 = true ->
    upload_failure (extract_file today) = None ->
    upload_failure (data_file today) = None ->
    exists doc,
      snd (main requests_get upload_failure today past_due utc_timestamp st) = Return tt
      /\ dict_get (data_file today)
           (container_client
              (fst (main requests_get upload_failure today past_due utc_timestamp st)))
         = Some (CsvBlob doc)
      /\ csv_header doc
         = ["Geo Code"; "Geo"; "Crime Code"; "Crime"; "Value"; "Year";
            "Indicator Code"; "Formule"; "Measure Of Unit"]
      /\ List.length (csv_rows doc) = 2%nat
      /\ csv_rows doc
         = [[g1; n1; c1; t1; v1; "2011"; "0008074";
             "(Number of crimes/ Resident population)*1000"; "Permillage"];
            [g2; n2; c2; t2; v2; "2012"; "0008074";
             "(Number of crimes/ Resident population)*1000"; "Permillage"]].
Proof.
  intros requests_get upload_failure today past_due utc_timestamp st r1 r2
         b1 b2 g1 n1 c1 t1 v1 s1 d1 g2 n2 c2 t2 v2 s2 d2
         Hget1 Hst1 Hlast Hd1 Hget2 Hst2 Hd2 Hb Hup1 Hup2.
  destruct (two_years_table b1 b2 g1 n1 c1 t1 v1 s1 d1 g2 n2 c2 t2 v2 s2 d2 Hb)
    as (clean & Htr & Hcsv).
  destruct (main_success requests_get upload_failure today past_due utc_timestamp st
              ["S7A2011"; "S7A2012"] _ clean
              (two_years_parameters requests_get r1 Hget1 Hst1 Hlast)
              (two_years_raw requests_get r1 r2 _ _ Hget1 Hst1 Hd1 Hget2 Hst2 Hd2)
              Hup1 Htr Hup2) as [Hret Hcont].
  exists (to_csv clean). split; [exact Hret |].
  split; [rewrite Hcont, dict_get_set, String.eqb_refl; reflexivity |].
  rewrite Hcsv. repeat split.
Qed.

Lemma main_two_years_csv_witness :
  exists doc,
    snd (main api_mixed (fun _ => None) 20240131 false "2024-01-31T00:00:00+00:00" empty_job)
    = Return tt
    /\ dict_get (data_file 20240131)
         (container_client
            (fst (main api_mixed (fun _ => None) 20240131 false
                       "2024-01-31T00:00:00+00:00" empty_job)))
       = Some (CsvBlob doc)
    /\ List.length (csv_rows doc) = 2%nat.
Proof.
  destruct (main_two_years_csv api_mixed (fun _ => None) 20240131 false "2024-01-31T00:00:00+00:00" empty_job
              {| status_code := 200;
                 body := Some (JArr [JObj [("UltimoPref", JStr "2012");
                   ("Dados", JObj [("2011", JArr [obs_plain "PT" "Portugal" "T" "Total" "30.9"])])]]) |}
              {| status_code := 200;
                 body := Some (JArr [JObj [("UltimoPref", JStr "2012");
                   ("Dados", JObj [("2012", JArr [obs_flagged "PT" "Portugal" "T" "Total" "" "x" "Not available"])])]]) |}
              false true "PT" "Portugal" "T" "Total" "30.9" "" ""
              "PT" "Portugal" "T" "Total" "" "x" "Not available"
              eq_refl eq_refl eq_refl eq_refl eq_refl eq_refl eq_refl eq_refl eq_refl eq_refl)
    as (doc & Hret & Hblob & _ & Hlen & _).
  exists doc. split; [exact Hret | split; [exact Hblob | exact Hlen]].
Defined.

(* ================================================================== *)
(** * Further properties of the stages *)

(** ** Stage 1: every way out of [get_parameters_range] *)

Lemma py_range_empty (lo hi : Z) : hi <= lo -> py_range lo hi = [].
Proof.
  intro H. unfold py_range. replace (Z.to_nat (hi - lo)) with 0%nat by lia.
  reflexivity.
Qed.

(** Reading the last-year field raises or returns; what it raises is never
    an [HTTPError]. *)
Lemma last_year_field_outcome (response : Response) :
  (exists Y, last_year_field response = Return Y)
  \/ (exists e, last_year_field response = Raise e /\ is_HTTPError e = false).
Proof.
  unfold last_year_field, response_json.
  destruct (body response) as [j |]; cbn [bind]; [| right; eexists; split; reflexivity].
  destruct (getitem_index j 0) as [j0 | e |] eqn:E0; cbn [bind].
  - destruct (getitem_key j0 "UltimoPref") as [u | e |] eqn:E1; cbn [bind].
    + destruct u as [| b | z | [m ex | neg |] | s | items | members]; cbn [py_int];
        try (left; eexists; reflexivity);
        try (right; eexists; split; reflexivity).
      destruct (int_of_str s);
        [left; eexists; reflexivity | right; eexists; split; reflexivity].
    + right. exists e. split; [reflexivity |].
      destruct j0; simpl in E1; try (injection E1 as <-; reflexivity); try discriminate.
      destruct (dict_get "UltimoPref" members); [discriminate |].
      injection E1 as <-. reflexivity.
    + destruct j0; simpl in E1; try discriminate.
      destruct (dict_get "UltimoPref" members); discriminate.
  - right. exists e. split; [reflexivity |].
    destruct j; simpl in E0; try (injection E0 as <-; reflexivity); try discriminate.
    + destruct s; simpl in E0; [injection E0 as <-; reflexivity | discriminate].
    + destruct items; simpl in E0; [injection E0 as <-; reflexivity | discriminate].
  - destruct j; simpl in E0; try discriminate.
    + destruct s; discriminate.
    + destruct items; discriminate.
Qed.

(** X1. A response with another status than 200 is not treated as a
    failure: no handler runs, the [else] clause logs that the parameters
    were extracted with success, and the [return] then raises
    [UnboundLocalError]. *)
Theorem get_parameters_range_other_status :
  forall requests_get url response,
    requests_get (url +++ "S7A2011") = Responded response ->
    status_code response <> 200 ->
    get_parameters_range requests_get url
    = ([Info "Parameters extracted with success!"],
       Raise (UnboundLocalError "parameters_list")).
Proof.
  intros requests_get url response Hget Hst.
  unfold get_parameters_range, range_try. rewrite Hget.
  destruct (Z.eqb_spec (status_code response) 200) as [E | _];
    [contradiction | reflexivity].
Qed.

Lemma get_parameters_range_other_status_witness :
  get_parameters_range (fun _ => Responded {| status_code := 404; body := None |}) reqUrl
  = ([Info "Parameters extracted with success!"],
     Raise (UnboundLocalError "parameters_list")).
Proof.
  apply (get_parameters_range_other_status _ reqUrl {| status_code := 404; body := None |}).
  - reflexivity.
  - discriminate.
Defined.

(** X2. A 200 response whose last-year field cannot be read (no JSON, an
    empty array, no ['UltimoPref'], a text that is no integer) is handled by
    [except Exception], never by [except HTTPError]: the log holds the
    access message and the exception under 'Other error occurred', and the
    [return] raises [UnboundLocalError]. *)
Theorem get_parameters_range_unreadable_field :
  forall requests_get url response e,
    requests_get (url +++ "S7A2011") = Responded response ->
    status_code response = 200 ->
    last_year_field response = Raise e ->
    get_parameters_range requests_get url
    = ([Info "Acessing the API to get the data range";
        InfoExn "Other error occurred: " e],
       Raise (UnboundLocalError "parameters_list")).
Proof.
  intros requests_get url response e Hget Hst Hlast.
  unfold get_parameters_range, range_try. rewrite Hget, Hst, Hlast. cbn [Z.eqb Pos.eqb].
  destruct (last_year_field_outcome response) as [[Y HY] | (e' & He' & Hnot)];
    [congruence |].
  assert (e' = e) by congruence. subst e'. rewrite Hnot. reflexivity.
Qed.

Lemma get_parameters_range_unreadable_field_witness :
  get_parameters_range
    (fun _ => ok_response [("UltimoPref", JStr "n/a")]) reqUrl
  = ([Info "Acessing the API to get the data range";
      InfoExn "Other error occurred: " ValueError],
     Raise (UnboundLocalError "parameters_list")).
Proof.
  apply (get_parameters_range_unreadable_field _ reqUrl
           {| status_code := 200;
              body := Some (JArr [JObj [("UltimoPref", JStr "n/a")]]) |} ValueError);
    reflexivity.
Defined.

(** X3. [get_parameters_range] has two ways out and no third.  When the
    request answers 200 with a readable last-year field [Y], it returns the
    tokens of [range(2011, Y + 1)]; it returns a list in no other case, and
    the list is always that one; and whenever it does not return it raises
    [UnboundLocalError] for [parameters_list]: no other exception leaves
    it. *)
Theorem get_parameters_range_outcomes :
  forall requests_get url,
    (forall response Y,
       requests_get (url +++ "S7A2011") = Responded response ->
       status_code response = 200 ->
       last_year_field response = Return Y ->
       snd (get_parameters_range requests_get url)
       = Return (map year_token (py_range 2011 (Y + 1))))
    /\ (forall parameters_list,
          snd (get_parameters_range requests_get url) = Return parameters_list ->
          exists response Y,
            requests_get (url +++ "S7A2011") = Responded response
            /\ status_code response = 200
            /\ last_year_field response = Return Y
            /\ parameters_list = map year_token (py_range 2011 (Y + 1)))
    /\ ((forall parameters_list,
           snd (get_parameters_range requests_get url) <> Return parameters_list) ->
        snd (get_parameters_range requests_get url)
        = Raise (UnboundLocalError "parameters_list")).
Proof.
  intros requests_get url. split; [| split].
  - intros response Y Hget Hst HY.
    unfold get_parameters_range, range_try. rewrite Hget, Hst, HY. reflexivity.
  - intros parameters_list. unfold get_parameters_range, range_try.
    destruct (requests_get (url +++ "S7A2011")) as [response | e] eqn:Hget;
      [| discriminate].
    destruct (Z.eqb_spec (status_code response) 200) as [Hst | Hst];
      [| discriminate].
    destruct (last_year_field response) as [Y | e |] eqn:HY; try discriminate.
    cbn [snd]. intros H. exists response, Y.
    repeat split; try assumption. congruence.
  - unfold get_parameters_range, range_try.
    destruct (requests_get (url +++ "S7A2011")) as [response | e] eqn:Hget;
      [| reflexivity].
    destruct (Z.eqb_spec (status_code response) 200) as [Hst | Hst];
      [| reflexivity].
    destruct (last_year_field_outcome response) as [[Y HY] | (e & He & _)].
    + rewrite HY. cbn [snd]. intros H. exfalso. exact (H _ eq_refl).
    + rewrite He. reflexivity.
Qed.

Lemma get_parameters_range_outcomes_witness :
  snd (get_parameters_range
         (fun _ => ok_response [("UltimoPref", JStr "2013")]) reqUrl)
  = Return (map year_token (py_range 2011 (2013 + 1))).
Proof.
  apply (proj1 (get_parameters_range_outcomes
                  (fun _ => ok_response [("UltimoPref", JStr "2013")]) reqUrl)
           {| status_code := 200;
              body := Some (JArr [JObj [("UltimoPref", JStr "2013")]]) |} 2013);
    reflexivity.
Defined.

(** X4. A last year before 2011 is no error for stage 1: the range is
    empty and the function returns the empty list of tokens. *)
Theorem get_parameters_range_before_first_year :
  forall requests_get url response Y,
    requests_get (url +++ "S7A2011") = Responded response ->
    status_code response = 200 ->
    last_year_field response = Return Y ->
    Y < 2011 ->
    snd (get_parameters_range requests_get url) = Return [].
Proof.
  intros requests_get url response Y Hget Hst Hlast HY.
  unfold get_parameters_range, range_try. rewrite Hget, Hst, Hlast.
  cbn [Z.eqb Pos.eqb snd]. rewrite py_range_empty by lia. reflexivity.
Qed.

Lemma get_parameters_range_before_first_year_witness :
  snd (get_parameters_range (fun _ => ok_response [("UltimoPref", JStr "2010")]) reqUrl)
  = Return [].
Proof.
  apply (get_parameters_range_before_first_year _ reqUrl
           {| status_code := 200;
              body := Some (JArr [JObj [("UltimoPref", JStr "2010")]]) |} 2010);
    [reflexivity | reflexivity | reflexivity | lia].
Defined.

(** ** Stages 1 and 2: the year a token carries *)

Lemma last4_year_token_checked :
  forallb (fun n => String.eqb (last4 (year_token (1000 + Z.of_nat n)))
                               (py_str (1000 + Z.of_nat n)))
          (seq 0 (Z.to_nat 9000)) = true.
Proof. vm_compute. reflexivity. Qed.

(** X5. For a year of four digits, the label [get_raw_data] cuts from a
    token with [item[-4:]] is the decimal text of the year
    [get_parameters_range] built the token from. *)
Theorem last4_year_token :
  forall y, 1000 <= y <= 9999 -> last4 (year_token y) = py_str y.
Proof.
  intros y Hy.
  pose proof last4_year_token_checked as H.
  rewrite forallb_forall in H.
  specialize (H (Z.to_nat (y - 1000))).
  replace (1000 + Z.of_nat (Z.to_nat (y - 1000))) with y in H by lia.
  apply String.eqb_eq, H. apply in_seq. lia.
Qed.

Lemma last4_year_token_witness : last4 (year_token 2011) = py_str 2011.
Proof. apply (last4_year_token 2011). lia. Defined.

(** ** Stage 2: every way out of [get_raw_data] *)

Section FetchOutcomes.
Variable requests_get : string -> HttpResult.
Variable url : string.

(** How one iteration ends, against what [completes] foretells. *)
Lemma fetch_step_outcome (s : FetchState) (item : string) (rest : list string) :
  match snd (fetch_step requests_get url s item) with
  | Return _ =>
      completes requests_get url (year_bound s) (item :: rest)
      = completes requests_get url
          (year_bound (fst (fetch_step requests_get url s item))) rest
  | Raise e =>
      e = UnboundLocalError "year"
      /\ completes requests_get url (year_bound s) (item :: rest) = false
  | Unmodelled =>
      completes requests_get url (year_bound s) (item :: rest) = false
  end.
Proof.
  unfold fetch_step. cbn [completes].
  destruct (requests_get (url +++ item)) as [response | e].
  - destruct (status_code response =? 200).
    + destruct (dados response) as [result | e |].
      * pose proof (update_from_outcome (data s) result) as Hsnd.
        unfold update_modelled. rewrite <- Hsnd.
        cbn [data]. destruct (update_from (data s) result) as [d r]. cbn [snd fst].
        destruct r as [[] | e |]; simpl; reflexivity.
      * simpl. reflexivity.
      * simpl. reflexivity.
    + unfold fetch_else, year_bound. destruct s as [d0 [y |] l0]; simpl.
      * reflexivity.
      * split; reflexivity.
  - simpl. reflexivity.
Qed.

Lemma fetch_loop_outcome (items : list string) (s : FetchState) :
  match snd (fetch_loop requests_get url items s) with
  | Return _ => completes requests_get url (year_bound s) items = true
  | Raise e =>
      e = UnboundLocalError "year"
      /\ completes requests_get url (year_bound s) items = false
  | Unmodelled => completes requests_get url (year_bound s) items = false
  end.
Proof.
  revert s. induction items as [| item rest IH]; intro s; [reflexivity |].
  pose proof (fetch_step_outcome s item rest) as Hstep.
  cbn [fetch_loop].
  destruct (fetch_step requests_get url s item) as [s' r]. cbn [fst snd] in Hstep.
  destruct r as [u | e |]; cbn [snd].
  - rewrite Hstep. apply IH.
  - exact Hstep.
  - exact Hstep.
Qed.
End FetchOutcomes.

(** X6. Whatever the API does, the only exception that leaves
    [get_raw_data] is the [UnboundLocalError] for [year]: what a request, a
    body or an update raises is logged and the loop goes on. *)
Theorem get_raw_data_raises_only_unbound_year :
  forall requests_get url parameters_list e,
    snd (get_raw_data requests_get url parameters_list) = Raise e ->
    e = UnboundLocalError "year".
Proof.
  intros requests_get url parameters_list e. unfold get_raw_data.
  pose proof (fetch_loop_outcome requests_get url parameters_list
                {| data := []; year := None; fetch_log := [] |}) as H.
  destruct (fetch_loop requests_get url parameters_list _) as [s r].
  cbn [snd] in *.
  destruct r as [u | e' |]; cbn [bind]; [discriminate | | discriminate].
  intro E. injection E as <-. apply H.
Qed.

Lemma get_raw_data_raises_only_unbound_year_witness :
  snd (get_raw_data (fun _ => Responded {| status_code := 500; body := None |})
                    reqUrl ["S7A2011"; "S7A2012"])
  = Raise (UnboundLocalError "year")
  /\ UnboundLocalError "year" = UnboundLocalError "year".
Proof.
  split; [reflexivity |].
  apply (get_raw_data_raises_only_unbound_year
           (fun _ => Responded {| status_code := 500; body := None |})
           reqUrl ["S7A2011"; "S7A2012"] (UnboundLocalError "year")).
  reflexivity.
Defined.

(** X7. [get_raw_data] returns a mapping exactly when its loop runs to its
    end: every response with another status than 200 comes after some 200
    response, and every update stays within the modelled dictionaries;
    requests that raise never stand in the way. *)
Theorem get_raw_data_returns_iff :
  forall requests_get url parameters_list,
    (exists d, snd (get_raw_data requests_get url parameters_list) = Return d)
    <-> completes requests_get url false parameters_list = true.
Proof.
  intros requests_get url parameters_list. split.
  - intros [d Hd]. unfold get_raw_data in Hd.
    pose proof (fetch_loop_outcome requests_get url parameters_list
                  {| data := []; year := None; fetch_log := [] |}) as H.
    destruct (fetch_loop requests_get url parameters_list _) as [s r].
    cbn [snd] in *.
    destruct r as [u | e' |]; cbn [bind] in Hd; [exact H | discriminate ..].
  - intro Hc. eexists. apply get_raw_data_completes. exact Hc.
Qed.

Lemma dict_set_fresh {V : Type} (k : string) (v : V) (d : list (string * V)) :
  ~ In k (keys d) -> dict_set k v d = d ++ [(k, v)].
Proof.
  induction d as [| [k0 v0] d IH]; simpl; intro H; [reflexivity |].
  destruct (String.eqb_spec k k0) as [-> | _]; [tauto |].
  rewrite IH by tauto. reflexivity.
Qed.

Lemma dict_update_fresh {V : Type} (d m : list (string * V)) :
  NoDup (keys (d ++ m)) -> dict_update d m = d ++ m.
Proof.
  revert d. induction m as [| [k v] m IH]; intros d Hnd.
  - simpl. rewrite app_nil_r. reflexivity.
  - change (dict_update (dict_set k v d) m = d ++ (k, v) :: m).
    assert (Hk : ~ In k (keys d)).
    { unfold keys in *. rewrite map_app in Hnd. simpl in Hnd.
      apply NoDup_remove_2 in Hnd. intro Hin. apply Hnd.
      apply in_or_app. left. exact Hin. }
    rewrite dict_set_fresh by exact Hk.
    rewrite IH; rewrite <- app_assoc; [reflexivity | exact Hnd].
Qed.

(** X8. When every request raises, [get_raw_data] returns the empty
    mapping, and its log holds one entry per parameter, in order, with the
    exception that request raised. *)
Theorem get_raw_data_every_request_raises :
  forall requests_get url parameters_list (raised : string -> exn),
    (forall item, In item parameters_list ->
       requests_get (url +++ item) = Failed (raised item)) ->
    get_raw_data requests_get url parameters_list
    = (map (fun item => exception_entry (raised item)) parameters_list, Return []).
Proof.
  intros requests_get url parameters_list raised H. unfold get_raw_data.
  assert (Hloop : forall s,
            fetch_loop requests_get url parameters_list s
            = ({| data := data s; year := year s;
                  fetch_log := fetch_log s ++
                    map (fun item => exception_entry (raised item)) parameters_list |},
               Return tt)).
  { induction parameters_list as [| item rest IH]; intro s.
    - destruct s. simpl. rewrite app_nil_r. reflexivity.
    - cbn [fetch_loop]. unfold fetch_step.
      rewrite (H item (or_introl eq_refl)). unfold fetch_except.
      rewrite IH by (intros it Hin; apply H; right; exact Hin).
      cbn [logged data year fetch_log map]. rewrite <- app_assoc. reflexivity. }
  rewrite Hloop. reflexivity.
Qed.

Lemma get_raw_data_every_request_raises_witness :
  get_raw_data (fun _ => Failed (RequestError "timed out")) reqUrl ["S7A2011"; "S7A2012"]
  = ([InfoExn "Other error occurred: " (RequestError "timed out");
      InfoExn "Other error occurred: " (RequestError "timed out")],
     Return []).
Proof.
  apply (get_raw_data_every_request_raises
           (fun _ => Failed (RequestError "timed out")) reqUrl
           ["S7A2011"; "S7A2012"] (fun _ => RequestError "timed out")).
  intros item _. reflexivity.
Defined.

(** X9. When no key is supplied twice over the whole run, the mapping
    [get_raw_data] returns holds the supplied pairs in the order in which
    the parameters were processed (and, within an answer, in the answer's
    order): the year order of the raw mapping is the order of the parameter
    list. *)
Theorem get_raw_data_insertion_order :
  forall requests_get url parameters_list,
    completes requests_get url false parameters_list = true ->
    distinct (keys (flat_map (supplied requests_get url) parameters_list)) = true ->
    snd (get_raw_data requests_get url parameters_list)
    = Return (flat_map (supplied requests_get url) parameters_list).
Proof.
  intros requests_get url parameters_list Hc Hnd.
  apply distinct_NoDup in Hnd.
  rewrite (get_raw_data_completes _ _ _ Hc).
  rewrite dict_update_fresh by exact Hnd. reflexivity.
Qed.

Lemma get_raw_data_insertion_order_witness :
  snd (get_raw_data api_flagged reqUrl ["S7A2012"; "S7A2011"])
  = Return [("2012", JArr [obs_flagged "PT" "Portugal" "T" "Total" "29.5" "" ""]);
            ("2011", JArr [obs_flagged "PT" "Portugal" "T" "Total" "30.9" "" ""])].
Proof.
  apply (get_raw_data_insertion_order api_flagged reqUrl ["S7A2012"; "S7A2011"]).
  - reflexivity.
  - reflexivity.
Defined.

(** ** Stage 4a: how [transform_raw_data] fails *)

(** X10. On a non-empty mapping of leaf observations in which a flag
    field occurs in no record, [transform_raw_data] raises the [KeyError] of
    [drop], and the error names exactly the flag columns that are absent, in
    the order ['sinal_conv'], ['sinal_conv_desc']. *)
Theorem transform_raw_data_missing_flags :
  forall raw years,
    distinct (keys raw) = true ->
    typed_years raw = Some years ->
    raw <> [] ->
    filter (fun l => negb (occurs l years)) flag_columns <> [] ->
    transform_raw_data raw
    = Raise (LabelsNotFound (filter (fun l => negb (occurs l years)) flag_columns)).
Proof.
  intros raw years Hd Hty Hne Hmiss.
  apply distinct_NoDup in Hd.
  rewrite (transform_raw_data_typed raw years Hd Hty Hne).
  assert (E : filter (fun l => negb (mem l (add_label "Measure Of Unit"
                       (add_label "Formule"
                          (add_label "Indicator Code" (concat_labels years))))))
                     flag_columns
              = filter (fun l => negb (occurs l years)) flag_columns).
  { apply filter_ext_in. intros l Hl. f_equal. apply mem_source_label.
    simpl in Hl. destruct Hl as [<- | [<- | []]]; reflexivity. }
  rewrite E.
  destruct (filter (fun l => negb (occurs l years)) flag_columns); [congruence | reflexivity].
Qed.

Lemma transform_raw_data_missing_flags_witness :
  transform_raw_data
    [("2011", JArr [JObj [("geocod", JStr "PT"); ("sinal_conv", JStr "x")]])]
  = Raise (LabelsNotFound ["sinal_conv_desc"]).
Proof.
  apply (transform_raw_data_missing_flags
           [("2011", JArr [JObj [("geocod", JStr "PT"); ("sinal_conv", JStr "x")]])]
           [("2011", [[("geocod", "PT"); ("sinal_conv", "x")]])]).
  - reflexivity.
  - reflexivity.
  - discriminate.
  - discriminate.
Defined.

Lemma transform_loop_app (items1 items2 : list (string * json)) (s s1 : Locals) :
  transform_loop items1 s = (s1, Return tt) ->
  transform_loop (items1 ++ items2) s = transform_loop items2 s1.
Proof.
  revert s. induction items1 as [| item rest IH]; intros s H.
  - simpl in H. injection H as <-. reflexivity.
  - cbn [transform_loop app raw_data] in H |- *.
    destruct (json_normalize (raw_data s) (fst item));
      [apply IH; exact H | discriminate H | discriminate H].
Qed.

Lemma transform_loop_stops_at (before after : list (string * json))
    (years : list (string * list (list (string * string))))
    (y : string) (v : json) (s : Locals) :
  (forall item, In item (before ++ (y, v) :: after) ->
     dict_get (fst item) (raw_data s) = Some (snd item)) ->
  typed_years before = Some years ->
  (forall recs, v <> JArr recs) ->
  v <> JNull ->
  v <> JFloat FNaN ->
  snd (transform_loop (before ++ (y, v) :: after) s) = Raise TypeError.
Proof.
  intros Hget Hty Hlist Hnull Hnan.
  pose proof (transform_loop_typed before years s Hty
                (fun item Hin => Hget item (in_or_app _ _ _ (or_introl Hin))))
    as Hloop.
  rewrite (transform_loop_app before ((y, v) :: after) _ _ Hloop).
  cbn [transform_loop fst raw_data]. unfold json_normalize, pull_records.
  pose proof (Hget (y, v) (in_or_app _ _ _ (or_intror (in_eq _ _)))) as Hy.
  cbn [fst snd] in Hy. rewrite Hy.
  destruct v as [| b | z | [m e | neg |] | str | recs | members];
    try reflexivity; congruence.
Qed.

(** X11. The transformer stops at the first year whose value is not a
    list: when the years before it hold leaf observations and its own value
    is neither a list nor null, [transform_raw_data] raises [TypeError],
    whatever the later years hold. *)
Theorem transform_raw_data_year_not_a_list :
  forall before years y v after,
    distinct (keys (before ++ (y, v) :: after)) = true ->
    typed_years before = Some years ->
    (forall recs, v <> JArr recs) ->
    v <> JNull ->
    v <> JFloat FNaN ->
    transform_raw_data (before ++ (y, v) :: after) = Raise TypeError.
Proof.
  intros before years y v after Hd Hty Hlist Hnull Hnan.
  apply distinct_NoDup in Hd.
  unfold transform_raw_data, transform_run.
  pose proof (transform_loop_stops_at before after years y v
                {| raw_data := before ++ (y, v) :: after;
                   clean_data := []; transform_log := [] |}) as H.
  destruct (transform_loop (before ++ (y, v) :: after) _) as [s r].
  cbn [snd] in *. rewrite H; try assumption; [reflexivity |].
  intros [k x] Hin. cbn [raw_data fst snd]. apply dict_get_NoDup; assumption.
Qed.

Lemma transform_raw_data_year_not_a_list_witness :
  transform_raw_data
    [("2011", JArr [obs_flagged "PT" "Portugal" "T" "Total" "30.9" "" ""]);
     ("2012", JObj [("PT", JArr [])]);
     ("2013", JArr [])]
  = Raise TypeError.
Proof.
  apply (transform_raw_data_year_not_a_list
           [("2011", JArr [obs_flagged "PT" "Portugal" "T" "Total" "30.9" "" ""])]
           [("2011", [[("geocod", "PT"); ("geodsg", "Portugal"); ("dim_3", "T");
                       ("dim_3_t", "Total"); ("valor", "30.9");
                       ("sinal_conv", ""); ("sinal_conv_desc", "")]])]
           "2012" (JObj [("PT", JArr [])]) [("2013", JArr [])]).
  - reflexivity.
  - reflexivity.
  - discriminate.
  - discriminate.
  - discriminate.
Defined.

(** ** Stage 4: the header and the rows of the CSV *)

Lemma filter_filter_and {A : Type} (f g : A -> bool) (l : list A) :
  filter f (filter g l) = filter (fun y => g y && f y) l.
Proof.
  induction l as [| x l IH]; simpl; [reflexivity |].
  destruct (g x); simpl; [destruct (f x) |]; rewrite IH; reflexivity.
Qed.

Lemma filter_all {A : Type} (f : A -> bool) (l : list A) :
  (forall x, In x l -> f x = true) -> filter f l = l.
Proof.
  induction l as [| x l IH]; simpl; intro H; [reflexivity |].
  rewrite (H x (or_introl eq_refl)), IH; [reflexivity |].
  intros y Hy. apply H. right. exact Hy.
Qed.

Lemma filter_none {A : Type} (f : A -> bool) (l : list A) :
  (forall x, In x l -> f x = false) -> filter f l = [].
Proof.
  induction l as [| x l IH]; simpl; intro H; [reflexivity |].
  rewrite (H x (or_introl eq_refl)). apply IH.
  intros y Hy. apply H. right. exact Hy.
Qed.

Lemma filter_unique (f : string -> bool) (l : list string) :
  filter f (unique l) = unique (filter f l).
Proof.
  induction l as [| x l IH]; simpl; [reflexivity |].
  destruct (f x) eqn:Efx; simpl.
  - f_equal. rewrite <- IH, !filter_filter_and. apply filter_ext.
    intro y. apply andb_comm.
  - rewrite <- IH, filter_filter_and. apply filter_ext. intro y.
    destruct (String.eqb_spec y x) as [-> | _]; simpl; [exact (eq_sym Efx) | reflexivity].
Qed.

Lemma unique_app (a b : list string) :
  unique (a ++ b) = unique a ++ filter (fun y => negb (mem y a)) (unique b).
Proof.
  induction a as [| x a IH]; simpl.
  - symmetry. apply filter_all. reflexivity.
  - f_equal. rewrite IH, filter_app, filter_filter_and. f_equal.
    apply filter_ext. intro y. unfold mem. simpl.
    destruct (String.eqb y x); simpl;
      [apply andb_false_r | apply andb_true_r].
Qed.

(** When everything in [b] is already in [a], appending [b] adds no
    label. *)
Lemma unique_absorb (a b : list string) :
  (forall x, In x b -> In x a) -> unique (a ++ b) = unique a.
Proof.
  intro H. rewrite unique_app, filter_none; [apply app_nil_r |].
  intros x Hx. apply negb_false_iff, mem_In, H, In_unique, Hx.
Qed.

Lemma add_label_fresh (l : string) (L : list string) :
  ~ In l L -> add_label l L = L ++ [l].
Proof.
  intro H. unfold add_label. apply mem_false in H. rewrite H. reflexivity.
Qed.

Lemma api_fields_only_occurs (k : string) years :
  api_fields_only years = true ->
  occurs k years = true ->
  In k data_fields \/ In k flag_columns.
Proof.
  unfold api_fields_only, occurs. rewrite forallb_forall, existsb_exists.
  intros Hall (o & Ho & Hk). specialize (Hall o Ho).
  rewrite forallb_forall in Hall. apply mem_In in Hk. specialize (Hall k Hk).
  apply orb_true_iff in Hall. destruct Hall as [H | H]; apply mem_In in H; tauto.
Qed.

Lemma api_fields_only_year_keys (k : string) years yr :
  api_fields_only years = true ->
  In yr years ->
  In k (flat_map keys (snd yr)) ->
  In k data_fields \/ In k flag_columns.
Proof.
  intros Hall Hyr Hk. apply (api_fields_only_occurs k years Hall).
  apply occurs_iff. apply in_flat_map in Hk. destruct Hk as (r & Hr & Hk).
  exists yr, r. repeat split; assumption.
Qed.

Lemma not_flag_data_field (x : string) :
  In x data_fields \/ In x flag_columns -> not_flag x = true -> In x data_fields.
Proof.
  intros [H | H] Hnf; [exact H |].
  unfold not_flag in Hnf. apply negb_true_iff, mem_false in Hnf. contradiction.
Qed.

(** The labels of the concatenated frame that are no flags, for a mapping
    whose first record has the data fields in the API's order. *)
Lemma concat_labels_api years :
  option_map (fun r => filter not_flag (keys r)) (first_record years)
  = Some data_fields ->
  api_fields_only years = true ->
  filter not_flag (concat_labels years) = data_fields ++ ["Year"].
Proof.
  intros Hfirst Hall.
  destruct years as [| [y0 [| r0 rs0]] ys]; try discriminate.
  cbn [first_record option_map] in Hfirst. injection Hfirst as Hfirst.
  set (years := (y0, r0 :: rs0) :: ys) in *.
  assert (Hkeys : forall yr k, In yr years -> In k (flat_map keys (snd yr)) ->
                    In k data_fields \/ In k flag_columns).
  { intros yr k Hyr Hk. apply (api_fields_only_year_keys k years yr); assumption. }
  assert (Hyear : forall yr, In yr years ->
                    ~ In "Year" (unique (flat_map keys (snd yr)))).
  { intros yr Hyr Hin. apply (proj1 (In_unique _ _)) in Hin.
    destruct (Hkeys yr "Year" Hyr Hin) as [H | H]; simpl in H;
      intuition discriminate. }
  assert (Hfront : filter not_flag (year_labels (y0, r0 :: rs0))
                   = data_fields ++ ["Year"]).
  { unfold year_labels.
    rewrite add_label_fresh by (apply (Hyear (y0, r0 :: rs0)); left; reflexivity).
    rewrite filter_app. cbn [snd flat_map]. rewrite filter_unique, filter_app, Hfirst.
    rewrite unique_absorb; [reflexivity |].
    intros x Hx. apply filter_In in Hx. destruct Hx as [Hx Hnf].
    apply not_flag_data_field; [| exact Hnf].
    apply (Hkeys (y0, r0 :: rs0) x); [left; reflexivity |].
    cbn [snd flat_map]. apply in_or_app. right. exact Hx. }
  unfold concat_labels. rewrite filter_unique. unfold years. cbn [flat_map].
  rewrite filter_app, Hfront.
  rewrite unique_absorb; [reflexivity |].
  intros x Hx. apply filter_In in Hx. destruct Hx as [Hx Hnf].
  apply in_flat_map in Hx. destruct Hx as (yr & Hyr & Hx).
  apply In_add_label in Hx. apply in_or_app.
  destruct Hx as [-> | Hx]; [right; left; reflexivity | left].
  apply not_flag_data_field; [| exact Hnf].
  apply (Hkeys yr x); [right; exact Hyr | apply In_unique; exact Hx].
Qed.

Lemma table_labels_api years :
  option_map (fun r => filter not_flag (keys r)) (first_record years)
  = Some data_fields ->
  api_fields_only years = true ->
  table_labels years = data_fields ++ derived_columns.
Proof.
  intros Hfirst Hall.
  assert (Hfresh : forall k, In k ["Indicator Code"; "Formule"; "Measure Of Unit"] ->
                     ~ In k (concat_labels years)).
  { intros k Hk Hin. apply In_concat_labels in Hin.
    destruct Hin as [[-> _] | Hocc].
    - simpl in Hk. intuition discriminate.
    - destruct (api_fields_only_occurs k years Hall Hocc) as [H | H];
        simpl in Hk, H; intuition congruence. }
  unfold table_labels.
  rewrite (add_label_fresh "Indicator Code") by (apply Hfresh; simpl; tauto).
  rewrite (add_label_fresh "Formule").
  2:{ intro Hin. apply in_app_or in Hin. destruct Hin as [Hin | Hin].
      - revert Hin. apply Hfresh. simpl. tauto.
      - simpl in Hin. intuition discriminate. }
  rewrite (add_label_fresh "Measure Of Unit").
  2:{ intro Hin. apply in_app_or in Hin. destruct Hin as [Hin | Hin].
      - apply in_app_or in Hin. destruct Hin as [Hin | Hin].
        + revert Hin. apply Hfresh. simpl. tauto.
        + simpl in Hin. intuition discriminate.
      - simpl in Hin. intuition discriminate. }
  rewrite !filter_app.
  change (fun l => negb (mem l flag_columns)) with not_flag.
  rewrite (concat_labels_api years Hfirst Hall). reflexivity.
Qed.

(** X12. For a mapping of any number of years and records whose records
    use only the five data fields and the two flag fields, whose first
    record has the data fields in the order geocod, geodsg, dim_3, dim_3_t,
    valor, and in which both flag fields occur, the CSV header is Geo Code,
    Geo, Crime Code, Crime, Value, Year, Indicator Code, Formule, Measure Of
    Unit: later records may lack fields or carry the flags anywhere without
    changing it. *)
Theorem transform_raw_data_csv_header :
  forall raw years,
    distinct (keys raw) = true ->
    typed_years raw = Some years ->
    option_map (fun r => filter not_flag (keys r)) (first_record years)
    = Some data_fields ->
    api_fields_only years = true ->
    occurs "sinal_conv" years = true ->
    occurs "sinal_conv_desc" years = true ->
    exists df,
      transform_raw_data raw = Return df
      /\ csv_header (to_csv df)
         = ["Geo Code"; "Geo"; "Crime Code"; "Crime"; "Value"; "Year";
            "Indicator Code"; "Formule"; "Measure Of Unit"].
Proof.
  intros raw years Hd Hty Hfirst Hall H1 H2.
  apply distinct_NoDup in Hd.
  assert (Hne : raw <> []).
  { intros ->. simpl in Hty. injection Hty as <-. discriminate. }
  exists (expected_table years).
  split; [apply transform_raw_data_expected; assumption |].
  unfold to_csv, expected_table. cbn [csv_header]. rewrite labels_table.
  rewrite (table_labels_api years Hfirst Hall). reflexivity.
Qed.

Lemma transform_raw_data_csv_header_witness :
  exists df,
    transform_raw_data raw_two_years = Return df
    /\ csv_header (to_csv df)
       = ["Geo Code"; "Geo"; "Crime Code"; "Crime"; "Value"; "Year";
          "Indicator Code"; "Formule"; "Measure Of Unit"].
Proof.
  apply (transform_raw_data_csv_header raw_two_years years_two_years); reflexivity.
Defined.

Lemma nth_map_nth_error {A : Type} (h : A -> Cell) (l : list A) (i : nat) :
  nth i (map h l) NaN = match nth_error l i with Some a => h a | None => NaN end.
Proof.
  revert i. induction l as [| a l IH]; intros [| i]; simpl; try reflexivity. apply IH.
Qed.

Lemma map_seq_nth_error {A B : Type} (K : option A -> B) (l : list A) :
  map (fun i => K (nth_error l i)) (seq 0 (List.length l))
  = map (fun a => K (Some a)) l.
Proof.
  induction l as [| a l IH]; [reflexivity |].
  cbn [List.length seq map nth_error]. f_equal.
  rewrite <- seq_shift, map_map. exact IH.
Qed.

(** The CSV of a frame given row by row is, row by row, the cells of each
    entry in the order of the columns. *)
Lemma to_csv_table {O : Type} (g : string -> string) (f : string -> O -> Cell)
    (L : list string) (obs : list O) :
  to_csv (table g f L obs)
  = {| csv_header := map g L;
       csv_rows := map (fun o => map (fun l => csv_field (f l o)) L) obs |}.
Proof.
  unfold to_csv. rewrite labels_table. f_equal.
  cbn [table index_len columns].
  rewrite <- (map_seq_nth_error
                (fun x => map (fun l => csv_field (match x with
                                                   | Some o => f l o
                                                   | None => NaN
                                                   end)) L) obs).
  apply map_ext. intro i. rewrite map_map. apply map_ext. intro l.
  cbn [snd]. rewrite nth_map_nth_error. reflexivity.
Qed.

(** X13. Under the conditions of X12 the CSV has one row per observation,
    in the order of the year keys and of the records within a year, and the
    row of an observation holds its geocod, geodsg, dim_3, dim_3_t and valor
    (the empty text for a field the record lacks), the year key it came
    under, the indicator code, the formula text and the unit label. *)
Theorem transform_raw_data_csv_rows :
  forall raw years,
    distinct (keys raw) = true ->
    typed_years raw = Some years ->
    option_map (fun r => filter not_flag (keys r)) (first_record years)
    = Some data_fields ->
    api_fields_only years = true ->
    occurs "sinal_conv" years = true ->
    occurs "sinal_conv_desc" years = true ->
    exists df,
      transform_raw_data raw = Return df
      /\ csv_rows (to_csv df) = map csv_row (observations years).
Proof.
  intros raw years Hd Hty Hfirst Hall H1 H2.
  apply distinct_NoDup in Hd.
  assert (Hne : raw <> []).
  { intros ->. simpl in Hty. injection Hty as <-. discriminate. }
  exists (expected_table years).
  split; [apply transform_raw_data_expected; assumption |].
  unfold expected_table. rewrite to_csv_table. cbn [csv_rows].
  rewrite (table_labels_api years Hfirst Hall).
  apply map_ext. intro o. reflexivity.
Qed.

Lemma transform_raw_data_csv_rows_witness :
  exists df,
    transform_raw_data raw_two_years = Return df
    /\ csv_rows (to_csv df)
       = [["PT"; "Portugal"; "T"; "Total"; "30.9"; "2011"; "0008074";
           "(Number of crimes/ Resident population)*1000"; "Permillage"];
          ["PT"; "Portugal"; "1"; "Crimes against persons"; ""; "2011"; "0008074";
           "(Number of crimes/ Resident population)*1000"; "Permillage"];
          ["PT"; "Portugal"; "T"; "Total"; "29.5"; "2012"; "0008074";
           "(Number of crimes/ Resident population)*1000"; "Permillage"]].
Proof.
  apply (transform_raw_data_csv_rows raw_two_years years_two_years); reflexivity.
Defined.

(** ** [main]: what a run leaves behind *)

Lemma blob_names_differ (today : Z) : extract_file today <> data_file today.
Proof. unfold extract_file, data_file. cbn [String.append]. discriminate. Qed.

(** The container and the outcome of [main] do not hang on its log, on the
    overdue flag or on the time stamp. *)
Lemma main_effect_spec requests_get upload_failure today past_due utc_timestamp st :
  (container_client (fst (main requests_get upload_failure today past_due utc_timestamp st)),
   snd (main requests_get upload_failure today past_due utc_timestamp st))
  = main_effect requests_get upload_failure today (container_client st).
Proof.
  unfold main, main_effect, job_bind, stage, info, load_raw_data, load_clean_data,
    job_bind, upload_blob, transform_stage, stage, info.
  fold (extract_file today). fold (data_file today).
  cbn [fst snd job_log container_client].
  destruct (snd (get_parameters_range requests_get reqUrl)) as [parameters | e |];
    try reflexivity.
  destruct (snd (get_raw_data requests_get reqUrl parameters)) as [raw | e |];
    try reflexivity.
  destruct (upload_failure (extract_file today)) as [e |]; try reflexivity.
  cbn [fst snd job_log container_client].
  destruct (transform_raw_data raw) as [clean | e |]; try reflexivity.
  destruct (upload_failure (data_file today)) as [e |]; try reflexivity.
  destruct past_due; reflexivity.
Qed.

Lemma dict_set_same {V : Type} (k : string) (v : V) (d : list (string * V)) :
  dict_get k d = Some v -> dict_set k v d = d.
Proof.
  induction d as [| [k0 v0] d IH]; simpl; [discriminate |].
  destruct (String.eqb k k0); intro H.
  - injection H as ->. reflexivity.
  - rewrite IH by exact H. reflexivity.
Qed.

Lemma main_effect_container requests_get upload_failure today past_due utc_timestamp st :
  container_client (fst (main requests_get upload_failure today past_due utc_timestamp st))
  = fst (main_effect requests_get upload_failure today (container_client st)).
Proof.
  rewrite <- (main_effect_spec _ _ _ past_due utc_timestamp). reflexivity.
Qed.

Lemma main_effect_outcome requests_get upload_failure today past_due utc_timestamp st :
  snd (main requests_get upload_failure today past_due utc_timestamp st)
  = snd (main_effect requests_get upload_failure today (container_client st)).
Proof.
  rewrite <- (main_effect_spec _ _ _ past_due utc_timestamp). reflexivity.
Qed.

Lemma get_parameters_range_returns_or_unbound requests_get url :
  (exists tokens, snd (get_parameters_range requests_get url) = Return tokens)
  \/ snd (get_parameters_range requests_get url)
     = Raise (UnboundLocalError "parameters_list").
Proof.
  unfold get_parameters_range, range_try.
  destruct (requests_get (url +++ "S7A2011")) as [response | e];
    [| right; reflexivity].
  destruct (status_code response =? 200); [| right; reflexivity].
  destruct (last_year_field_outcome response) as [[Y HY] | (e & He & _)].
  - left. rewrite HY. eexists. reflexivity.
  - right. rewrite He. reflexivity.
Qed.

(** X14. When range discovery does not return a list, [main] ends with
    the [UnboundLocalError] for [parameters_list] and the container is as it
    was: nothing is fetched into it, neither blob is written. *)
Theorem main_range_failure_stores_nothing :
  forall requests_get upload_failure today past_due utc_timestamp st,
    (forall tokens, snd (get_parameters_range requests_get reqUrl) <> Return tokens) ->
    snd (main requests_get upload_failure today past_due utc_timestamp st)
    = Raise (UnboundLocalError "parameters_list")
    /\ container_client
         (fst (main requests_get upload_failure today past_due utc_timestamp st))
       = container_client st.
Proof.
  intros requests_get upload_failure today past_due utc_timestamp st Hno.
  rewrite main_effect_outcome, main_effect_container. unfold main_effect.
  destruct (get_parameters_range_returns_or_unbound requests_get reqUrl)
    as [[tokens H] | H].
  - exfalso. apply (Hno tokens). exact H.
  - rewrite H. split; reflexivity.
Qed.

Lemma main_range_failure_stores_nothing_witness :
  snd (main (fun _ => Failed (RequestError "timed out")) (fun _ => None) 20240131
            false "2024-01-31T00:00:00+00:00" empty_job)
  = Raise (UnboundLocalError "parameters_list")
  /\ container_client
       (fst (main (fun _ => Failed (RequestError "timed out")) (fun _ => None) 20240131
                  false "2024-01-31T00:00:00+00:00" empty_job))
     = container_client empty_job.
Proof.
  apply (main_range_failure_stores_nothing
           (fun _ => Failed (RequestError "timed out")) (fun _ => None) 20240131
           false "2024-01-31T00:00:00+00:00" empty_job).
  intros tokens. discriminate.
Defined.

(** X15. When the clean-sink upload raises, [main] ends with that
    exception and the raw extract written before it stays in the
    container. *)
Theorem main_clean_sink_failure_keeps_extract :
  forall requests_get upload_failure today past_due utc_timestamp st
         parameters raw clean e,
    snd (get_parameters_range requests_get reqUrl) = Return parameters ->
    snd (get_raw_data requests_get reqUrl parameters) = Return raw ->
    upload_failure (extract_file today) = None ->
    transform_raw_data raw = Return clean ->
    upload_failure (data_file today) = Some e ->
    snd (main requests_get upload_failure today past_due utc_timestamp st) = Raise e
    /\ container_client
         (fst (main requests_get upload_failure today past_due utc_timestamp st))
       = dict_set (extract_file today) (JsonBlob raw) (container_client st)
    /\ dict_get (extract_file today)
         (container_client
            (fst (main requests_get upload_failure today past_due utc_timestamp st)))
       = Some (JsonBlob raw).
Proof.
  intros requests_get upload_failure today past_due utc_timestamp st
         parameters raw clean e H1 H2 Hup1 Htr Hup2.
  rewrite main_effect_outcome, main_effect_container. unfold main_effect.
  rewrite H1, H2, Hup1, Htr, Hup2. cbn [fst snd].
  repeat split. rewrite dict_get_set, String.eqb_refl. reflexivity.
Qed.

Lemma main_clean_sink_failure_keeps_extract_witness :
  snd (main api_flagged refuse_data 20240131 false "2024-01-31T00:00:00+00:00" empty_job)
  = Raise (UploadError "service unavailable")
  /\ dict_get (extract_file 20240131)
       (container_client
          (fst (main api_flagged refuse_data 20240131 false
                     "2024-01-31T00:00:00+00:00" empty_job)))
     = Some (JsonBlob
               [("2011", JArr [obs_flagged "PT" "Portugal" "T" "Total" "30.9" "" ""]);
                ("2012", JArr [obs_flagged "PT" "Portugal" "T" "Total" "29.5" "" ""])]).
Proof.
  destruct (main_clean_sink_failure_keeps_extract api_flagged refuse_data 20240131 false
              "2024-01-31T00:00:00+00:00" empty_job ["S7A2011"; "S7A2012"]
              [("2011", JArr [obs_flagged "PT" "Portugal" "T" "Total" "30.9" "" ""]);
               ("2012", JArr [obs_flagged "PT" "Portugal" "T" "Total" "29.5" "" ""])]
              (expected_table
                 [("2011", [[("geocod", "PT"); ("geodsg", "Portugal"); ("dim_3", "T");
                             ("dim_3_t", "Total"); ("valor", "30.9");
                             ("sinal_conv", ""); ("sinal_conv_desc", "")]]);
                  ("2012", [[("geocod", "PT"); ("geodsg", "Portugal"); ("dim_3", "T");
                             ("dim_3_t", "Total"); ("valor", "29.5");
                             ("sinal_conv", ""); ("sinal_conv_desc", "")]])])
              (UploadError "service unavailable")
              eq_refl eq_refl eq_refl eq_refl eq_refl) as (Hout & _ & Hget).
  split; [exact Hout | exact Hget].
Defined.

(** X16. [main] writes under the two names of the day and nowhere else:
    whatever the run does and however it ends, every other blob of the
    container reads after the run as it did before. *)
Theorem main_touches_only_its_blobs :
  forall requests_get upload_failure today past_due utc_timestamp st name,
    name <> extract_file today ->
    name <> data_file today ->
    dict_get name
      (container_client
         (fst (main requests_get upload_failure today past_due utc_timestamp st)))
    = dict_get name (container_client st).
Proof.
  intros requests_get upload_failure today past_due utc_timestamp st name He Hd.
  rewrite main_effect_container. unfold main_effect.
  assert (E1 : String.eqb name (extract_file today) = false)
    by (apply String.eqb_neq; exact He).
  assert (E2 : String.eqb name (data_file today) = false)
    by (apply String.eqb_neq; exact Hd).
  destruct (snd (get_parameters_range requests_get reqUrl)) as [parameters | e |];
    try reflexivity.
  destruct (snd (get_raw_data requests_get reqUrl parameters)) as [raw | e |];
    try reflexivity.
  destruct (upload_failure (extract_file today)) as [e |]; try reflexivity.
  destruct (transform_raw_data raw) as [clean | e |];
    [destruct (upload_failure (data_file today)) as [e |] | |];
    cbn [fst]; rewrite ?dict_get_set, ?E1, ?E2; reflexivity.
Qed.

Lemma main_touches_only_its_blobs_witness :
  dict_get "extract/extract-20240130.json"
    (container_client
       (fst (main api_flagged (fun _ => None) 20240131 false
                  "2024-01-31T00:00:00+00:00" job_with_old_extract)))
  = dict_get "extract/extract-20240130.json" (container_client job_with_old_extract).
Proof.
  apply (main_touches_only_its_blobs api_flagged (fun _ => None) 20240131 false
           "2024-01-31T00:00:00+00:00" job_with_old_extract
           "extract/extract-20240130.json"); discriminate.
Defined.

(** X17. The overdue flag of the timer and the time stamp are logged and
    never acted upon: two runs that differ only in them end the same way and
    leave the same container. *)
Theorem main_overdue_flag_only_logged :
  forall requests_get upload_failure today st past_due1 utc1 past_due2 utc2,
    snd (main requests_get upload_failure today past_due1 utc1 st)
    = snd (main requests_get upload_failure today past_due2 utc2 st)
    /\ container_client (fst (main requests_get upload_failure today past_due1 utc1 st))
       = container_client (fst (main requests_get upload_failure today past_due2 utc2 st)).
Proof.
  intros. rewrite !main_effect_outcome, !main_effect_container. split; reflexivity.
Qed.

(** X18. Blobs are named by the day and uploaded with overwrite: running
    [main] again on the same day against the same answers leaves the
    container exactly as the first run left it, and ends the same way. *)
Theorem main_same_day_rerun :
  forall requests_get upload_failure today st past_due1 utc1 st2 past_due2 utc2,
    container_client st2
    = container_client (fst (main requests_get upload_failure today past_due1 utc1 st)) ->
    container_client (fst (main requests_get upload_failure today past_due2 utc2 st2))
    = container_client st2
    /\ snd (main requests_get upload_failure today past_due2 utc2 st2)
       = snd (main requests_get upload_failure today past_due1 utc1 st).
Proof.
  intros requests_get upload_failure today st past_due1 utc1 st2 past_due2 utc2 Hst2.
  rewrite !main_effect_outcome, !main_effect_container, Hst2, main_effect_container.
  pose proof (blob_names_differ today) as Hnames.
  assert (E : String.eqb (extract_file today) (data_file today) = false)
    by (apply String.eqb_neq; exact Hnames).
  unfold main_effect.
  destruct (snd (get_parameters_range requests_get reqUrl)) as [parameters | e |];
    try (split; reflexivity).
  destruct (snd (get_raw_data requests_get reqUrl parameters)) as [raw | e |];
    try (split; reflexivity).
  destruct (upload_failure (extract_file today)) as [e |]; try (split; reflexivity).
  destruct (transform_raw_data raw) as [clean | e |];
    [destruct (upload_failure (data_file today)) as [e |] | |];
    cbn [fst snd]; (split; [| reflexivity]);
    repeat (rewrite dict_set_same;
            [| rewrite ?dict_get_set, ?E, ?String.eqb_refl; reflexivity]);
    reflexivity.
Qed.

Lemma main_same_day_rerun_witness :
  container_client
    (fst (main api_flagged (fun _ => None) 20240131 true "2024-01-31T06:00:00+00:00"
               (fst (main api_flagged (fun _ => None) 20240131 false
                          "2024-01-31T00:00:00+00:00" empty_job))))
  = container_client
      (fst (main api_flagged (fun _ => None) 20240131 false
                 "2024-01-31T00:00:00+00:00" empty_job)).
Proof.
  apply (main_same_day_rerun api_flagged (fun _ => None) 20240131 empty_job
           false "2024-01-31T00:00:00+00:00"
           (fst (main api_flagged (fun _ => None) 20240131 false
                      "2024-01-31T00:00:00+00:00" empty_job))
           true "2024-01-31T06:00:00+00:00").
  reflexivity.
Defined.

(** X19. When the API reports a last year before 2011, the run does not
    stop at the empty parameter list: [main] fetches nothing, stores an empty
    mapping as the raw extract, and only then fails in the transformer, where
    [pd.concat] is handed no frame; no CSV is stored. *)
Theorem main_before_first_year :
  forall requests_get upload_failure today past_due utc_timestamp st response Y,
    requests_get (reqUrl +++ "S7A2011") = Responded response ->
    status_code response = 200 ->
    last_year_field response = Return Y ->
    Y < 2011 ->
    upload_failure (extract_file today) = None ->
    snd (main requests_get upload_failure today past_due utc_timestamp st)
    = Raise NoObjectsToConcatenate
    /\ container_client
         (fst (main requests_get upload_failure today past_due utc_timestamp st))
       = dict_set (extract_file today) (JsonBlob []) (container_client st).
Proof.
  intros requests_get upload_failure today past_due utc_timestamp st response Y
         Hget Hst Hlast HY Hup.
  rewrite main_effect_outcome, main_effect_container. unfold main_effect.
  assert (Hpar : snd (get_parameters_range requests_get reqUrl) = Return []).
  { unfold get_parameters_range, range_try. rewrite Hget, Hst, Hlast.
    cbn [Z.eqb Pos.eqb snd]. rewrite py_range_empty by lia. reflexivity. }
  rewrite Hpar. cbn [get_raw_data fetch_loop snd bind data]. rewrite Hup.
  split; reflexivity.
Qed.

Lemma main_before_first_year_witness :
  snd (main (fun _ => ok_response [("UltimoPref", JStr "2010")]) (fun _ => None)
            20240131 false "2024-01-31T00:00:00+00:00" empty_job)
  = Raise NoObjectsToConcatenate
  /\ container_client
       (fst (main (fun _ => ok_response [("UltimoPref", JStr "2010")]) (fun _ => None)
                  20240131 false "2024-01-31T00:00:00+00:00" empty_job))
     = dict_set (extract_file 20240131) (JsonBlob []) (container_client empty_job).
Proof.
  apply (main_before_first_year
           (fun _ => ok_response [("UltimoPref", JStr "2010")]) (fun _ => None)
           20240131 false "2024-01-31T00:00:00+00:00" empty_job
           {| status_code := 200;
              body := Some (JArr [JObj [("UltimoPref", JStr "2010")]]) |} 2010);
    [reflexivity | reflexivity | reflexivity | lia | reflexivity].
Defined.
